(** * League of Leagues companion client: session bridge and lobby join

    A shallow embedding of [leagueofleagues_client.py]: the remote
    backend calls ([authenticate], [join_game_action]), the lobby
    matcher and join sequencer ([do_join_lobby]), the push-event
    handlers registered in [setup_connector] ([connect],
    [on_summoner_update], [on_gameflow_phase], [fetch_summoner_info])
    and the connector retry loop of [main] ([start_connector]).

    Conventions of the model.
    - Python [str] is [string]; a character is a code point below 256.
      [lower] and [isspace] are those of Python on that range.
      [str.upper] leaves the range (for U+00B5, U+00DF, U+00FF) and is
      a parameter [upper] of the functions that call it.
    - Python objects decoded from JSON are [value]s; numbers are
      integers, dictionaries are association lists read at their first
      binding of a key.
    - The program runs in the monad [M]: it threads the module globals
      (the session), the log of effects and the call counters, and
      returns normally or raises.  A raised exception keeps the state
      reached so far, as in Python.
    - Every effect is logged together with the globals in force when it
      happened, so the log also tells what another thread reading the
      globals could see at that moment.
    - The outside world ([world]) answers the calls the program makes:
      [requests.get], [connection.request], [resp.json()],
      [ask_for_input], [connector.start()].  [print], [show_dialog],
      [root.after], [time.sleep] and [delete_config] are logged and
      do not raise ([show_dialog] and [delete_config] catch their own
      exceptions in the source). *)

From Stdlib Require Import String Ascii List ZArith NArith Bool Lia Arith.
Import ListNotations.
Local Open Scope string_scope.
Local Open Scope Z_scope.

(** ** Strings *)

Module Str.

Definition code (c : ascii) : N := N_of_ascii c.

Definition in_range (lo hi n : N) : bool := ((lo <=? n) && (n <=? hi))%N.

(** [str.lower] on one character: A-Z, and the upper-case letters
    of the Latin-1 supplement. *)
Definition lower_char (c : ascii) : ascii :=
  let n := code c in
  if in_range 65 90 n || in_range 192 214 n || in_range 216 222 n
  then ascii_of_N (n + 32) else c.

Fixpoint lower (s : string) : string :=
  match s with
  | EmptyString => EmptyString
  | String c r => String (lower_char c) (lower r)
  end.

(** [str.isspace] on one character. *)
Definition isspace (c : ascii) : bool :=
  let n := code c in
  in_range 9 13 n || in_range 28 32 n || (n =? 133)%N || (n =? 160)%N.

Fixpoint lstrip (s : string) : string :=
  match s with
  | EmptyString => EmptyString
  | String c r => if isspace c then lstrip r else s
  end.

Fixpoint rstrip (s : string) : string :=
  match s with
  | EmptyString => EmptyString
  | String c r =>
      match rstrip r with
      | EmptyString => if isspace c then EmptyString else String c EmptyString
      | r' => String c r'
      end
  end.

(** [s.strip()] *)
Definition strip (s : string) : string := rstrip (lstrip s).

(** [s.startswith(p)] *)
Fixpoint startswith (s p : string) : bool :=
  match p, s with
  | EmptyString, _ => true
  | String a p', String b s' => Ascii.eqb a b && startswith s' p'
  | String _ _, EmptyString => false
  end.

(** [needle in s] *)
Fixpoint contains (s needle : string) : bool :=
  startswith s needle ||
  match s with
  | EmptyString => false
  | String _ r => contains r needle
  end.

(** [s.split(sep, 1)] for a one-character separator: the whole string
    when [sep] does not occur, else the parts before and after its
    first occurrence. *)
Fixpoint split1 (sep : ascii) (s : string) : list string :=
  match s with
  | EmptyString => [EmptyString]
  | String c r =>
      if Ascii.eqb c sep then [EmptyString; r]
      else match split1 sep r with
           | [a; b] => [String c a; b]
           | _ => [s]
           end
  end.

(** [not s] *)
Definition is_empty (s : string) : bool :=
  match s with EmptyString => true | _ => false end.

(** [c in s] for one character *)
Fixpoint occurs (c : ascii) (s : string) : bool :=
  match s with
  | EmptyString => false
  | String a r => Ascii.eqb a c || occurs c r
  end.

End Str.

(** ** Python values, exceptions, formatted text *)

#[local] Set Warnings "-register-all".

Inductive value : Type :=
| VNone
| VBool (b : bool)
| VInt (n : Z)
| VStr (s : string)
| VList (l : list value)
| VDict (d : list (string * value)).

(** The exceptions the modelled code can meet.  [External] is any
    exception raised by a library call (transport, HTTP, JSON
    decoding). *)
Inductive exn : Type :=
| ValueError_unpack (expected got : nat)
| AttributeError (v : value) (attr : string)
| KeyError (key : string)
| TypeError (v : value) (op : string)
| External (what : string).

Inductive result (A : Type) : Type :=
| Ok (a : A)
| Raise (e : exn).
Arguments Ok {A} a.
Arguments Raise {A} e.

(** An f-string, piece by piece: literal text, [{v}] for a value,
    [{e}] for an exception. *)
Inductive piece : Type :=
| Lit (s : string)
| Fmt (v : value)
| FmtExn (e : exn).

Definition fstring := list piece.

Module Py.

(** Truth value of an object. *)
Definition truthy (v : value) : bool :=
  match v with
  | VNone => false
  | VBool b => b
  | VInt n => negb (n =? 0)
  | VStr s => negb (Str.is_empty s)
  | VList l => match l with [] => false | _ => true end
  | VDict d => match d with [] => false | _ => true end
  end.

Definition is_none (v : value) : bool :=
  match v with VNone => true | _ => false end.

(** [isinstance(v, str)] *)
Definition is_str (v : value) : bool :=
  match v with VStr _ => true | _ => false end.

Fixpoint lookup (d : list (string * value)) (k : string) : option value :=
  match d with
  | [] => None
  | (k', v) :: r => if String.eqb k' k then Some v else lookup r k
  end.

(** [v.get(k, default)] *)
Definition get (v : value) (k : string) (default : value) : result value :=
  match v with
  | VDict d => Ok (match lookup d k with Some x => x | None => default end)
  | _ => Raise (AttributeError v "get")
  end.

(** [v[k]] for a string key *)
Definition index (v : value) (k : string) : result value :=
  match v with
  | VDict d => match lookup d k with Some x => Ok x | None => Raise (KeyError k) end
  | _ => Raise (TypeError v "subscript")
  end.

(** [v.lower()] *)
Definition lower (v : value) : result string :=
  match v with
  | VStr s => Ok (Str.lower s)
  | _ => Raise (AttributeError v "lower")
  end.

Fixpoint chars (s : string) : list value :=
  match s with
  | EmptyString => []
  | String c r => VStr (String c EmptyString) :: chars r
  end.

(** The elements [for g in v] goes through. *)
Definition iter (v : value) : result (list value) :=
  match v with
  | VList l => Ok l
  | VDict d => Ok (map (fun kv => VStr (fst kv)) d)
  | VStr s => Ok (chars s)
  | _ => Raise (TypeError v "iter")
  end.

(** [next((g for g in l if pred(g)), None)]: the generator is
    consumed up to its first hit only. *)
Fixpoint next_or_none (pred : value -> result bool) (l : list value)
  : result value :=
  match l with
  | [] => Ok VNone
  | g :: r =>
      match pred g with
      | Raise e => Raise e
      | Ok true => Ok g
      | Ok false => next_or_none pred r
      end
  end.

(** [a, b = l] *)
Definition unpack2 (l : list string) : result (string * string) :=
  match l with
  | [a; b] => Ok (a, b)
  | _ => Raise (ValueError_unpack 2 (length l))
  end.

End Py.

(** ** Globals, effects, world *)

(** The module globals that make the session state (lines 61-65). *)
Record session : Type := {
  summoner_name : value;
  summoner_tag : value;
  region : value;
  is_ready : bool;
  current_phase : value
}.

(** Module globals at import time. *)
Definition initial_session : session :=
  {| summoner_name := VNone; summoner_tag := VNone; region := VNone;
     is_ready := false; current_phase := VNone |}.

(** Callbacks handed to [root.after]: the closure [schedule_join] of
    [join_game_action], [join_lobby] (which starts [do_join_lobby] as a
    task of the connector's loop), and a [show_dialog] call. *)
Inductive callback : Type :=
| ScheduleJoin (summoner tag pin : string)
| JoinLobby (summoner tag pin : string)
| ShowDialog (kind title : string) (msg : fstring).

Inductive event : Type :=
| Print (msg : fstring)
| PrintExc
| Dialog (kind title : string) (msg : fstring)
| AskInput (title prompt : string)
| HttpGet (url : string) (params : list (string * string)) (timeout : Z)
| Request (method : string) (path : fstring) (body : option value)
| After (ms : Z) (cb : callback)
| Start
| Sleep (secs : Z)
| DeleteConfig.

(** [resp.status] and what [await resp.json()] gives. *)
Record response : Type := {
  status : Z;
  json : result value
}.

(** [resp.status_code] and [resp.text] *)
Record http_response : Type := {
  status_code : Z;
  text : string
}.

Record world : Type := {
  (** the [k]-th [connection.request(method, path, json=body)] *)
  lcu : nat -> string -> fstring -> option value -> result response;
  (** [requests.get(url, params=params, timeout=10)] *)
  http_get : string -> list (string * string) -> result http_response;
  (** what the user types into [ask_for_input(title, prompt)] *)
  user_input : string -> string -> option string;
  (** the [k]-th [connector.start()] *)
  connector_start : nat -> result unit;
  (** truth values of the globals [connector] and [root] *)
  connector_set : bool;
  root_set : bool
}.

Record state : Type := {
  glob : session;
  nreq : nat;
  nstart : nat;
  log : list (session * event)
}.

Definition initial_state (g : session) : state :=
  {| glob := g; nreq := 0; nstart := 0; log := [] |}.

Definition events (s : state) : list event := map snd (log s).

Definition M (A : Type) : Type := state -> result A * state.

Definition ret {A} (a : A) : M A := fun s => (Ok a, s).

Definition bind {A B} (m : M A) (k : A -> M B) : M B :=
  fun s => match m s with
           | (Ok a, s') => k a s'
           | (Raise e, s') => (Raise e, s')
           end.

Notation "x <- m ;; k" := (bind m (fun x => k))
  (at level 61, m at next level, right associativity).
Notation "m ;;; k" := (bind m (fun _ => k))
  (at level 61, right associativity).

(** [try: m  except Exception as e: h e] *)
Definition try_except {A} (m : M A) (h : exn -> M A) : M A :=
  fun s => match m s with
           | (Ok a, s') => (Ok a, s')
           | (Raise e, s') => h e s'
           end.

Definition lift {A} (r : result A) : M A := fun s => (r, s).

Definition emit (e : event) : M unit :=
  fun s => (Ok tt, {| glob := glob s; nreq := nreq s; nstart := nstart s;
                      log := log s ++ [(glob s, e)] |}).

Definition get_glob : M session := fun s => (Ok (glob s), s).

Definition set_glob (f : session -> session) : M unit :=
  fun s => (Ok tt, {| glob := f (glob s); nreq := nreq s; nstart := nstart s;
                      log := log s |}).

Definition set_summoner_name (v : value) (g : session) : session :=
  {| summoner_name := v; summoner_tag := summoner_tag g; region := region g;
     is_ready := is_ready g; current_phase := current_phase g |}.
Definition set_summoner_tag (v : value) (g : session) : session :=
  {| summoner_name := summoner_name g; summoner_tag := v; region := region g;
     is_ready := is_ready g; current_phase := current_phase g |}.
Definition set_region (v : value) (g : session) : session :=
  {| summoner_name := summoner_name g; summoner_tag := summoner_tag g; region := v;
     is_ready := is_ready g; current_phase := current_phase g |}.
Definition set_is_ready (b : bool) (g : session) : session :=
  {| summoner_name := summoner_name g; summoner_tag := summoner_tag g;
     region := region g; is_ready := b; current_phase := current_phase g |}.
Definition set_current_phase (v : value) (g : session) : session :=
  {| summoner_name := summoner_name g; summoner_tag := summoner_tag g;
     region := region g; is_ready := is_ready g; current_phase := v |}.

Definition print (msg : fstring) : M unit := emit (Print msg).
Definition print_exc : M unit := emit PrintExc.
Definition show_dialog (kind title : string) (msg : fstring) : M unit :=
  emit (Dialog kind title msg).
Definition root_after (ms : Z) (cb : callback) : M unit := emit (After ms cb).
Definition sleep (secs : Z) : M unit := emit (Sleep secs).
Definition delete_config : M unit := emit DeleteConfig.

Definition ask_for_input (w : world) (title prompt : string) : M (option string) :=
  emit (AskInput title prompt) ;;; ret (user_input w title prompt).

(** [requests.get(url, params=params, timeout=10)] *)
Definition requests_get (w : world) (url : string) (params : list (string * string))
  : M http_response :=
  emit (HttpGet url params 10) ;;; lift (http_get w url params).

(** [await connection.request(method, path, json=body)] *)
Definition request (w : world) (method : string) (path : fstring)
  (body : option value) : M response :=
  fun s =>
    (lcu w (nreq s) method path body,
     {| glob := glob s; nreq := S (nreq s); nstart := nstart s;
        log := log s ++ [(glob s, Request method path body)] |}).

(** [connector.start()] *)
Definition start (w : world) : M unit :=
  fun s =>
    (connector_start w (nstart s),
     {| glob := glob s; nreq := nreq s; nstart := S (nstart s);
        log := log s ++ [(glob s, Start)] |}).

(** ** Constants (lines 52-58) *)

Definition API_BASE : string := "https://rust.gameras.gr".
Definition AUTH_URL : string := API_BASE ++ "/auth".
Definition JOINMATCH_URL : string := API_BASE ++ "/joinmatch".
Definition GAMEFLOW_PHASE : string := "/lol-gameflow/v1/gameflow-phase".

(** ** Authentication (lines 242-256, 925-938) *)

Definition authenticate (w : world) (discord_id : string) : M bool :=
  try_except
    (resp <- requests_get w AUTH_URL [("discord_id", discord_id)] ;;
     print [Lit "/auth "; Fmt (VInt (status_code resp)); Lit ": ";
            Fmt (VStr (text resp))] ;;;
     if (status_code resp =? 404) && Str.contains (text resp) "User not found"
     then print [Lit "User not registered, return False"] ;;; ret false
     else ret (status_code resp =? 200))
    (fun e => print [Lit "Auth error: "; FmtExn e] ;;; ret false).

(** The authentication step of [main]: [raw_id] is the stored
    [discord_id], [None] when there is none. *)
Definition startup_auth (w : world) (raw_id : option string) : M unit :=
  match raw_id with
  | Some id =>
      if Str.is_empty id then ret tt
      else
        try_except
          (auth_success <- authenticate w id ;;
           if auth_success
           then print [Lit "Successfully authenticated with stored credentials"]
           else print [Lit "Authentication failed with stored credentials"] ;;;
                delete_config)
          (fun e => print [Lit "Error during authentication: "; FmtExn e])
  | None => ret tt
  end.

(** ** The join-game command (lines 320-365) *)

(** Lines 348-350: the response text, parsed into summoner name, tag
    and pin. *)
Definition parse_join_response (text : string) : result (string * string * string) :=
  let response_data := Str.strip text in
  match Py.unpack2 (Str.split1 "," response_data) with
  | Raise e => Raise e
  | Ok (summoner_info, pin) =>
      match Py.unpack2 (Str.split1 "#" summoner_info) with
      | Raise e => Raise e
      | Ok (summoner_name_from_server, tag) => Ok (summoner_name_from_server, tag, pin)
      end
  end.

Definition join_game_action (w : world) : M unit :=
  print [Lit "Join game action triggered"] ;;;
  g <- get_glob ;;
  if negb (is_ready g) || Py.is_none (current_phase g) then
    show_dialog "error" "Error" [Lit "Client not ready or no phase info."]
  else
    print [Lit "[DEBUG] current_phase = "; Fmt (current_phase g)] ;;;
    pwd <- ask_for_input w "Join Game" "Enter match password:" ;;
    match pwd with
    | None => print [Lit "Join game cancelled."]
    | Some pwd =>
        if Str.is_empty pwd then print [Lit "Join game cancelled."]
        else
          try_except
            (resp <- requests_get w JOINMATCH_URL [("password", Str.strip pwd)] ;;
             print [Lit "/joinmatch "; Fmt (VInt (status_code resp)); Lit ": ";
                    Fmt (VStr (text resp))] ;;;
             if negb (status_code resp =? 200) || Str.is_empty (text resp) then
               show_dialog "error" "Join Game"
                 [Lit "Failed to join: Invalid response from server"]
             else
               parsed <- lift (parse_join_response (text resp)) ;;
               let '(summoner_name_from_server, tag, pin) := parsed in
               root_after 0 (ScheduleJoin summoner_name_from_server tag pin))
            (fun e => show_dialog "error" "Join Game" [Lit "Error: "; FmtExn e])
    end.

(** The callback [schedule_join] built by [join_game_action]. *)
Definition schedule_join (w : world) (summoner tag pin : string) : M unit :=
  if connector_set w && root_set w then
    print [Lit "Scheduling join lobby operation"] ;;;
    root_after 100 (JoinLobby summoner tag pin)
  else show_dialog "error" "Join Game" [Lit "Connector or UI not ready"].

(** ** Lobby matcher and join sequencer (lines 374-427) *)

(** The condition of the first generator: the owner name, lower-cased,
    equals the lower-cased ["{summoner} #{tag}"]. *)
Definition exact_match (target_full : string) (g : value) : result bool :=
  match Py.get g "ownerDisplayName" (VStr "") with
  | Raise e => Raise e
  | Ok o =>
      match Py.lower o with
      | Raise e => Raise e
      | Ok l => Ok (String.eqb l (Str.lower target_full))
      end
  end.

(** The condition of the second generator: the owner name,
    lower-cased, starts with the lower-cased summoner followed by [#]. *)
Definition prefix_match (summoner : string) (g : value) : result bool :=
  match Py.get g "ownerDisplayName" (VStr "") with
  | Raise e => Raise e
  | Ok o =>
      match Py.lower o with
      | Raise e => Raise e
      | Ok l => Ok (Str.startswith l (Str.lower summoner ++ "#"))
      end
  end.

(** Lines 380-397: the lobby chosen among [games], [VNone] when none. *)
Definition find_lobby (summoner tag : string) (games : value) : result value :=
  let target_full := summoner ++ " #" ++ tag in
  match Py.iter games with
  | Raise e => Raise e
  | Ok l =>
      match Py.next_or_none (exact_match target_full) l with
      | Raise e => Raise e
      | Ok m =>
          if negb (Py.truthy m)
          then Py.next_or_none (prefix_match summoner) l
          else Ok m
      end
  end.

Definition join_endpoint (game_id : value) : fstring :=
  [Lit "/lol-lobby/v2/lobby/custom/"; Fmt game_id; Lit "/join"].

Definition join_body (pin : string) : value :=
  VDict [("asSpectator", VBool false); ("password", VStr pin)].

Definition do_join_lobby (w : world) (summoner tag pin : string) : M unit :=
  try_except
    (games_resp <- request w "GET" [Lit "/lol-lobby/v2/lobby/custom/available"] None ;;
     games <- lift (json games_resp) ;;
     m <- lift (find_lobby summoner tag games) ;;
     if negb (Py.truthy m) then
       root_after 0
         (ShowDialog "error" "Join Game"
            [Lit "Couldn't find "; Fmt (VStr summoner); Lit "#"; Fmt (VStr tag);
             Lit "'s lobby"])
     else
       game_id <- lift (Py.index m "id") ;;
       let endpoint := join_endpoint game_id in
       let body := join_body pin in
       join_resp <- request w "POST" endpoint (Some body) ;;
       if status join_resp =? 200 then
         root_after 0
           (ShowDialog "info" "Join Game"
              [Lit "Successfully joined "; Fmt (VStr summoner); Lit "#";
               Fmt (VStr tag); Lit "'s lobby!"])
       else
         error_msg <- lift (json join_resp) ;;
         error_text <- lift (Py.get error_msg "message" (VStr "Unknown error")) ;;
         root_after 0
           (ShowDialog "error" "Join Game" [Lit "Failed to join: "; Fmt error_text]))
    (fun e =>
       print [Lit "Error in join_lobby: "; FmtExn e] ;;;
       print_exc ;;;
       root_after 0
         (ShowDialog "error" "Join Game"
            [Lit "Error during join process: "; FmtExn e])).

(** ** Push-event handlers (lines 806-903) *)

Section Handlers.

(** [str.upper], see the conventions at the head of the file. *)
Variable upper : string -> string.
Variable w : world.

(** [v.upper()] *)
Definition py_upper (v : value) : result string :=
  match v with
  | VStr s => Ok (upper s)
  | _ => Raise (AttributeError v "upper")
  end.

(** Lines 848-851 and 892-895: the body of the region [try]. *)
Definition fetch_region : M unit :=
  region_resp <- request w "GET" [Lit "/riotclient/region-locale"] None ;;
  if status region_resp =? 200 then
    region_data <- lift (json region_resp) ;;
    r <- lift (Py.get region_data "region" (VStr "")) ;;
    u <- lift (py_upper r) ;;
    set_glob (set_region (VStr u))
  else ret tt.

(** Lines 838-842 and 884-888: read [gameName] and [tagLine] out of
    a decoded body into the globals. *)
Definition store_identity (data : value) : M unit :=
  n <- lift (Py.get data "gameName" VNone) ;;
  set_glob (set_summoner_name n) ;;;
  t <- lift (Py.get data "tagLine" VNone) ;;
  set_glob (set_summoner_tag t).

Definition print_identity (head : string) : M unit :=
  g <- get_glob ;;
  print [Lit head; Fmt (summoner_name g); Lit "#"; Fmt (summoner_tag g);
         Lit " Region: "; Fmt (region g)].

Definition fetch_summoner_info : M bool :=
  try_except
    (resp <- request w "GET" [Lit "/lol-summoner/v1/current-summoner"] None ;;
     if status resp =? 200 then
       data <- lift (json resp) ;;
       store_identity data ;;;
       try_except fetch_region (fun _ => ret tt) ;;;
       print_identity "Fetched summoner info: " ;;;
       ret true
     else ret false)
    (fun e => print [Lit "Error fetching summoner info: "; FmtExn e] ;;; ret false).

(** The [ready] handler. *)
Definition connect : M unit :=
  print [Lit "[DEBUG] Connector ready handler invoked"] ;;;
  set_glob (set_is_ready true) ;;;
  try_except
    (resp <- request w "GET" [Lit "/lol-gameflow/v1/gameflow-phase"] None ;;
     v <- lift (json resp) ;;
     set_glob (set_current_phase v) ;;;
     print [Lit "[INITIAL PHASE] "; Fmt v])
    (fun e =>
       print [Lit "Failed to get initial phase: "; FmtExn e] ;;;
       set_glob (set_current_phase VNone)) ;;;
  _ <- fetch_summoner_info ;;
  ret tt.

(** Handler of [/lol-summoner/v1/current-summoner] events;
    [data] is [event.data]. *)
Definition on_summoner_update (data : value) : M unit :=
  try_except
    (if Py.truthy data then
       n <- lift (Py.get data "gameName" VNone) ;;
       set_glob (set_summoner_name n) ;;;
       t <- lift (Py.get data "tagLine" VNone) ;;
       set_glob (set_summoner_tag t) ;;;
       g <- get_glob ;;
       (if negb (Py.truthy (summoner_name g)) || negb (Py.truthy (summoner_tag g)) then
          try_except
            (resp <- request w "GET" [Lit "/lol-summoner/v1/current-summoner"] None ;;
             if status resp =? 200 then
               summoner_data <- lift (json resp) ;;
               store_identity summoner_data
             else ret tt)
            (fun e => print [Lit "Error getting summoner data: "; FmtExn e])
        else ret tt) ;;;
       try_except fetch_region
         (fun e => print [Lit "Error getting region data: "; FmtExn e]) ;;;
       print_identity "Summoner updated: "
     else ret tt)
    (fun e => print [Lit "Error in summoner update handler: "; FmtExn e]).

(** Handler of [/lol-gameflow/v1/gameflow-phase] events;
    [data] is [event.data]. *)
Definition on_gameflow_phase (data : value) : M unit :=
  try_except
    ((if Py.is_str data then set_glob (set_current_phase data)
      else
        resp <- request w "GET" [Lit "/lol-gameflow/v1/gameflow-phase"] None ;;
        v <- lift (json resp) ;;
        set_glob (set_current_phase v)) ;;;
     g <- get_glob ;;
     print [Lit "[GAMEFLOW] Phase changed to: "; Fmt (current_phase g)])
    (fun e =>
       print [Lit "[GAMEFLOW ERROR] "; FmtExn e] ;;;
       set_glob (set_current_phase VNone)).

End Handlers.

(** ** The connector retry loop of [main] (lines 941-962) *)

Definition max_attempts : nat := 30.

(** The [while attempts < max_attempts] loop, from [attempts] on.
    [fuel] bounds the iterations; [None] when it is used up before
    the loop ends, else the final [attempts]. *)
Fixpoint retry_loop (w : world) (fuel : nat) (attempts : nat) : M (option nat) :=
  match fuel with
  | O => ret None
  | S fuel' =>
      if (attempts <? max_attempts)%nat then
        r <- try_except
               (start w ;;;
                print [Lit "[DEBUG] Connector.start() succeeded"] ;;;
                ret None)
               (fun e =>
                  let attempts := (attempts + 1)%nat in
                  print [Lit "[DEBUG] LCU connection failed: "; FmtExn e;
                         Lit ", retrying in 10 seconds... (Attempt ";
                         Fmt (VInt (Z.of_nat attempts)); Lit "/";
                         Fmt (VInt (Z.of_nat max_attempts)); Lit ")"] ;;;
                  sleep 10 ;;;
                  ret (Some attempts)) ;;
        match r with
        | None => ret (Some attempts)
        | Some attempts' => retry_loop w fuel' attempts'
        end
      else ret (Some attempts)
  end.

Definition start_connector (w : world) (fuel : nat) : M (option unit) :=
  try_except
    (print [Lit "Starting LCU connector..."] ;;;
     r <- retry_loop w fuel 0 ;;
     match r with
     | None => ret None
     | Some attempts =>
         if (max_attempts <=? attempts)%nat then
           print [Lit "Failed to connect to the League client after multiple attempts."] ;;;
           ret (Some tt)
         else ret (Some tt)
     end)
    (fun e =>
       print [Lit "Error starting connector: "; FmtExn e] ;;;
       print_exc ;;;
       ret (Some tt)).

(** * The tray commands that touch the stored registration

    [register_action], [check_status_action] and [load_config] need
    effects the connection code has not: the yes/no dialog's answer,
    the saving and loading of the settings file, and requests whose
    parameters are formatted values.  They run in a monad of their own,
    [Shell.S], over the same globals. *)

Module Shell.

(** The newline of the source's ["\n"]. *)
Definition nl : string := String (ascii_of_nat 10) EmptyString.

Definition OTP_URL : string := API_BASE ++ "/otp".

Inductive action : Type :=
| Print (msg : fstring)
| Dialog (kind title : string) (msg : fstring)
| AskInput (title : string) (prompt : fstring)
| HttpGet (url : string) (params : list (string * fstring)) (timeout : Z)
| SaveConfig (discord_id : string).

(** What [os.path.exists(CONFIG_PATH)] and
    [config.get('DEFAULT', 'discord_id', fallback=None)] give. *)
Inductive config_file : Type :=
| NoFile
| File (raw : option string).

Record desktop : Type := {
  (** what [show_dialog(kind, title, msg)] returns: the answer of a
      yes/no box, [None] after an error *)
  dialog_result : string -> string -> fstring -> value;
  (** what the user types into [ask_for_input(title, prompt)] *)
  typed : string -> fstring -> option string;
  (** [requests.get(url, params=params, timeout=10)] *)
  get : string -> list (string * fstring) -> result http_response;
  (** whether [save_config(discord_id)] gets the file written *)
  save_outcome : string -> result unit;
  (** the settings file as [load_config] finds it, or the exception of
      [config.read] or [config.get] *)
  config : result config_file;
  (** [json.loads] *)
  json_loads : string -> result value;
  (** [CONFIG_PATH] *)
  config_path : string
}.

Record st : Type := {
  globals : session;
  trail : list action
}.

Definition S (A : Type) : Type := st -> result A * st.

Definition ret {A} (a : A) : S A := fun s => (Ok a, s).

Definition bind {A B} (m : S A) (k : A -> S B) : S B :=
  fun s => match m s with
           | (Ok a, s') => k a s'
           | (Raise e, s') => (Raise e, s')
           end.

Definition try_except {A} (m : S A) (h : exn -> S A) : S A :=
  fun s => match m s with
           | (Ok a, s') => (Ok a, s')
           | (Raise e, s') => h e s'
           end.

Definition lift {A} (r : result A) : S A := fun s => (r, s).

Definition emit (a : action) : S unit :=
  fun s => (Ok tt, {| globals := globals s; trail := (trail s ++ [a])%list |}).

Definition get_globals : S session := fun s => (Ok (globals s), s).

Definition set_globals (f : session -> session) : S unit :=
  fun s => (Ok tt, {| globals := f (globals s); trail := trail s |}).

Definition print (msg : fstring) : S unit := emit (Print msg).

(** [show_dialog(kind, title, msg)]: it catches its own exceptions. *)
Definition show_dialog (dk : desktop) (kind title : string) (msg : fstring) : S value :=
  bind (emit (Dialog kind title msg)) (fun _ => ret (dialog_result dk kind title msg)).

Definition ask_for_input (dk : desktop) (title : string) (prompt : fstring)
  : S (option string) :=
  bind (emit (AskInput title prompt)) (fun _ => ret (typed dk title prompt)).

Definition requests_get (dk : desktop) (url : string) (params : list (string * fstring))
  : S http_response :=
  bind (emit (HttpGet url params 10)) (fun _ => lift (get dk url params)).

(** [save_config(discord_id)]: the file is written, then the path is
    printed; an exception of the writing goes to the caller. *)
Definition save_config (dk : desktop) (discord_id : string) : S unit :=
  match save_outcome dk discord_id with
  | Raise e => lift (Raise e)
  | Ok _ =>
      bind (emit (SaveConfig discord_id))
        (fun _ => print [Lit "Saved config to "; Fmt (VStr (config_path dk))])
  end.

(** [raw.strip() if raw else None] *)
Definition stripped_or_none (raw : option string) : value :=
  match raw with
  | Some r => if Str.is_empty r then VNone else VStr (Str.strip r)
  | None => VNone
  end.

(** [load_config()] (lines 195-209): the dictionary it returns. *)
Definition load_config (dk : desktop) : S value :=
  match config dk with
  | Raise e => lift (Raise e)
  | Ok NoFile => ret (VDict [("discord_id", VNone)])
  | Ok (File raw) =>
      let discord_id :=
        match raw with
        | None => stripped_or_none raw
        | Some r =>
            match json_loads dk r with
            | Raise _ => stripped_or_none raw
            | Ok v =>
                match Py.get v "discord_id" VNone with
                | Raise _ => stripped_or_none raw
                | Ok id => id
                end
            end
        end in
      ret (VDict [("discord_id", discord_id)])
  end.

(** [parts[i]] on the list a split gave. *)
Definition item (parts : list string) (i : nat) : result string :=
  match nth_error parts i with
  | Some p => Ok p
  | None => Raise (External "IndexError")
  end.

(** The [display] string of [register_action] (lines 292-294). *)
Definition display (g : session) : fstring :=
  ([Fmt (summoner_name g); Lit "#"; Fmt (summoner_tag g)]
   ++ (if Py.truthy (region g) then [Lit ","; Fmt (region g)] else []))%list.

(** Lines 270-289: [True] when the registration goes on, [False] when
    the function has returned. *)
Definition ensure_identity (dk : desktop) : S bool :=
  bind get_globals (fun g =>
  if negb (Py.truthy (summoner_name g)) || negb (Py.truthy (summoner_tag g)) then
    bind (show_dialog dk "yesno" "Summoner Info"
            [Lit "Could not automatically detect your summoner information. Would you like to enter it manually?"])
      (fun answer =>
    if Py.truthy answer then
      bind (ask_for_input dk "Enter Summoner Info"
              [Lit "Enter your Summoner Name#Tag (e.g., PlayerName#NA1):"])
        (fun manual_info =>
      let invalid :=
        bind (show_dialog dk "error" "Invalid Format" [Lit "Please use format: Name#Tag"])
          (fun _ => ret false) in
      match manual_info with
      | None => invalid
      | Some info =>
          if Str.is_empty info || negb (Str.contains info "#") then invalid
          else
            let parts := Str.split1 "#" info in
            bind (lift (item parts 0)) (fun p0 =>
            bind (set_globals (set_summoner_name (VStr (Str.strip p0)))) (fun _ =>
            bind (lift (item parts 1)) (fun p1 =>
            bind (set_globals (set_summoner_tag (VStr (Str.strip p1)))) (fun _ =>
            ret true))))
      end)
    else ret false)
  else ret true).

Definition register_action (dk : desktop) : S unit :=
  bind (print [Lit "Register action triggered"]) (fun _ =>
  bind get_globals (fun g =>
  if negb (is_ready g) then
    bind (show_dialog dk "error" "Not Ready" [Lit "Please open your League client first."])
      (fun _ => ret tt)
  else
    bind (ensure_identity dk) (fun go_on =>
    if negb go_on then ret tt
    else
      bind get_globals (fun g =>
      let display := display g in
      bind (ask_for_input dk "Enter Registration Code"
              ([Lit "Registering summoner: "] ++ display ++
               [Lit (nl ++ "Enter the registration code provided by the League of Leagues bot:")])%list)
        (fun otp =>
      let cancelled := print [Lit "Registration cancelled."] in
      match otp with
      | None => cancelled
      | Some otp =>
          if Str.is_empty otp then cancelled
          else
            try_except
              (bind (requests_get dk OTP_URL
                       [("otp_pass", [Fmt (VStr (Str.strip otp))]);
                        ("summonersname", display)])
                 (fun resp =>
               bind (print [Lit "/otp "; Fmt (VInt (status_code resp)); Lit ": ";
                            Fmt (VStr (text resp))]) (fun _ =>
               if (status_code resp =? 200) && negb (Str.is_empty (Str.strip (text resp)))
               then
                 bind (save_config dk (Str.strip (text resp))) (fun _ =>
                 bind (show_dialog dk "info" "Registered" [Lit "Successfully registered!"])
                   (fun _ => ret tt))
               else
                 bind (show_dialog dk "error" "Registration Failed"
                         [Lit "Invalid registration code or server error."])
                   (fun _ => ret tt))))
              (fun e =>
                 bind (show_dialog dk "error" "Error"
                         [Lit "Registration failed: "; FmtExn e])
                   (fun _ => ret tt))
      end))))).

(** [check_status_action] (lines 432-446). *)
Definition check_status_action (dk : desktop) : S unit :=
  bind (print [Lit "Check status action triggered"]) (fun _ =>
  bind (load_config dk) (fun config_data =>
  bind (lift (Py.get config_data "discord_id" VNone)) (fun registered_id =>
  bind get_globals (fun g =>
  let status_msg :=
    [Lit ("Status:" ++ nl ++ nl);
     Lit "Client Connected: "; Fmt (VStr (if is_ready g then "Yes" else "No")); Lit nl;
     Lit "Summoner: "; Fmt (summoner_name g); Lit "#";
     Fmt (if Py.truthy (summoner_name g) && Py.truthy (summoner_tag g)
          then summoner_tag g else VStr "Not detected");
     Lit nl;
     Lit "Region: "; Fmt (if Py.truthy (region g) then region g else VStr "Unknown");
     Lit nl;
     Lit "Registered: "; Fmt (VStr (if Py.truthy registered_id then "Yes" else "No"));
     Lit nl] in
  bind (show_dialog dk "info" "League of Leagues Status" status_msg) (fun _ => ret tt))))).

End Shell.

(** * Window placement *)

(** The size and position that [center_window] puts into the
    geometry string (lines 103-121), from the screen and window sizes
    it reads. *)
Definition center_geometry (screen_width screen_height window_width window_height : Z)
  : Z * Z * Z * Z :=
  let small := (window_width <? 100) || (window_height <? 100) in
  let window_width' := if small then 300 else window_width in
  let window_height' := if small then 200 else window_height in
  let x := (screen_width - window_width') / 2 in
  let y := (screen_height - window_height') / 2 in
  (window_width', window_height', x, y).

(** * Properties *)

(** [s] after the effects [evs], none of which touched the globals. *)
Definition logged (s : state) (evs : list event) : state :=
  {| glob := glob s; nreq := nreq s; nstart := nstart s;
     log := (log s ++ map (fun e => (glob s, e)) evs)%list |}.

Ltac unfold_m :=
  unfold try_except, bind, ret, lift, print, print_exc, show_dialog, root_after,
    sleep, delete_config, ask_for_input, requests_get, request, start, emit,
    get_glob, set_glob in *.

(** ** Strings *)

Example lower_owner : Str.lower "Ana #NA1" = "ana #na1".
Proof. reflexivity. Qed.

Example strip_both_ends : Str.strip "  Ana#NA1,abc 123  " = "Ana#NA1,abc 123".
Proof. reflexivity. Qed.

Example split1_first_only : Str.split1 "," "a,b,c" = ["a"; "b,c"].
Proof. reflexivity. Qed.

Example split1_without : Str.split1 "," "malformed" = ["malformed"].
Proof. reflexivity. Qed.

Example contains_marker : Str.contains "{'error': 'User not found'}" "User not found" = true.
Proof. reflexivity. Qed.

(** ** Authentication *)

Module AuthExamples.

(** The backend answers 404 "User not found". *)
Definition w_unregistered : world :=
  {| lcu := fun _ _ _ _ => Raise (External "no client");
     http_get := fun _ _ => Ok {| status_code := 404; text := "User not found" |};
     user_input := fun _ _ => None;
     connector_start := fun _ => Ok tt;
     connector_set := true; root_set := true |}.

(** The backend answers 500. *)
Definition w_server_error : world :=
  {| lcu := fun _ _ _ _ => Raise (External "no client");
     http_get := fun _ _ => Ok {| status_code := 500; text := "oops" |};
     user_input := fun _ _ => None;
     connector_start := fun _ => Ok tt;
     connector_set := true; root_set := true |}.

(** The request times out. *)
Definition w_timeout : world :=
  {| lcu := fun _ _ _ _ => Raise (External "no client");
     http_get := fun _ _ => Raise (External "ConnectTimeout");
     user_input := fun _ _ => None;
     connector_start := fun _ => Ok tt;
     connector_set := true; root_set := true |}.

(** The backend answers 200. *)
Definition w_registered : world :=
  {| lcu := fun _ _ _ _ => Raise (External "no client");
     http_get := fun _ _ => Ok {| status_code := 200; text := "ok" |};
     user_input := fun _ _ => None;
     connector_start := fun _ => Ok tt;
     connector_set := true; root_set := true |}.

End AuthExamples.

Example authenticate_unregistered_run :
  events (snd (authenticate AuthExamples.w_unregistered "42" (initial_state initial_session)))
  = [HttpGet "https://rust.gameras.gr/auth" [("discord_id", "42")] 10;
     Print [Lit "/auth "; Fmt (VInt 404); Lit ": "; Fmt (VStr "User not found")];
     Print [Lit "User not registered, return False"]].
Proof. reflexivity. Qed.

(** C4, as stated, fails: the definitive not-registered answer, another
    non-200 answer and a network failure all give the same [False], and
    the one caller, at start-up, deletes the stored configuration after
    a mere timeout just as after a not-registered answer. *)
Lemma authenticate_failures_alike :
  let s0 := initial_state initial_session in
  fst (authenticate AuthExamples.w_unregistered "42" s0) = Ok false
  /\ fst (authenticate AuthExamples.w_server_error "42" s0) = Ok false
  /\ fst (authenticate AuthExamples.w_timeout "42" s0) = Ok false
  /\ In DeleteConfig (events (snd (startup_auth AuthExamples.w_unregistered (Some "42") s0)))
  /\ In DeleteConfig (events (snd (startup_auth AuthExamples.w_server_error (Some "42") s0)))
  /\ In DeleteConfig (events (snd (startup_auth AuthExamples.w_timeout (Some "42") s0))).
Proof.
  cbv zeta. repeat split; try reflexivity; vm_compute; tauto.
Qed.

(** C4, amended: [authenticate] never raises; it returns [True] exactly
    when the backend answered with status 200, and [False] for every
    other answer and for every failure of the request alike; whenever it
    returns [False] for a stored id, start-up deletes the stored
    configuration. *)
Theorem authenticate_true_iff_200 (w : world) (discord_id : string) (s : state) :
  exists b : bool,
    fst (authenticate w discord_id s) = Ok b
    /\ (b = true <->
        exists r, http_get w AUTH_URL [("discord_id", discord_id)] = Ok r
                  /\ status_code r = 200)
    /\ (b = false -> Str.is_empty discord_id = false ->
        exists l, events (snd (startup_auth w (Some discord_id) s)) = (l ++ [DeleteConfig])%list).
Proof.
  unfold startup_auth, authenticate. unfold_m. simpl.
  destruct (http_get w AUTH_URL [("discord_id", discord_id)]) as [r|e] eqn:E; simpl.
  - destruct (status_code r =? 404) eqn:E4; simpl.
    + apply Z.eqb_eq in E4.
      destruct (Str.contains (text r) "User not found") eqn:Ec; simpl.
      * exists false. split; [reflexivity|]. split.
        -- split; [discriminate|]. intros [r' [Hr' H200]].
           inversion Hr'; subst r'. lia.
        -- intros _ Hne. rewrite Hne. simpl. unfold events; simpl.
           rewrite !map_app. simpl. eexists. reflexivity.
      * exists false. split; [|split].
        -- f_equal. apply Z.eqb_neq. lia.
        -- split; [discriminate|]. intros [r' [Hr' H200]].
           inversion Hr'; subst r'. lia.
        -- intros _ Hne. rewrite Hne.
           replace (status_code r =? 200) with false by (symmetry; apply Z.eqb_neq; lia).
           simpl. unfold events; simpl. rewrite !map_app. simpl.
           eexists. reflexivity.
    + exists (status_code r =? 200). split; [reflexivity|]. split.
      * split.
        -- intros H. exists r. split; [reflexivity|]. now apply Z.eqb_eq.
        -- intros [r' [Hr' H200]]. inversion Hr'; subst r'. now apply Z.eqb_eq.
      * intros Hb Hne. rewrite Hne, Hb. simpl. unfold events; simpl.
        rewrite !map_app. simpl. eexists. reflexivity.
  - exists false. split; [reflexivity|]. split.
    + split; [discriminate|]. intros [r' [Hr' _]]. discriminate.
    + intros _ Hne. rewrite Hne. simpl. unfold events; simpl.
      rewrite !map_app. simpl. eexists. reflexivity.
Qed.

Lemma authenticate_true_iff_200_witness :
  exists b : bool,
    fst (authenticate AuthExamples.w_timeout "42" (initial_state initial_session)) = Ok b
    /\ (b = true <->
        exists r, http_get AuthExamples.w_timeout AUTH_URL [("discord_id", "42")] = Ok r
                  /\ status_code r = 200)
    /\ (b = false -> Str.is_empty "42" = false ->
        exists l, events (snd (startup_auth AuthExamples.w_timeout (Some "42")
                                 (initial_state initial_session))) = (l ++ [DeleteConfig])%list).
Proof.
  exact (authenticate_true_iff_200 AuthExamples.w_timeout "42" (initial_state initial_session)).
Defined.

(** ** Strings: splitting and stripping *)

Lemma append_assoc (a b c : string) : (a ++ b) ++ c = a ++ (b ++ c).
Proof. induction a as [|x a IH]; simpl; [reflexivity | now rewrite IH]. Qed.

Lemma occurs_app (c : ascii) (a b : string) :
  Str.occurs c (a ++ b) = Str.occurs c a || Str.occurs c b.
Proof.
  induction a as [|x a IH]; simpl; [reflexivity|].
  now rewrite IH, orb_assoc.
Qed.

Lemma split1_absent (sep : ascii) (s : string) :
  Str.occurs sep s = false -> Str.split1 sep s = [s].
Proof.
  induction s as [|c r IH]; simpl; [reflexivity|].
  intros H. apply orb_false_iff in H as [Hc Hr].
  rewrite Hc, (IH Hr). reflexivity.
Qed.

Lemma split1_first (sep : ascii) (a b : string) :
  Str.occurs sep a = false -> Str.split1 sep (a ++ String sep b) = [a; b].
Proof.
  induction a as [|c a IH]; simpl.
  - intros _. now rewrite Ascii.eqb_refl.
  - intros H. apply orb_false_iff in H as [Hc Ha].
    rewrite Hc, (IH Ha). reflexivity.
Qed.

Lemma occurs_lstrip (c : ascii) (s : string) :
  Str.occurs c s = false -> Str.occurs c (Str.lstrip s) = false.
Proof.
  induction s as [|a r IH]; simpl; [reflexivity|].
  intros H. destruct (Str.isspace a).
  - apply orb_false_iff in H as [_ Hr]. auto.
  - exact H.
Qed.

Lemma occurs_rstrip (c : ascii) (s : string) :
  Str.occurs c s = false -> Str.occurs c (Str.rstrip s) = false.
Proof.
  induction s as [|a r IH]; simpl; [reflexivity|].
  intros H. apply orb_false_iff in H as [Ha Hr]. specialize (IH Hr).
  destruct (Str.rstrip r) as [|x y].
  - destruct (Str.isspace a); simpl; [reflexivity | now rewrite Ha].
  - simpl in *. now rewrite Ha, IH.
Qed.

Lemma occurs_strip (c : ascii) (s : string) :
  Str.occurs c s = false -> Str.occurs c (Str.strip s) = false.
Proof. intros H. unfold Str.strip. now apply occurs_rstrip, occurs_lstrip. Qed.

(** The parse of a well-formed response text: the name runs up to the
    first [#], the tag from there up to the first [,], the pin is the
    rest. *)
Lemma parse_join_response_ok (t name tag pin : string) :
  Str.strip t = name ++ "#" ++ tag ++ "," ++ pin ->
  Str.occurs "#" name = false -> Str.occurs "," name = false ->
  Str.occurs "," tag = false ->
  parse_join_response t = Ok (name, tag, pin).
Proof.
  intros Ht Hn1 Hn2 Htag. unfold parse_join_response. rewrite Ht.
  replace (name ++ "#" ++ tag ++ "," ++ pin)
    with ((name ++ "#" ++ tag) ++ String "," pin)
    by (rewrite append_assoc; reflexivity).
  rewrite split1_first.
  - simpl. rewrite (split1_first "#" name tag Hn1). reflexivity.
  - rewrite occurs_app. simpl. now rewrite Hn2, Htag.
Qed.

Lemma parse_join_response_no_comma (t : string) :
  Str.occurs "," t = false ->
  parse_join_response t = Raise (ValueError_unpack 2 1).
Proof.
  intros H. unfold parse_join_response.
  now rewrite (split1_absent _ _ (occurs_strip _ _ H)).
Qed.

(** ** The join-game command *)

(** C10: when the client is not ready or the phase is [None],
    [join_game_action] logs its trigger line, shows the error dialog
    and returns: no backend request, no lobby request, no change of
    the globals. *)
Theorem join_game_action_guard (w : world) (s : state) :
  is_ready (glob s) = false \/ current_phase (glob s) = VNone ->
  join_game_action w s =
  (Ok tt,
   logged s [Print [Lit "Join game action triggered"];
             Dialog "error" "Error" [Lit "Client not ready or no phase info."]]).
Proof.
  intros H. unfold join_game_action, logged. unfold_m. simpl.
  assert (G : negb (is_ready (glob s)) || Py.is_none (current_phase (glob s)) = true).
  { destruct H as [H|H]; rewrite H; simpl; [reflexivity | apply orb_true_r]. }
  rewrite G. simpl. now rewrite <- app_assoc.
Qed.

Lemma join_game_action_guard_witness :
  join_game_action AuthExamples.w_registered (initial_state initial_session) =
  (Ok tt,
   logged (initial_state initial_session)
     [Print [Lit "Join game action triggered"];
      Dialog "error" "Error" [Lit "Client not ready or no phase info."]]).
Proof.
  apply (join_game_action_guard AuthExamples.w_registered (initial_state initial_session)).
  left. reflexivity.
Defined.

Module JoinExamples.

(** The user types a password and the backend answers 200 with [body]. *)
Definition w_answer (body : string) : world :=
  {| lcu := fun _ _ _ _ => Raise (External "no client");
     http_get := fun _ _ => Ok {| status_code := 200; text := body |};
     user_input := fun _ _ => Some "hunter2";
     connector_start := fun _ => Ok tt;
     connector_set := true; root_set := true |}.

(** Connected, in the lobby phase. *)
Definition in_lobby : session :=
  {| summoner_name := VStr "Bea"; summoner_tag := VStr "EUW"; region := VStr "EUW";
     is_ready := true; current_phase := VStr "Lobby" |}.

End JoinExamples.

(** What [join_game_action] has logged once the backend's answer [r] to
    the password [pwd] is in. *)
Definition join_asked (s : state) (pwd : string) (r : http_response) : list event :=
  [Print [Lit "Join game action triggered"];
   Print [Lit "[DEBUG] current_phase = "; Fmt (current_phase (glob s))];
   AskInput "Join Game" "Enter match password:";
   HttpGet JOINMATCH_URL [("password", Str.strip pwd)] 10;
   Print [Lit "/joinmatch "; Fmt (VInt (status_code r)); Lit ": "; Fmt (VStr (text r))]].

Example join_game_action_ana :
  events (snd (join_game_action (JoinExamples.w_answer "Ana#NA1,abc123")
                 (initial_state JoinExamples.in_lobby)))
  = (join_asked (initial_state JoinExamples.in_lobby) "hunter2"
       {| status_code := 200; text := "Ana#NA1,abc123" |}
     ++ [After 0 (ScheduleJoin "Ana" "NA1" "abc123")])%list.
Proof. reflexivity. Qed.

Example join_game_action_malformed :
  join_game_action (JoinExamples.w_answer "malformed") (initial_state JoinExamples.in_lobby)
  = (Ok tt,
     logged (initial_state JoinExamples.in_lobby)
       (join_asked (initial_state JoinExamples.in_lobby) "hunter2"
          {| status_code := 200; text := "malformed" |}
        ++ [Dialog "error" "Join Game" [Lit "Error: "; FmtExn (ValueError_unpack 2 1)]])).
Proof. reflexivity. Qed.

Example schedule_join_ready :
  events (snd (schedule_join (JoinExamples.w_answer "Ana#NA1,abc123") "Ana" "NA1" "abc123"
                 (initial_state JoinExamples.in_lobby)))
  = [Print [Lit "Scheduling join lobby operation"];
     After 100 (JoinLobby "Ana" "NA1" "abc123")].
Proof. reflexivity. Qed.

(** C2, as stated, fails: the body ["Ana#NA1,abc123 "] splits at its
    first [,] and then at the first [#] of the left part into ["Ana"],
    ["NA1"] and ["abc123 "], but the code strips the body first and
    hands on the credential ["abc123"]. *)
Lemma join_response_is_stripped_first :
  "Ana#NA1,abc123 " = "Ana" ++ "#" ++ "NA1" ++ "," ++ "abc123 "
  /\ parse_join_response "Ana#NA1,abc123 " = Ok ("Ana", "NA1", "abc123")
  /\ parse_join_response "Ana#NA1,abc123 " <> Ok ("Ana", "NA1", "abc123 ")
  /\ events (snd (join_game_action (JoinExamples.w_answer "Ana#NA1,abc123 ")
                    (initial_state JoinExamples.in_lobby)))
     = (join_asked (initial_state JoinExamples.in_lobby) "hunter2"
          {| status_code := 200; text := "Ana#NA1,abc123 " |}
        ++ [After 0 (ScheduleJoin "Ana" "NA1" "abc123")])%list.
Proof.
  split; [reflexivity|]. split; [reflexivity|]. split; [|reflexivity].
  vm_compute. discriminate.
Qed.

Lemma strip_nonempty (t : string) :
  Str.is_empty (Str.strip t) = false -> Str.is_empty t = false.
Proof. destruct t; [discriminate | reflexivity]. Qed.

(** C2, amended: on a 200 answer the body is first stripped of leading
    and trailing whitespace.  If the stripped body reads
    [name#tag,credential], with no [#] and no [,] in [name] and no [,]
    in [tag] (so the [,] is its first and the [#] the first of the left
    part), the command hands [name], [tag] and [credential] on to the
    scheduled lobby join.  If the non-empty body holds no [,], the
    command shows an error dialog carrying the unpacking error,
    schedules nothing and returns normally. *)
Theorem join_game_action_parse (w : world) (s : state) (pwd : string)
  (r : http_response) :
  is_ready (glob s) = true ->
  Py.is_none (current_phase (glob s)) = false ->
  user_input w "Join Game" "Enter match password:" = Some pwd ->
  Str.is_empty pwd = false ->
  http_get w JOINMATCH_URL [("password", Str.strip pwd)] = Ok r ->
  status_code r = 200 ->
  (forall name tag credential : string,
      Str.strip (text r) = name ++ "#" ++ tag ++ "," ++ credential ->
      Str.occurs "#" name = false -> Str.occurs "," name = false ->
      Str.occurs "," tag = false ->
      join_game_action w s =
      (Ok tt, logged s (join_asked s pwd r
                        ++ [After 0 (ScheduleJoin name tag credential)])))
  /\ (Str.is_empty (text r) = false ->
      Str.occurs "," (text r) = false ->
      join_game_action w s =
      (Ok tt, logged s (join_asked s pwd r
                        ++ [Dialog "error" "Join Game"
                              [Lit "Error: "; FmtExn (ValueError_unpack 2 1)]]))).
Proof.
  intros Hready Hphase Hin Hpwd Hget H200.
  assert (Run : forall (final : event) (ne : Str.is_empty (text r) = false),
             (match parse_join_response (text r) with
              | Ok (n, t, p) => After 0 (ScheduleJoin n t p)
              | Raise e => Dialog "error" "Join Game" [Lit "Error: "; FmtExn e]
              end) = final ->
             join_game_action w s = (Ok tt, logged s (join_asked s pwd r ++ [final]))).
  { intros final ne Hfinal. unfold join_game_action, logged, join_asked. unfold_m.
    simpl. rewrite Hready, Hphase. simpl. rewrite Hin, Hpwd. simpl.
    rewrite Hget. simpl. rewrite H200, ne. simpl.
    destruct (parse_join_response (text r)) as [[[n t] p]|e]; simpl;
      subst final; rewrite <- !app_assoc; reflexivity. }
  split.
  - intros name tag credential Hbody Hn1 Hn2 Ht.
    apply Run.
    + apply strip_nonempty. rewrite Hbody. now destruct name.
    + now rewrite (parse_join_response_ok _ _ _ _ Hbody Hn1 Hn2 Ht).
  - intros Hne Hc. apply Run; [exact Hne|].
    now rewrite (parse_join_response_no_comma _ Hc).
Qed.

Lemma join_game_action_parse_witness :
  let w := JoinExamples.w_answer "Ana#NA1,abc123" in
  let s := initial_state JoinExamples.in_lobby in
  let r := {| status_code := 200; text := "Ana#NA1,abc123" |} in
  join_game_action w s =
  (Ok tt, logged s (join_asked s "hunter2" r
                    ++ [After 0 (ScheduleJoin "Ana" "NA1" "abc123")])).
Proof.
  cbv zeta.
  apply (proj1 (join_game_action_parse (JoinExamples.w_answer "Ana#NA1,abc123")
                  (initial_state JoinExamples.in_lobby) "hunter2"
                  {| status_code := 200; text := "Ana#NA1,abc123" |}
                  eq_refl eq_refl eq_refl eq_refl eq_refl eq_refl));
    reflexivity.
Defined.

(** ** Lobby matcher *)

(** Equality and prefix test of strings up to case. *)
Definition eq_ci (a b : string) : bool := String.eqb (Str.lower a) (Str.lower b).
Definition startswith_ci (s p : string) : bool :=
  Str.startswith (Str.lower s) (Str.lower p).

(** A lobby descriptor as the lobby listing gives it: a dictionary
    with an [id] and a string [ownerDisplayName]. *)
Definition is_descriptor (g : value) : bool :=
  match g with
  | VDict d =>
      match Py.lookup d "ownerDisplayName", Py.lookup d "id" with
      | Some (VStr _), Some _ => true
      | _, _ => false
      end
  | _ => false
  end.

Definition owner_name (g : value) : string :=
  match g with
  | VDict d => match Py.lookup d "ownerDisplayName" with Some (VStr n) => n | _ => "" end
  | _ => ""
  end.

(** The two matching rules, on a descriptor. *)
Definition exact_rule (summoner tag : string) (g : value) : bool :=
  eq_ci (owner_name g) (summoner ++ " #" ++ tag).
Definition prefix_rule (summoner : string) (g : value) : bool :=
  startswith_ci (owner_name g) (summoner ++ "#").

Definition first_or_none (rule : value -> bool) (l : list value) : value :=
  match find rule l with Some g => g | None => VNone end.

Lemma lower_app (a b : string) : Str.lower (a ++ b) = Str.lower a ++ Str.lower b.
Proof. induction a as [|c a IH]; simpl; [reflexivity | now rewrite IH]. Qed.

Lemma descriptor_truthy (g : value) : is_descriptor g = true -> Py.truthy g = true.
Proof.
  destruct g as [| | | |l|d]; simpl; try discriminate.
  destruct d; [discriminate | reflexivity].
Qed.

Lemma exact_match_descriptor (summoner tag : string) (g : value) :
  is_descriptor g = true ->
  exact_match (summoner ++ " #" ++ tag) g = Ok (exact_rule summoner tag g).
Proof.
  unfold exact_match, exact_rule, eq_ci, owner_name.
  destruct g as [| | | |l|d]; simpl; try discriminate.
  destruct (Py.lookup d "ownerDisplayName") as [[| | |n| |]|]; try discriminate.
  reflexivity.
Qed.

Lemma prefix_match_descriptor (summoner : string) (g : value) :
  is_descriptor g = true ->
  prefix_match summoner g = Ok (prefix_rule summoner g).
Proof.
  unfold prefix_match, prefix_rule, startswith_ci, owner_name.
  destruct g as [| | | |l|d]; simpl; try discriminate.
  destruct (Py.lookup d "ownerDisplayName") as [[| | |n| |]|]; try discriminate.
  intros _. now rewrite lower_app.
Qed.

(** On descriptors the generator never raises: [next] gives the first
    element that passes the rule. *)
Lemma next_or_none_first (pred : value -> result bool) (rule : value -> bool)
  (l : list value) :
  (forall g, is_descriptor g = true -> pred g = Ok (rule g)) ->
  forallb is_descriptor l = true ->
  Py.next_or_none pred l = Ok (first_or_none rule l).
Proof.
  intros Hp. unfold first_or_none.
  induction l as [|g l IH]; simpl; [reflexivity|].
  intros H. apply andb_true_iff in H as [Hg Hl].
  rewrite (Hp g Hg). destruct (rule g); [reflexivity | exact (IH Hl)].
Qed.

Lemma first_or_none_truthy (rule : value -> bool) (l : list value) :
  forallb is_descriptor l = true ->
  Py.truthy (first_or_none rule l) = match find rule l with Some _ => true | None => false end.
Proof.
  intros Hl. unfold first_or_none. destruct (find rule l) as [g|] eqn:F; [|reflexivity].
  apply find_some in F as [Hin _]. apply descriptor_truthy.
  rewrite forallb_forall in Hl. auto.
Qed.

Lemma find_lobby_descriptors (summoner tag : string) (l : list value) :
  forallb is_descriptor l = true ->
  find_lobby summoner tag (VList l) =
  Ok (match find (exact_rule summoner tag) l with
      | Some g => g
      | None => first_or_none (prefix_rule summoner) l
      end).
Proof.
  intros Hl. unfold find_lobby. cbn [Py.iter].
  rewrite (next_or_none_first _ _ l (exact_match_descriptor summoner tag) Hl).
  rewrite (first_or_none_truthy _ l Hl). unfold first_or_none at 1.
  destruct (find (exact_rule summoner tag) l); simpl; [reflexivity|].
  exact (next_or_none_first _ _ l (prefix_match_descriptor summoner) Hl).
Qed.

Definition lobby (id : Z) (owner : string) : value :=
  VDict [("id", VInt id); ("ownerDisplayName", VStr owner)].

Example exact_match_ana :
  find_lobby "Ana" "NA1" (VList [lobby 1 "Bob #EUW"; lobby 2 "Ana #NA1"])
  = Ok (lobby 2 "Ana #NA1").
Proof. reflexivity. Qed.

Example exact_match_case :
  find_lobby "ana" "na1" (VList [lobby 1 "Bob #EUW"; lobby 2 "ANA #Na1"])
  = Ok (lobby 2 "ANA #Na1").
Proof. reflexivity. Qed.

Example prefix_match_smurf :
  exact_rule "Ana" "NA1-smurf" (lobby 7 "Ana#NA1-smurf") = false
  /\ prefix_rule "Ana" (lobby 7 "Ana#NA1-smurf") = true
  /\ find_lobby "Ana" "NA1-smurf" (VList [lobby 7 "Ana#NA1-smurf"])
     = Ok (lobby 7 "Ana#NA1-smurf").
Proof. repeat split. Qed.

Example exact_before_prefix :
  find_lobby "Ana" "NA1" (VList [lobby 1 "Ana#NA1"; lobby 2 "Ana #NA1"])
  = Ok (lobby 2 "Ana #NA1").
Proof. reflexivity. Qed.

Definition lobbies_path : fstring := [Lit "/lol-lobby/v2/lobby/custom/available"].

(** C1: over a listing of lobby descriptors, the matcher takes the
    first lobby whose owner name equals ["{summoner} #{tag}"] up to
    case; when there is none, the first whose owner name starts with
    ["{summoner}#"] up to case; when there is none either, the run
    consists of the listing request and the scheduled "Couldn't find"
    error dialog: no join call is issued. *)
Theorem lobby_matcher (w : world) (s : state) (summoner tag pin : string)
  (resp : response) (l : list value) :
  lcu w (nreq s) "GET" lobbies_path None = Ok resp ->
  json resp = Ok (VList l) ->
  forallb is_descriptor l = true ->
  find_lobby summoner tag (VList l) =
    Ok (match find (exact_rule summoner tag) l with
        | Some g => g
        | None => match find (prefix_rule summoner) l with
                  | Some g => g
                  | None => VNone
                  end
        end)
  /\ (find (exact_rule summoner tag) l = None ->
      find (prefix_rule summoner) l = None ->
      fst (do_join_lobby w summoner tag pin s) = Ok tt
      /\ events (snd (do_join_lobby w summoner tag pin s)) =
         (events s ++
          [Request "GET" lobbies_path None;
           After 0 (ShowDialog "error" "Join Game"
                      [Lit "Couldn't find "; Fmt (VStr summoner); Lit "#";
                       Fmt (VStr tag); Lit "'s lobby"])])%list).
Proof.
  intros Hget Hjson Hl.
  pose proof (find_lobby_descriptors summoner tag l Hl) as F.
  unfold first_or_none in F. split; [exact F|].
  intros He Hp. rewrite He, Hp in F.
  unfold do_join_lobby. unfold_m. simpl.
  change [Lit "/lol-lobby/v2/lobby/custom/available"] with lobbies_path.
  rewrite Hget. simpl. rewrite Hjson. simpl. rewrite F. simpl.
  split; [reflexivity|].
  unfold events. simpl. rewrite !map_app. simpl. now rewrite <- app_assoc.
Qed.

Module LobbyExamples.

Definition listing : list value :=
  [lobby 1 "Bob #EUW"; lobby 2 "Ana #NA1"; lobby 3 "Cleo#KR1"].

(** The client lists [listing] and answers the join call with
    [join_answer]. *)
Definition w_lobbies (join_answer : response) : world :=
  {| lcu := fun k _ _ _ =>
              match k with
              | O => Ok {| status := 200; json := Ok (VList listing) |}
              | _ => Ok join_answer
              end;
     http_get := fun _ _ => Raise (External "offline");
     user_input := fun _ _ => None;
     connector_start := fun _ => Ok tt;
     connector_set := true; root_set := true |}.

Definition joined : response := {| status := 200; json := Ok VNone |}.

Definition wrong_password : response :=
  {| status := 403;
     json := Ok (VDict [("errorCode", VStr "RPC_ERROR");
                        ("message", VStr "INVALID_PASSWORD")]) |}.

Definition s0 : state := initial_state JoinExamples.in_lobby.

End LobbyExamples.

Example do_join_lobby_not_found :
  events (snd (do_join_lobby (LobbyExamples.w_lobbies LobbyExamples.joined)
                 "Dan" "BR1" "abc123" LobbyExamples.s0))
  = [Request "GET" lobbies_path None;
     After 0 (ShowDialog "error" "Join Game"
                [Lit "Couldn't find "; Fmt (VStr "Dan"); Lit "#"; Fmt (VStr "BR1");
                 Lit "'s lobby"])].
Proof. reflexivity. Qed.

Lemma lobby_matcher_witness :
  find_lobby "Dan" "BR1" (VList LobbyExamples.listing) = Ok VNone
  /\ fst (do_join_lobby (LobbyExamples.w_lobbies LobbyExamples.joined)
            "Dan" "BR1" "abc123" LobbyExamples.s0) = Ok tt.
Proof.
  pose proof (lobby_matcher (LobbyExamples.w_lobbies LobbyExamples.joined)
                LobbyExamples.s0 "Dan" "BR1" "abc123"
                {| status := 200; json := Ok (VList LobbyExamples.listing) |}
                LobbyExamples.listing eq_refl eq_refl eq_refl) as [F R].
  split; [exact F|]. exact (proj1 (R eq_refl eq_refl)).
Defined.

(** ** Join sequencer *)

Example do_join_lobby_null_error_body :
  events (snd (do_join_lobby
                 (LobbyExamples.w_lobbies {| status := 500; json := Ok VNone |})
                 "Ana" "NA1" "abc123" LobbyExamples.s0)) =
  [Request "GET" [Lit "/lol-lobby/v2/lobby/custom/available"] None;
   Request "POST" [Lit "/lol-lobby/v2/lobby/custom/"; Fmt (VInt 2); Lit "/join"]
     (Some (VDict [("asSpectator", VBool false); ("password", VStr "abc123")]));
   Print [Lit "Error in join_lobby: "; FmtExn (AttributeError VNone "get")];
   PrintExc;
   After 0 (ShowDialog "error" "Join Game"
              [Lit "Error during join process: "; FmtExn (AttributeError VNone "get")])].
Proof. reflexivity. Qed.

(** C5, as stated, fails: a join answered with status 500 and a JSON
    [null] body has no [message] field, yet the sequencer does not
    report "Unknown error": [error_msg.get] raises on [None] and the
    run ends in the "Error during join process" dialog of the outer
    handler. *)
Lemma join_error_body_without_dictionary :
  let run := do_join_lobby
               (LobbyExamples.w_lobbies {| status := 500; json := Ok VNone |})
               "Ana" "NA1" "abc123" LobbyExamples.s0 in
  find_lobby "Ana" "NA1" (VList LobbyExamples.listing) = Ok (lobby 2 "Ana #NA1")
  /\ last (events (snd run)) PrintExc =
     After 0 (ShowDialog "error" "Join Game"
                [Lit "Error during join process: "; FmtExn (AttributeError VNone "get")])
  /\ ~ In (After 0 (ShowDialog "error" "Join Game"
                      [Lit "Failed to join: "; Fmt (VStr "Unknown error")]))
         (events (snd run)).
Proof.
  cbv zeta. split; [reflexivity|]. split; [reflexivity|].
  vm_compute. intros [H|[H|[H|[H|[H|[]]]]]]; discriminate.
Qed.

(** C5, amended: once a lobby [m] with an [id] is matched and the
    join call is answered, the sequencer has issued the listing GET and
    exactly one POST, to [/lol-lobby/v2/lobby/custom/{id}/join] with
    body [{asSpectator: False, password: pin}], and returns normally.
    On status 200 it schedules the success dialog naming
    [summoner#tag].  On another status whose body decodes to a
    dictionary it schedules the "Failed to join" dialog with the body's
    [message], or with ["Unknown error"] when the dictionary has none.
    On another status whose body does not decode, or decodes to
    something else than a dictionary, it logs the exception and
    schedules the "Error during join process" dialog. *)
Theorem join_sequencer (w : world) (s : state) (summoner tag pin : string)
  (resp jr : response) (games m game_id : value) (endpoint : fstring) (body : value) :
  lcu w (nreq s) "GET" [Lit "/lol-lobby/v2/lobby/custom/available"] None = Ok resp ->
  json resp = Ok games ->
  find_lobby summoner tag games = Ok m ->
  Py.truthy m = true ->
  Py.index m "id" = Ok game_id ->
  endpoint = [Lit "/lol-lobby/v2/lobby/custom/"; Fmt game_id; Lit "/join"] ->
  body = VDict [("asSpectator", VBool false); ("password", VStr pin)] ->
  lcu w (S (nreq s)) "POST" endpoint (Some body) = Ok jr ->
  let run := do_join_lobby w summoner tag pin s in
  let issued := [Request "GET" [Lit "/lol-lobby/v2/lobby/custom/available"] None;
                 Request "POST" endpoint (Some body)] in
  fst run = Ok tt
  /\ nreq (snd run) = S (S (nreq s))
  /\ (status jr = 200 ->
      events (snd run) =
      (events s ++ issued ++
       [After 0 (ShowDialog "info" "Join Game"
                   [Lit "Successfully joined "; Fmt (VStr summoner); Lit "#";
                    Fmt (VStr tag); Lit "'s lobby!"])])%list)
  /\ (status jr <> 200 ->
      forall d, json jr = Ok (VDict d) ->
      events (snd run) =
      (events s ++ issued ++
       [After 0 (ShowDialog "error" "Join Game"
                   [Lit "Failed to join: ";
                    Fmt (match Py.lookup d "message" with
                         | Some text => text
                         | None => VStr "Unknown error"
                         end)])])%list)
  /\ (status jr <> 200 ->
      forall e,
        json jr = Raise e
        \/ (exists other, json jr = Ok other /\ (forall d, other <> VDict d)
                          /\ e = AttributeError other "get") ->
        events (snd run) =
        (events s ++ issued ++
         [Print [Lit "Error in join_lobby: "; FmtExn e];
          PrintExc;
          After 0 (ShowDialog "error" "Join Game"
                     [Lit "Error during join process: "; FmtExn e])])%list).
Proof.
  intros Hget Hjson Hfind Htruthy Hid -> -> Hpost. cbv zeta.
  unfold do_join_lobby, join_endpoint, join_body. unfold_m. simpl.
  rewrite Hget. simpl. rewrite Hjson. simpl. rewrite Hfind. simpl.
  rewrite Htruthy. simpl. rewrite Hid. simpl. rewrite Hpost. simpl.
  destruct (status jr =? 200) eqn:H200.
  - apply Z.eqb_eq in H200. simpl. split; [reflexivity|]. split; [reflexivity|].
    split; [|split]; [|intros N; contradiction|intros N; contradiction].
    intros _. unfold events. simpl. rewrite !map_app. simpl. now rewrite <- !app_assoc.
  - apply Z.eqb_neq in H200. simpl.
    destruct (json jr) as [v|e'] eqn:J; simpl.
    + destruct v as [| | | | |d]; simpl;
        (split; [reflexivity|]); (split; [reflexivity|]);
        (split; [intros E; contradiction|]);
        (split;
         [ intros _ d' Hd'; try discriminate
         | intros _ e [He | [other [Ho [Hn He]]]]; [discriminate|];
           inversion Ho; subst other; subst e;
           try (exfalso; eapply Hn; reflexivity) ]);
        try (unfold events; simpl; rewrite !map_app; simpl; now rewrite <- !app_assoc).
      inversion Hd'; subst d'.
      unfold events. simpl. rewrite !map_app. simpl. now rewrite <- !app_assoc.
    + split; [reflexivity|]. split; [reflexivity|]. split; [intros E; contradiction|].
      split; [intros _ d Hd; discriminate|].
      intros _ e [He | [other [Ho _]]]; [|discriminate].
      inversion He; subst e'.
      unfold events. simpl. rewrite !map_app. simpl. now rewrite <- !app_assoc.
Qed.

Lemma join_sequencer_witness :
  events (snd (do_join_lobby (LobbyExamples.w_lobbies LobbyExamples.wrong_password)
                 "Ana" "NA1" "abc123" LobbyExamples.s0)) =
  [Request "GET" [Lit "/lol-lobby/v2/lobby/custom/available"] None;
   Request "POST" [Lit "/lol-lobby/v2/lobby/custom/"; Fmt (VInt 2); Lit "/join"]
     (Some (VDict [("asSpectator", VBool false); ("password", VStr "abc123")]));
   After 0 (ShowDialog "error" "Join Game"
              [Lit "Failed to join: "; Fmt (VStr "INVALID_PASSWORD")])].
Proof.
  pose proof (join_sequencer (LobbyExamples.w_lobbies LobbyExamples.wrong_password)
                LobbyExamples.s0 "Ana" "NA1" "abc123"
                {| status := 200; json := Ok (VList LobbyExamples.listing) |}
                LobbyExamples.wrong_password
                (VList LobbyExamples.listing) (lobby 2 "Ana #NA1") (VInt 2)
                [Lit "/lol-lobby/v2/lobby/custom/"; Fmt (VInt 2); Lit "/join"]
                (VDict [("asSpectator", VBool false); ("password", VStr "abc123")])
                eq_refl eq_refl eq_refl eq_refl eq_refl eq_refl eq_refl eq_refl)
    as [_ [_ [_ [R _]]]].
  assert (N : status LobbyExamples.wrong_password <> 200) by (simpl; lia).
  exact (R N _ eq_refl).
Defined.

Example do_join_lobby_success :
  events (snd (do_join_lobby (LobbyExamples.w_lobbies LobbyExamples.joined)
                 "Ana" "NA1" "abc123" LobbyExamples.s0)) =
  [Request "GET" lobbies_path None;
   Request "POST" (join_endpoint (VInt 2)) (Some (join_body "abc123"));
   After 0 (ShowDialog "info" "Join Game"
              [Lit "Successfully joined "; Fmt (VStr "Ana"); Lit "#";
               Fmt (VStr "NA1"); Lit "'s lobby!"])].
Proof. reflexivity. Qed.

(** ** Phase events *)

Definition phase_path : fstring := [Lit "/lol-gameflow/v1/gameflow-phase"].

Module PhaseExamples.

(** The client answers every request with [answer]. *)
Definition w_client (answer : result response) : world :=
  {| lcu := fun _ _ _ _ => answer;
     http_get := fun _ _ => Raise (External "offline");
     user_input := fun _ _ => None;
     connector_start := fun _ => Ok tt;
     connector_set := true; root_set := true |}.

Definition phase_answer (v : value) : result response :=
  Ok {| status := 200; json := Ok v |}.

End PhaseExamples.

Example on_gameflow_phase_string :
  on_gameflow_phase (PhaseExamples.w_client (Raise (External "closed")))
    (VStr "ChampSelect") (initial_state JoinExamples.in_lobby)
  = (Ok tt,
     {| glob := set_current_phase (VStr "ChampSelect") JoinExamples.in_lobby;
        nreq := 0; nstart := 0;
        log := [(set_current_phase (VStr "ChampSelect") JoinExamples.in_lobby,
                 Print [Lit "[GAMEFLOW] Phase changed to: "; Fmt (VStr "ChampSelect")])] |}).
Proof. reflexivity. Qed.

Example on_gameflow_phase_refetch :
  let run := on_gameflow_phase
               (PhaseExamples.w_client (PhaseExamples.phase_answer (VStr "InProgress")))
               (VDict [("phase", VStr "x")]) (initial_state JoinExamples.in_lobby) in
  events (snd run) =
    [Request "GET" phase_path None;
     Print [Lit "[GAMEFLOW] Phase changed to: "; Fmt (VStr "InProgress")]]
  /\ current_phase (glob (snd run)) = VStr "InProgress".
Proof. split; reflexivity. Qed.

(** C7: [on_gameflow_phase] never lets an exception out.  A string
    payload becomes the phase with no request made.  Any other payload
    makes the handler request the phase endpoint and take the decoded
    answer as the phase.  When that request or the decoding fails, the
    phase is left [None]. *)
Theorem on_gameflow_phase_spec (w : world) (data : value) (s : state) :
  let run := on_gameflow_phase w data s in
  fst run = Ok tt
  /\ (forall p, data = VStr p ->
      glob (snd run) = set_current_phase (VStr p) (glob s)
      /\ nreq (snd run) = nreq s
      /\ events (snd run) =
         (events s ++ [Print [Lit "[GAMEFLOW] Phase changed to: "; Fmt (VStr p)]])%list)
  /\ (Py.is_str data = false ->
      (forall resp v,
          lcu w (nreq s) "GET" phase_path None = Ok resp -> json resp = Ok v ->
          glob (snd run) = set_current_phase v (glob s)
          /\ events (snd run) =
             (events s ++ [Request "GET" phase_path None;
                           Print [Lit "[GAMEFLOW] Phase changed to: "; Fmt v]])%list)
      /\ (forall e,
             lcu w (nreq s) "GET" phase_path None = Raise e
             \/ (exists resp, lcu w (nreq s) "GET" phase_path None = Ok resp
                              /\ json resp = Raise e) ->
             glob (snd run) = set_current_phase VNone (glob s)
             /\ events (snd run) =
                (events s ++ [Request "GET" phase_path None;
                              Print [Lit "[GAMEFLOW ERROR] "; FmtExn e]])%list)).
Proof.
  cbv zeta. unfold on_gameflow_phase. unfold_m.
  change [Lit "/lol-gameflow/v1/gameflow-phase"] with phase_path.
  split; [|split].
  - destruct (Py.is_str data); simpl; [reflexivity|].
    destruct (lcu w (nreq s) "GET" phase_path None) as [resp|e]; simpl; [|reflexivity].
    destruct (json resp); reflexivity.
  - intros p ->. simpl. repeat split. unfold events. simpl. now rewrite map_app.
  - intros Hs. rewrite Hs. split.
    + intros resp v Hget Hjson. simpl. rewrite Hget. simpl. rewrite Hjson. simpl.
      split; [reflexivity|]. unfold events. simpl. rewrite !map_app. simpl.
      now rewrite <- app_assoc.
    + intros e [Hget | [resp [Hget Hjson]]]; simpl; rewrite Hget; simpl;
        try (rewrite Hjson; simpl);
        (split; [reflexivity|]; unfold events; simpl; rewrite !map_app; simpl;
         now rewrite <- app_assoc).
Qed.

Lemma on_gameflow_phase_spec_witness :
  let w := PhaseExamples.w_client (Raise (External "closed")) in
  let run := on_gameflow_phase w (VDict []) (initial_state JoinExamples.in_lobby) in
  fst run = Ok tt
  /\ current_phase (glob (snd run)) = VNone
  /\ events (snd run) =
     [Request "GET" phase_path None;
      Print [Lit "[GAMEFLOW ERROR] "; FmtExn (External "closed")]].
Proof.
  cbv zeta.
  pose proof (on_gameflow_phase_spec (PhaseExamples.w_client (Raise (External "closed")))
                (VDict []) (initial_state JoinExamples.in_lobby)) as [T [_ R]].
  cbv zeta in T, R. split; [exact T|].
  destruct (R eq_refl) as [_ F].
  destruct (F (External "closed") (or_introl eq_refl)) as [G E].
  split; [now rewrite G | exact E].
Defined.

(** ** The ready handler and the identity events *)

Definition summoner_path : fstring := [Lit "/lol-summoner/v1/current-summoner"].
Definition region_path : fstring := [Lit "/riotclient/region-locale"].

Definition is_request (e : event) : bool :=
  match e with Request _ _ _ => true | _ => false end.

(** The log entries made at a request: there the handler is suspended,
    and the globals of the entry are what any reader sees meanwhile. *)
Definition at_requests (l : list (session * event)) : list session :=
  map fst (filter (fun x => is_request (snd x)) l).

(** [d.get(k)] *)
Definition dict_get (d : list (string * value)) (k : string) : value :=
  match Py.lookup d k with Some x => x | None => VNone end.

Module SessionExamples.

(** [str.upper] on a-z; the examples use no other letters. *)
Definition upper_char (c : ascii) : ascii :=
  let n := Str.code c in
  if Str.in_range 97 122 n then ascii_of_N (n - 32) else c.

Fixpoint upper (s : string) : string :=
  match s with
  | EmptyString => EmptyString
  | String c r => String (upper_char c) (upper r)
  end.

(** The client answers by endpoint. *)
Definition w_client (phase summoner locale : result response) : world :=
  {| lcu := fun _ _ path _ =>
              match path with
              | [Lit p] =>
                  if String.eqb p "/lol-gameflow/v1/gameflow-phase" then phase
                  else if String.eqb p "/lol-summoner/v1/current-summoner" then summoner
                  else if String.eqb p "/riotclient/region-locale" then locale
                  else Raise (External "404")
              | _ => Raise (External "404")
              end;
     http_get := fun _ _ => Raise (External "offline");
     user_input := fun _ _ => None;
     connector_start := fun _ => Ok tt;
     connector_set := true; root_set := true |}.

Definition ok (v : value) : result response := Ok {| status := 200; json := Ok v |}.

Definition ana : value := VDict [("gameName", VStr "Ana"); ("tagLine", VStr "NA1")].

Definition w_ana : world :=
  w_client (ok (VStr "Lobby")) (ok ana) (ok (VDict [("region", VStr "na")])).

(** Logged in as Bea on EUW, before the event. *)
Definition bea : session :=
  {| summoner_name := VStr "Bea"; summoner_tag := VStr "EUW"; region := VStr "EUW";
     is_ready := true; current_phase := VStr "Lobby" |}.

End SessionExamples.

Ltac destruct_match :=
  match goal with
  | |- context [match ?x with _ => _ end] =>
      lazymatch x with
      | context [match _ with _ => _ end] => fail
      | _ => destruct x eqn:?
      end
  end.

Ltac run_all := repeat (simpl; try destruct_match).

Example connect_run :
  let run := connect SessionExamples.upper SessionExamples.w_ana
               (initial_state initial_session) in
  glob (snd run) =
    {| summoner_name := VStr "Ana"; summoner_tag := VStr "NA1"; region := VStr "NA";
       is_ready := true; current_phase := VStr "Lobby" |}
  /\ events (snd run) =
     [Print [Lit "[DEBUG] Connector ready handler invoked"];
      Request "GET" phase_path None;
      Print [Lit "[INITIAL PHASE] "; Fmt (VStr "Lobby")];
      Request "GET" summoner_path None;
      Request "GET" region_path None;
      Print [Lit "Fetched summoner info: "; Fmt (VStr "Ana"); Lit "#";
             Fmt (VStr "NA1"); Lit " Region: "; Fmt (VStr "NA")]].
Proof. split; reflexivity. Qed.

(** C6, as stated, fails: the ready handler raises the ready flag
    before it reads the phase.  While the initial phase request is
    under way, a reader of the globals sees [is_ready = True] with the
    phase still [None]. *)
Lemma ready_seen_before_phase_read :
  let run := connect SessionExamples.upper SessionExamples.w_ana
               (initial_state initial_session) in
  nth_error (log (snd run)) 1 =
    Some ({| summoner_name := VNone; summoner_tag := VNone; region := VNone;
             is_ready := true; current_phase := VNone |},
          Request "GET" phase_path None)
  /\ current_phase (glob (snd run)) = VStr "Lobby".
Proof. split; reflexivity. Qed.

Lemma fetch_summoner_info_frame (upper : string -> string) (w : world) (s : state) :
  let run := fetch_summoner_info upper w s in
  (exists b, fst run = Ok b)
  /\ is_ready (glob (snd run)) = is_ready (glob s)
  /\ current_phase (glob (snd run)) = current_phase (glob s)
  /\ exists new, log (snd run) = (log s ++ new)%list.
Proof.
  cbv zeta.
  unfold fetch_summoner_info, store_identity, fetch_region, print_identity, py_upper,
    Py.get.
  unfold_m. run_all;
    (split; [eexists; reflexivity|]); (split; [reflexivity|]); (split; [reflexivity|]);
    rewrite <- ?app_assoc; eexists; reflexivity.
Qed.

(** C6, amended: on every successful connection the ready handler
    never raises; it sets the ready flag first and issues the initial
    phase request with the flag already set; when it returns the flag
    is set and the phase is the decoded answer of that request, or
    [None] when the request or the decoding failed. *)
Theorem connect_ready_then_phase (upper : string -> string) (w : world) (s : state) :
  let run := connect upper w s in
  fst run = Ok tt
  /\ (exists rest,
        log (snd run) =
        (log s ++
         (glob s, Print [Lit "[DEBUG] Connector ready handler invoked"])
         :: (set_is_ready true (glob s), Request "GET" phase_path None)
         :: rest)%list)
  /\ is_ready (glob (snd run)) = true
  /\ current_phase (glob (snd run)) =
     match lcu w (nreq s) "GET" phase_path None with
     | Ok resp => match json resp with Ok v => v | Raise _ => VNone end
     | Raise _ => VNone
     end.
Proof.
  cbv zeta. unfold connect. unfold_m. simpl.
  change [Lit "/lol-gameflow/v1/gameflow-phase"] with phase_path.
  destruct (lcu w (nreq s) "GET" phase_path None) as [resp|e]; simpl;
    [destruct (json resp) as [v|e]; simpl|];
    match goal with
    | |- context [fetch_summoner_info upper w ?s1] =>
        destruct (fetch_summoner_info_frame upper w s1) as [[b Hb] [Hr [Hp [new Hl]]]];
        destruct (fetch_summoner_info upper w s1) as [r s2]; simpl in *;
        subst r; simpl; rewrite Hr, Hp, Hl; simpl;
        repeat split; rewrite <- ?app_assoc; simpl; eexists; reflexivity
    end.
Qed.

Lemma connect_ready_then_phase_witness :
  let run := connect SessionExamples.upper SessionExamples.w_ana
               (initial_state initial_session) in
  fst run = Ok tt
  /\ is_ready (glob (snd run)) = true
  /\ current_phase (glob (snd run)) = VStr "Lobby".
Proof.
  cbv zeta.
  pose proof (connect_ready_then_phase SessionExamples.upper SessionExamples.w_ana
                (initial_state initial_session)) as [T [_ [R P]]].
  split; [exact T | split; [exact R | exact P]].
Defined.

Example on_summoner_update_partial :
  let run := on_summoner_update SessionExamples.upper SessionExamples.w_ana
               (VDict [("tagLine", VStr "NA1")]) (initial_state SessionExamples.bea) in
  events (snd run) =
    [Request "GET" summoner_path None;
     Request "GET" region_path None;
     Print [Lit "Summoner updated: "; Fmt (VStr "Ana"); Lit "#"; Fmt (VStr "NA1");
            Lit " Region: "; Fmt (VStr "NA")]].
Proof. reflexivity. Qed.


Lemma truthy_nonempty_dict (d : list (string * value)) :
  d <> [] -> Py.truthy (VDict d) = true.
Proof. destruct d; [contradiction | reflexivity]. Qed.



(** ** Reading the session while a handler runs *)

(** C9, as stated, fails: one invocation of [on_summoner_update]
    writes the identity and the region, but at different moments.  While
    it awaits the region request, a reader sees the identity of the new
    event (Ana#NA1) together with the region from before it (EUW); the
    region of the same invocation (NA) arrives later. *)
Lemma identity_seen_with_stale_region :
  let run := on_summoner_update SessionExamples.upper SessionExamples.w_ana
               SessionExamples.ana (initial_state SessionExamples.bea) in
  at_requests (log (snd run)) =
    [{| summoner_name := VStr "Ana"; summoner_tag := VStr "NA1"; region := VStr "EUW";
        is_ready := true; current_phase := VStr "Lobby" |}]
  /\ glob (snd run) =
     {| summoner_name := VStr "Ana"; summoner_tag := VStr "NA1"; region := VStr "NA";
        is_ready := true; current_phase := VStr "Lobby" |}.
Proof. split; reflexivity. Qed.

Lemma on_summoner_update_run (upper : string -> string) (w : world)
  (data : value) (s : state) :
  exists g' k new,
    on_summoner_update upper w data s =
    (Ok tt, {| glob := g'; nreq := k; nstart := nstart s; log := (log s ++ new)%list |})
    /\ is_ready g' = is_ready (glob s)
    /\ current_phase g' = current_phase (glob s)
    /\ Forall (fun g => region g = region (glob s)
                        /\ is_ready g = is_ready (glob s)
                        /\ current_phase g = current_phase (glob s))
         (at_requests new).
Proof.
  destruct s as [g0 k0 n0 l0].
  unfold on_summoner_update, store_identity, fetch_region, print_identity, py_upper,
    Py.get, at_requests.
  unfold_m. run_all; rewrite <- ?app_assoc; simpl;
    first [ exists g0, k0, (@nil (session * event)); rewrite app_nil_r;
            split; [reflexivity|]; repeat split; constructor
          | do 3 eexists; split; [reflexivity|]; simpl;
            repeat (constructor; simpl; auto) ].
Qed.

(** ** The connector retry loop *)

(** The exception of the [k]-th [connector.start()], when it raises. *)
Definition start_error (w : world) (k : nat) : exn :=
  match connector_start w k with Raise e => e | Ok _ => External "" end.

(** What one failed attempt logs: the call, the retry line, the sleep.
    [k] is the number of calls made before, [attempts] the count of
    failures before this one. *)
Definition failed_attempt (w : world) (k attempts : nat) : list event :=
  [Start;
   Print [Lit "[DEBUG] LCU connection failed: "; FmtExn (start_error w k);
          Lit ", retrying in 10 seconds... (Attempt ";
          Fmt (VInt (Z.of_nat (attempts + 1))); Lit "/";
          Fmt (VInt (Z.of_nat max_attempts)); Lit ")"];
   Sleep 10].

(** [n] failed attempts in a row. *)
Fixpoint failed_attempts (w : world) (k attempts n : nat) : list event :=
  match n with
  | O => []
  | S n' => failed_attempt w k attempts ++ failed_attempts w (S k) (S attempts) n'
  end.

(** How many of the calls from the [k]-th on fail in a row, up to [bound]. *)
Fixpoint leading_failures (w : world) (k bound : nat) : nat :=
  match bound with
  | O => O
  | S b =>
      match connector_start w k with
      | Raise _ => S (leading_failures w (S k) b)
      | Ok _ => O
      end
  end.

Definition exhausted_report : event :=
  Print [Lit "Failed to connect to the League client after multiple attempts."].

Definition is_start (e : event) : bool :=
  match e with Start => true | _ => false end.

Definition is_exhausted_report (e : event) : bool :=
  match e with
  | Print [Lit m] =>
      String.eqb m "Failed to connect to the League client after multiple attempts."
  | _ => false
  end.

(** The events a run has added to those of [s]. *)
Definition added (s s' : state) : list event :=
  skipn (length (log s)) (events s').






Module ConnectorExamples.

(** The game client never comes up. *)
Definition w_down : world :=
  {| lcu := fun _ _ _ _ => Raise (External "no client");
     http_get := fun _ _ => Raise (External "offline");
     user_input := fun _ _ => None;
     connector_start := fun _ => Raise (External "LCU not found");
     connector_set := true; root_set := true |}.

(** The game client comes up at the third attempt. *)
Definition w_third : world :=
  {| lcu := fun _ _ _ _ => Raise (External "no client");
     http_get := fun _ _ => Raise (External "offline");
     user_input := fun _ _ => None;
     connector_start := fun k => if (k <? 2)%nat then Raise (External "LCU not found")
                                 else Ok tt;
     connector_set := true; root_set := true |}.

End ConnectorExamples.

Example start_connector_third :
  start_connector ConnectorExamples.w_third 31 (initial_state initial_session)
  = (Ok (Some tt),
     {| glob := initial_session; nreq := 0; nstart := 3;
        log := map (fun e => (initial_session, e))
                 ([Print [Lit "Starting LCU connector..."]]
                  ++ failed_attempts ConnectorExamples.w_third 0 0 2
                  ++ [Start; Print [Lit "[DEBUG] Connector.start() succeeded"]]) |}).
Proof. reflexivity. Qed.

Example start_connector_down :
  let run := start_connector ConnectorExamples.w_down 31 (initial_state initial_session) in
  fst run = Ok (Some tt)
  /\ length (filter is_start (events (snd run))) = 30%nat
  /\ length (filter is_exhausted_report (events (snd run))) = 1%nat
  /\ last (events (snd run)) Start = exhausted_report.
Proof. repeat split. Qed.

Lemma retry_loop_run (w : world) (fuel : nat) :
  forall (attempts : nat) (s : state),
    (attempts <= max_attempts)%nat ->
    (max_attempts - attempts < fuel)%nat ->
    let n := leading_failures w (nstart s) (max_attempts - attempts) in
    let success := ((attempts + n)%nat <? max_attempts)%nat in
    retry_loop w fuel attempts s =
    (Ok (Some (attempts + n)%nat),
     {| glob := glob s; nreq := nreq s;
        nstart := (nstart s + n + (if success then 1 else 0))%nat;
        log := (log s ++
                map (fun e => (glob s, e))
                  (failed_attempts w (nstart s) attempts n ++
                   (if success
                    then [Start; Print [Lit "[DEBUG] Connector.start() succeeded"]]
                    else [])))%list |}).
Proof.
  induction fuel as [|fuel IH]; intros a s Ha Hfuel; [lia|].
  cbv zeta. cbn [retry_loop].
  destruct (a <? max_attempts)%nat eqn:Hlt.
  - apply Nat.ltb_lt in Hlt.
    destruct (max_attempts - a)%nat as [|m] eqn:Hm; [lia|].
    cbn [leading_failures]. unfold_m.
    destruct (connector_start w (nstart s)) as [[]|e] eqn:Hs;
      cbn -[max_attempts Nat.ltb Z.of_nat Nat.add Nat.sub leading_failures retry_loop].
    + rewrite Nat.add_0_r.
      replace (a <? max_attempts)%nat with true by (symmetry; now apply Nat.ltb_lt).
      rewrite <- app_assoc. cbn [app]. do 3 f_equal. lia.
    + rewrite IH; cbn [glob nreq nstart log]; [|lia|lia].
      replace (max_attempts - (a + 1))%nat with m by lia.
      replace (a + 1 + leading_failures w (S (nstart s)) m)%nat
        with (a + S (leading_failures w (S (nstart s)) m))%nat by lia.
      cbn [failed_attempts]. unfold failed_attempt, start_error. rewrite Hs.
      replace (a + 1)%nat with (S a) by lia.
      rewrite <- !app_assoc. cbn [app map].
      f_equal. f_equal. lia.
  - apply Nat.ltb_ge in Hlt. assert (a = max_attempts) by lia. subst a.
    rewrite Nat.sub_diag. cbn [leading_failures failed_attempts].
    rewrite !Nat.add_0_r, Nat.ltb_irrefl. cbn [app map]. rewrite app_nil_r.
    destruct s; reflexivity.
Qed.


Lemma leading_failures_le (w : world) (bound k : nat) :
  (leading_failures w k bound <= bound)%nat.
Proof.
  revert k. induction bound as [|b IH]; intros k; simpl; [lia|].
  destruct (connector_start w k); [lia|]. specialize (IH (S k)). lia.
Qed.



Lemma failed_attempts_no_report (w : world) (n k a : nat) :
  filter is_exhausted_report (failed_attempts w k a n) = [].
Proof.
  revert k a. induction n as [|n IH]; intros k a; simpl; [reflexivity|]. apply IH.
Qed.

Lemma added_app (s s' : state) (g : session) (evs : list event) :
  log s' = (log s ++ map (fun e => (g, e)) evs)%list -> added s s' = evs.
Proof.
  intros H. unfold added, events. rewrite H, map_app, map_map. simpl.
  rewrite map_id, skipn_app, length_map, Nat.sub_diag, skipn_all2; [reflexivity|].
  now rewrite length_map.
Qed.







(** * Further properties *)

(** ** The join-game command, in every world *)

Definition is_http_get (e : event) : bool :=
  match e with HttpGet _ _ _ => true | _ => false end.

Definition is_after (e : event) : bool :=
  match e with After _ _ => true | _ => false end.

(** The effects of [join_game_action] under globals [g], spelt out
    case by case. *)
Definition join_trace (w : world) (g : session) : list event :=
  Print [Lit "Join game action triggered"] ::
  if negb (is_ready g) || Py.is_none (current_phase g) then
    [Dialog "error" "Error" [Lit "Client not ready or no phase info."]]
  else
    Print [Lit "[DEBUG] current_phase = "; Fmt (current_phase g)] ::
    AskInput "Join Game" "Enter match password:" ::
    match user_input w "Join Game" "Enter match password:" with
    | None => [Print [Lit "Join game cancelled."]]
    | Some pwd =>
        if Str.is_empty pwd then [Print [Lit "Join game cancelled."]]
        else
          HttpGet JOINMATCH_URL [("password", Str.strip pwd)] 10 ::
          match http_get w JOINMATCH_URL [("password", Str.strip pwd)] with
          | Raise e => [Dialog "error" "Join Game" [Lit "Error: "; FmtExn e]]
          | Ok r =>
              Print [Lit "/joinmatch "; Fmt (VInt (status_code r)); Lit ": ";
                     Fmt (VStr (text r))] ::
              if negb (status_code r =? 200) || Str.is_empty (text r) then
                [Dialog "error" "Join Game"
                   [Lit "Failed to join: Invalid response from server"]]
              else
                match parse_join_response (text r) with
                | Ok (name, tag, pin) => [After 0 (ScheduleJoin name tag pin)]
                | Raise e => [Dialog "error" "Join Game" [Lit "Error: "; FmtExn e]]
                end
          end
    end.

Lemma join_game_action_trace (w : world) (s : state) :
  join_game_action w s = (Ok tt, logged s (join_trace w (glob s))).
Proof.
  destruct s as [g k n l]. unfold join_game_action, join_trace, logged.
  unfold_m. unfold_m. cbn [glob nreq nstart log fst snd].
  destruct (negb (is_ready g) || Py.is_none (current_phase g));
    cbn [fst snd glob nreq nstart log map]; [now rewrite <- app_assoc|].
  destruct (user_input w "Join Game" "Enter match password:") as [pwd|];
    cbn [fst snd glob nreq nstart log map]; [|now rewrite <- !app_assoc].
  destruct (Str.is_empty pwd); cbn [fst snd glob nreq nstart log map];
    [now rewrite <- !app_assoc|].
  destruct (http_get w JOINMATCH_URL [("password", Str.strip pwd)]) as [r|e];
    cbn [fst snd glob nreq nstart log map]; [|now rewrite <- !app_assoc].
  destruct (negb (status_code r =? 200) || Str.is_empty (text r));
    cbn [fst snd glob nreq nstart log map]; [now rewrite <- !app_assoc|].
  destruct (parse_join_response (text r)) as [[[nm tg] pin]|e];
    cbn [fst snd glob nreq nstart log map]; now rewrite <- !app_assoc.
Qed.

Lemma added_logged (s : state) (evs : list event) : added s (logged s evs) = evs.
Proof. apply (added_app s (logged s evs) (glob s)). reflexivity. Qed.

(** X1: Whatever the user and the backend answer, [join_game_action]
    returns normally, leaves the globals and the client connection
    alone, sends at most one backend request and schedules at most one
    callback. *)
Theorem join_game_action_contained (w : world) (s : state) :
  exists evs,
    join_game_action w s = (Ok tt, logged s evs)
    /\ (length (filter is_http_get evs) <= 1)%nat
    /\ (length (filter is_after evs) <= 1)%nat
    /\ filter is_request evs = [].
Proof.
  exists (join_trace w (glob s)). split; [apply join_game_action_trace|].
  unfold join_trace.
  repeat match goal with
         | |- context [if ?c then _ else _] => destruct c
         | |- context [match ?x with _ => _ end] => destruct x
         | p : (_ * _)%type |- _ => destruct p
         end; simpl; repeat split; lia.
Qed.

(** X2: A lobby join is scheduled only with the name, tag and pin parsed
    out of a 200 answer to a password the user typed, while the client
    was ready with a known phase. *)
Theorem join_scheduled_only_when_parsed (w : world) (s : state) (ms : Z) (cb : callback) :
  In (After ms cb) (added s (snd (join_game_action w s))) ->
  exists pwd r name tag pin,
    is_ready (glob s) = true
    /\ current_phase (glob s) <> VNone
    /\ user_input w "Join Game" "Enter match password:" = Some pwd
    /\ Str.is_empty pwd = false
    /\ http_get w JOINMATCH_URL [("password", Str.strip pwd)] = Ok r
    /\ status_code r = 200
    /\ parse_join_response (text r) = Ok (name, tag, pin)
    /\ ms = 0 /\ cb = ScheduleJoin name tag pin.
Proof.
  rewrite join_game_action_trace. cbn [snd]. rewrite added_logged. unfold join_trace.
  destruct (is_ready (glob s)) eqn:Hr; cbn [negb orb].
  2:{ simpl. intros [H|[H|[]]]; discriminate. }
  destruct (current_phase (glob s)) eqn:Hp; cbn [Py.is_none];
    try (simpl; intros [H|[H|[]]]; discriminate);
    (destruct (user_input w "Join Game" "Enter match password:") as [pwd|] eqn:Hin;
     [|simpl; intros [H|[H|[H|[H|[]]]]]; discriminate];
     destruct (Str.is_empty pwd) eqn:He;
     [simpl; intros [H|[H|[H|[H|[]]]]]; discriminate|];
     destruct (http_get w JOINMATCH_URL [("password", Str.strip pwd)]) as [r|e] eqn:Hg;
     [|simpl; intros [H|[H|[H|[H|[H|[]]]]]]; discriminate];
     destruct (status_code r =? 200) eqn:H200; cbn [negb orb];
     [|simpl; intros [H|[H|[H|[H|[H|[H|[]]]]]]]; discriminate];
     destruct (Str.is_empty (text r)) eqn:Ht;
     [simpl; intros [H|[H|[H|[H|[H|[H|[]]]]]]]; discriminate|];
     destruct (parse_join_response (text r)) as [[[nm tg] pin]|e] eqn:Hparse;
     [|simpl; intros [H|[H|[H|[H|[H|[H|[]]]]]]]; discriminate];
     simpl; intros [H|[H|[H|[H|[H|[H|[]]]]]]]; try discriminate;
     inversion H; subst; exists pwd, r, nm, tg, pin;
     repeat split; try assumption; try discriminate; now apply Z.eqb_eq).
Qed.

Lemma join_scheduled_only_when_parsed_witness :
  exists pwd r name tag pin,
    is_ready JoinExamples.in_lobby = true
    /\ current_phase JoinExamples.in_lobby <> VNone
    /\ user_input (JoinExamples.w_answer "Ana#NA1,abc123") "Join Game"
         "Enter match password:" = Some pwd
    /\ Str.is_empty pwd = false
    /\ http_get (JoinExamples.w_answer "Ana#NA1,abc123") JOINMATCH_URL
         [("password", Str.strip pwd)] = Ok r
    /\ status_code r = 200
    /\ parse_join_response (text r) = Ok (name, tag, pin)
    /\ 0 = 0 /\ ScheduleJoin "Ana" "NA1" "abc123" = ScheduleJoin name tag pin.
Proof.
  apply (join_scheduled_only_when_parsed (JoinExamples.w_answer "Ana#NA1,abc123")
           (initial_state JoinExamples.in_lobby) 0 (ScheduleJoin "Ana" "NA1" "abc123")).
  do 5 right. left. reflexivity.
Defined.

(** X3: The backend is asked only for a non-empty password the user
    typed, with the client ready and the phase known; the request goes
    to the join-match URL with the password stripped of surrounding
    whitespace and a 10-second timeout. *)
Theorem join_request_only_with_password (w : world) (s : state)
  (url : string) (params : list (string * string)) (timeout : Z) :
  In (HttpGet url params timeout) (added s (snd (join_game_action w s))) ->
  exists pwd,
    is_ready (glob s) = true
    /\ current_phase (glob s) <> VNone
    /\ user_input w "Join Game" "Enter match password:" = Some pwd
    /\ Str.is_empty pwd = false
    /\ url = JOINMATCH_URL /\ params = [("password", Str.strip pwd)] /\ timeout = 10.
Proof.
  rewrite join_game_action_trace. cbn [snd]. rewrite added_logged. unfold join_trace.
  destruct (is_ready (glob s)) eqn:Hr; cbn [negb orb].
  2:{ simpl. intros [H|[H|[]]]; discriminate. }
  destruct (Py.is_none (current_phase (glob s))) eqn:Hp.
  { simpl. intros [H|[H|[]]]; discriminate. }
  assert (Hp' : current_phase (glob s) <> VNone).
  { intros E. rewrite E in Hp. discriminate. }
  destruct (user_input w "Join Game" "Enter match password:") as [pwd|] eqn:Hin;
    [|simpl; intros [H|[H|[H|[H|[]]]]]; discriminate].
  destruct (Str.is_empty pwd) eqn:He;
    [simpl; intros [H|[H|[H|[H|[]]]]]; discriminate|].
  intros H. exists pwd.
  assert (E : HttpGet url params timeout
              = HttpGet JOINMATCH_URL [("password", Str.strip pwd)] 10).
  { destruct H as [H|[H|[H|[H|H]]]]; try discriminate; [now symmetry|].
    exfalso. revert H.
    repeat match goal with
           | |- context [if ?c then _ else _] => destruct c
           | |- context [match ?x with _ => _ end] => destruct x
           | p : (_ * _)%type |- _ => destruct p
           end; simpl; intuition discriminate. }
  inversion E; subst. repeat split; assumption.
Qed.

Lemma join_request_only_with_password_witness :
  exists pwd,
    is_ready JoinExamples.in_lobby = true
    /\ current_phase JoinExamples.in_lobby <> VNone
    /\ user_input (JoinExamples.w_answer "malformed") "Join Game"
         "Enter match password:" = Some pwd
    /\ Str.is_empty pwd = false
    /\ "https://rust.gameras.gr/joinmatch" = JOINMATCH_URL
    /\ [("password", "hunter2")] = [("password", Str.strip pwd)] /\ 10 = 10.
Proof.
  apply (join_request_only_with_password (JoinExamples.w_answer "malformed")
           (initial_state JoinExamples.in_lobby)
           "https://rust.gameras.gr/joinmatch" [("password", "hunter2")] 10).
  do 3 right. left. reflexivity.
Defined.

(** X4: Once the user has typed a password, the command never ends
    silently: its last effect is either the scheduling of the join or
    an error dialog titled "Join Game". *)
Theorem join_game_action_reports (w : world) (s : state) (pwd : string) :
  is_ready (glob s) = true ->
  Py.is_none (current_phase (glob s)) = false ->
  user_input w "Join Game" "Enter match password:" = Some pwd ->
  Str.is_empty pwd = false ->
  exists before final,
    added s (snd (join_game_action w s)) = (before ++ [final])%list
    /\ ((exists name tag pin, final = After 0 (ScheduleJoin name tag pin))
        \/ (exists msg, final = Dialog "error" "Join Game" msg)).
Proof.
  intros Hr Hp Hin He.
  rewrite join_game_action_trace. cbn [snd]. rewrite added_logged. unfold join_trace.
  rewrite Hr, Hp, Hin, He. cbn [negb orb].
  destruct (http_get w JOINMATCH_URL [("password", Str.strip pwd)]) as [r|e].
  - destruct (negb (status_code r =? 200) || Str.is_empty (text r)).
    + eexists [_; _; _; _; _], _. split; [reflexivity|]. right. eexists. reflexivity.
    + destruct (parse_join_response (text r)) as [[[nm tg] pin]|e].
      * eexists [_; _; _; _; _], _. split; [reflexivity|]. left.
        do 3 eexists. reflexivity.
      * eexists [_; _; _; _; _], _. split; [reflexivity|]. right. eexists. reflexivity.
  - eexists [_; _; _; _], _. split; [reflexivity|]. right. eexists. reflexivity.
Qed.

Lemma join_game_action_reports_witness :
  exists before final,
    added (initial_state JoinExamples.in_lobby)
      (snd (join_game_action (JoinExamples.w_answer "malformed")
              (initial_state JoinExamples.in_lobby))) = (before ++ [final])%list
    /\ ((exists name tag pin, final = After 0 (ScheduleJoin name tag pin))
        \/ (exists msg, final = Dialog "error" "Join Game" msg)).
Proof.
  exact (join_game_action_reports (JoinExamples.w_answer "malformed")
           (initial_state JoinExamples.in_lobby) "hunter2"
           eq_refl eq_refl eq_refl eq_refl).
Defined.

(** X5: An answer that is not a 200, or a 200 with an empty body, is
    rejected as an invalid response without being parsed, however well
    formed its body is. *)
Theorem join_game_action_invalid_response (w : world) (s : state) (pwd : string)
  (r : http_response) :
  is_ready (glob s) = true ->
  Py.is_none (current_phase (glob s)) = false ->
  user_input w "Join Game" "Enter match password:" = Some pwd ->
  Str.is_empty pwd = false ->
  http_get w JOINMATCH_URL [("password", Str.strip pwd)] = Ok r ->
  status_code r <> 200 \/ text r = "" ->
  join_game_action w s =
  (Ok tt, logged s (join_asked s pwd r
                    ++ [Dialog "error" "Join Game"
                          [Lit "Failed to join: Invalid response from server"]])).
Proof.
  intros Hr Hp Hin He Hg Hbad.
  rewrite join_game_action_trace. unfold join_trace, join_asked.
  rewrite Hr, Hp, Hin, He, Hg. cbn [negb orb].
  assert (C : negb (status_code r =? 200) || Str.is_empty (text r) = true).
  { destruct Hbad as [H|H].
    - apply Z.eqb_neq in H. now rewrite H.
    - rewrite H. apply orb_true_r. }
  now rewrite C.
Qed.

Lemma join_game_action_invalid_response_witness :
  let w := AuthExamples.w_unregistered in
  let w' := {| lcu := lcu w; http_get := http_get w;
               user_input := fun _ _ => Some "hunter2";
               connector_start := connector_start w;
               connector_set := true; root_set := true |} in
  let s := initial_state JoinExamples.in_lobby in
  let r := {| status_code := 404; text := "User not found" |} in
  join_game_action w' s =
  (Ok tt, logged s (join_asked s "hunter2" r
                    ++ [Dialog "error" "Join Game"
                          [Lit "Failed to join: Invalid response from server"]])).
Proof.
  cbv zeta.
  apply join_game_action_invalid_response; try reflexivity.
  left. simpl. lia.
Defined.

Lemma parse_join_response_no_hash (t left pin : string) :
  Str.strip t = left ++ "," ++ pin ->
  Str.occurs "," left = false -> Str.occurs "#" left = false ->
  parse_join_response t = Raise (ValueError_unpack 2 1).
Proof.
  intros Ht Hc Hh. unfold parse_join_response. rewrite Ht.
  change (left ++ "," ++ pin) with (left ++ String "," pin).
  rewrite (split1_first "," left pin Hc). cbn [Py.unpack2].
  now rewrite (split1_absent "#" left Hh).
Qed.

(** A 200 answer whose part before the first [,] holds no [#] is not
    a join target: the command shows the unpacking error and schedules
    nothing. *)
Theorem join_game_action_missing_tag (w : world) (s : state) (pwd : string)
  (r : http_response) (left pin : string) :
  is_ready (glob s) = true ->
  Py.is_none (current_phase (glob s)) = false ->
  user_input w "Join Game" "Enter match password:" = Some pwd ->
  Str.is_empty pwd = false ->
  http_get w JOINMATCH_URL [("password", Str.strip pwd)] = Ok r ->
  status_code r = 200 ->
  Str.strip (text r) = left ++ "," ++ pin ->
  Str.occurs "," left = false -> Str.occurs "#" left = false ->
  join_game_action w s =
  (Ok tt, logged s (join_asked s pwd r
                    ++ [Dialog "error" "Join Game"
                          [Lit "Error: "; FmtExn (ValueError_unpack 2 1)]])).
Proof.
  intros Hr Hp Hin He Hg H200 Ht Hc Hh.
  rewrite join_game_action_trace. unfold join_trace, join_asked.
  rewrite Hr, Hp, Hin, He, Hg, H200. cbn [negb orb Z.eqb Pos.eqb].
  assert (Hne : Str.is_empty (text r) = false).
  { apply strip_nonempty. rewrite Ht. now destruct left. }
  rewrite Hne, (parse_join_response_no_hash _ _ _ Ht Hc Hh). reflexivity.
Qed.

Lemma join_game_action_missing_tag_witness :
  let w := JoinExamples.w_answer "Ana,abc123" in
  let s := initial_state JoinExamples.in_lobby in
  join_game_action w s =
  (Ok tt, logged s (join_asked s "hunter2" {| status_code := 200; text := "Ana,abc123" |}
                    ++ [Dialog "error" "Join Game"
                          [Lit "Error: "; FmtExn (ValueError_unpack 2 1)]])).
Proof.
  cbv zeta.
  apply (join_game_action_missing_tag (JoinExamples.w_answer "Ana,abc123")
           (initial_state JoinExamples.in_lobby) "hunter2"
           {| status_code := 200; text := "Ana,abc123" |} "Ana" "abc123");
    reflexivity.
Defined.

(** ** The lobby join, in every world *)

Definition is_post (e : event) : bool :=
  match e with
  | Request m _ _ => String.eqb m "POST"
  | _ => false
  end.

(** [s] after [n] requests and the effects [evs], the globals untouched. *)
Definition advanced (s : state) (n : nat) (evs : list event) : state :=
  {| glob := glob s; nreq := (n + nreq s)%nat; nstart := nstart s;
     log := (log s ++ map (fun e => (glob s, e)) evs)%list |}.

Definition join_error_report (e : exn) : list event :=
  [Print [Lit "Error in join_lobby: "; FmtExn e];
   PrintExc;
   After 0 (ShowDialog "error" "Join Game" [Lit "Error during join process: "; FmtExn e])].

(** The requests and effects of [do_join_lobby] when its first
    request is the [k]-th of the connection, spelt out case by case. *)
Definition lobby_trace (w : world) (k : nat) (summoner tag pin : string)
  : nat * list event :=
  match lcu w k "GET" lobbies_path None with
  | Raise e => (1%nat, Request "GET" lobbies_path None :: join_error_report e)
  | Ok games_resp =>
      match json games_resp with
      | Raise e => (1%nat, Request "GET" lobbies_path None :: join_error_report e)
      | Ok games =>
          match find_lobby summoner tag games with
          | Raise e => (1%nat, Request "GET" lobbies_path None :: join_error_report e)
          | Ok m =>
              if negb (Py.truthy m) then
                (1%nat,
                 [Request "GET" lobbies_path None;
                  After 0 (ShowDialog "error" "Join Game"
                             [Lit "Couldn't find "; Fmt (VStr summoner); Lit "#";
                              Fmt (VStr tag); Lit "'s lobby"])])
              else
                match Py.index m "id" with
                | Raise e => (1%nat, Request "GET" lobbies_path None :: join_error_report e)
                | Ok game_id =>
                    let post := Request "POST" (join_endpoint game_id) (Some (join_body pin)) in
                    match lcu w (S k) "POST" (join_endpoint game_id) (Some (join_body pin)) with
                    | Raise e =>
                        (2%nat, Request "GET" lobbies_path None :: post :: join_error_report e)
                    | Ok join_resp =>
                        if status join_resp =? 200 then
                          (2%nat,
                           [Request "GET" lobbies_path None; post;
                            After 0 (ShowDialog "info" "Join Game"
                                       [Lit "Successfully joined "; Fmt (VStr summoner);
                                        Lit "#"; Fmt (VStr tag); Lit "'s lobby!"])])
                        else
                          match json join_resp with
                          | Raise e =>
                              (2%nat,
                               Request "GET" lobbies_path None :: post :: join_error_report e)
                          | Ok error_msg =>
                              match Py.get error_msg "message" (VStr "Unknown error") with
                              | Raise e =>
                                  (2%nat,
                                   Request "GET" lobbies_path None :: post
                                   :: join_error_report e)
                              | Ok error_text =>
                                  (2%nat,
                                   [Request "GET" lobbies_path None; post;
                                    After 0 (ShowDialog "error" "Join Game"
                                               [Lit "Failed to join: "; Fmt error_text])])
                              end
                          end
                    end
                end
          end
      end
  end.

Lemma do_join_lobby_trace (w : world) (summoner tag pin : string) (s : state) :
  do_join_lobby w summoner tag pin s =
  (Ok tt, advanced s (fst (lobby_trace w (nreq s) summoner tag pin))
            (snd (lobby_trace w (nreq s) summoner tag pin))).
Proof.
  destruct s as [g k n l]. unfold do_join_lobby, lobby_trace, advanced, join_error_report.
  unfold_m. unfold_m. cbn [glob nreq nstart log fst snd].
  change [Lit "/lol-lobby/v2/lobby/custom/available"] with lobbies_path.
  destruct (lcu w k "GET" lobbies_path None) as [resp|e];
    cbn [glob nreq nstart log fst snd map app Nat.add];
    [|now rewrite <- !app_assoc].
  destruct (json resp) as [games|e]; cbn [glob nreq nstart log fst snd map app Nat.add];
    [|now rewrite <- !app_assoc].
  destruct (find_lobby summoner tag games) as [m|e];
    cbn [glob nreq nstart log fst snd map app Nat.add];
    [|now rewrite <- !app_assoc].
  destruct (negb (Py.truthy m)); cbn [glob nreq nstart log fst snd map app Nat.add];
    [now rewrite <- !app_assoc|].
  destruct (Py.index m "id") as [game_id|e];
    cbn [glob nreq nstart log fst snd map app Nat.add];
    [|now rewrite <- !app_assoc].
  destruct (lcu w (S k) "POST" (join_endpoint game_id) (Some (join_body pin))) as [jr|e];
    cbn [glob nreq nstart log fst snd map app Nat.add];
    [|now rewrite <- !app_assoc].
  destruct (status jr =? 200); cbn [glob nreq nstart log fst snd map app Nat.add];
    [now rewrite <- !app_assoc|].
  destruct (json jr) as [em|e]; cbn [glob nreq nstart log fst snd map app Nat.add];
    [|now rewrite <- !app_assoc].
  destruct (Py.get em "message" (VStr "Unknown error")) as [et|e];
    cbn [glob nreq nstart log fst snd map app Nat.add];
    now rewrite <- !app_assoc.
Qed.

Ltac split_trace :=
  repeat match goal with
         | |- context [if ?c then _ else _] => destruct c
         | |- context [match ?x with _ => _ end] => destruct x
         end.

(** X6: Whatever the client answers, [do_join_lobby] returns normally and
    leaves the globals alone; it makes one or two requests, at most
    one of them a POST, and ends by scheduling exactly one dialog
    titled "Join Game". *)
Theorem do_join_lobby_always_reports (w : world) (summoner tag pin : string) (s : state) :
  exists n before kind msg,
    do_join_lobby w summoner tag pin s =
    (Ok tt, advanced s n (before ++ [After 0 (ShowDialog kind "Join Game" msg)]))
    /\ (1 <= n <= 2)%nat
    /\ length (filter is_request before) = n
    /\ (length (filter is_post before) <= 1)%nat
    /\ filter is_after before = [].
Proof.
  rewrite do_join_lobby_trace. unfold lobby_trace, join_error_report.
  split_trace; cbn [fst snd];
    first
      [ eexists _, [_], _, _; split; [reflexivity|]; simpl; repeat split; lia
      | eexists _, [_; _], _, _; split; [reflexivity|]; simpl; repeat split; lia
      | eexists _, [_; _; _], _, _; split; [reflexivity|]; simpl; repeat split; lia
      | eexists _, [_; _; _; _], _, _; split; [reflexivity|]; simpl; repeat split; lia ].
Qed.

(** X7: When the listing cannot be had (the request raises, the body
    does not decode, or matching raises on it), the join is reported as
    failed with that exception and no join call is made. *)
Theorem do_join_lobby_listing_failure (w : world) (summoner tag pin : string)
  (s : state) (e : exn) :
  lcu w (nreq s) "GET" lobbies_path None = Raise e
  \/ (exists resp, lcu w (nreq s) "GET" lobbies_path None = Ok resp
                   /\ (json resp = Raise e
                       \/ exists games, json resp = Ok games
                                        /\ find_lobby summoner tag games = Raise e)) ->
  do_join_lobby w summoner tag pin s =
  (Ok tt, advanced s 1 (Request "GET" lobbies_path None :: join_error_report e)).
Proof.
  intros H. rewrite do_join_lobby_trace. unfold lobby_trace.
  destruct H as [H | [resp [H [J | [games [J F]]]]]]; rewrite H; try rewrite J;
    try rewrite F; reflexivity.
Qed.

Lemma do_join_lobby_listing_failure_witness :
  do_join_lobby AuthExamples.w_registered "Ana" "NA1" "abc123" LobbyExamples.s0 =
  (Ok tt, advanced LobbyExamples.s0 1
            (Request "GET" lobbies_path None
             :: join_error_report (External "no client"))).
Proof.
  apply do_join_lobby_listing_failure. left. reflexivity.
Defined.

(** X8: A matched lobby that carries no [id] is reported as a failed join
    ([KeyError] on [id]); no join call is made. *)
Theorem do_join_lobby_missing_id (w : world) (summoner tag pin : string)
  (s : state) (resp : response) (games : value) (d : list (string * value)) :
  lcu w (nreq s) "GET" lobbies_path None = Ok resp ->
  json resp = Ok games ->
  find_lobby summoner tag games = Ok (VDict d) ->
  d <> [] ->
  Py.lookup d "id" = None ->
  do_join_lobby w summoner tag pin s =
  (Ok tt, advanced s 1 (Request "GET" lobbies_path None
                        :: join_error_report (KeyError "id"))).
Proof.
  intros Hg Hj Hf Hd Hid. rewrite do_join_lobby_trace. unfold lobby_trace.
  rewrite Hg, Hj, Hf, (truthy_nonempty_dict d Hd). cbn [negb Py.index].
  now rewrite Hid.
Qed.

Lemma do_join_lobby_missing_id_witness :
  let w := PhaseExamples.w_client
             (PhaseExamples.phase_answer
                (VList [VDict [("ownerDisplayName", VStr "Ana #NA1")]])) in
  do_join_lobby w "Ana" "NA1" "abc123" LobbyExamples.s0 =
  (Ok tt, advanced LobbyExamples.s0 1
            (Request "GET" lobbies_path None :: join_error_report (KeyError "id"))).
Proof.
  cbv zeta.
  apply (do_join_lobby_missing_id _ "Ana" "NA1" "abc123" LobbyExamples.s0
           {| status := 200;
              json := Ok (VList [VDict [("ownerDisplayName", VStr "Ana #NA1")]]) |}
           (VList [VDict [("ownerDisplayName", VStr "Ana #NA1")]])
           [("ownerDisplayName", VStr "Ana #NA1")]);
    try reflexivity. discriminate.
Defined.

(** X9: After the join call was made, three things are reported as "Error
    during join process" rather than as a refused join: the call
    raising, a non-200 answer whose body does not decode, and a non-200
    answer whose body is not a dictionary. *)
Theorem do_join_lobby_join_error (w : world) (summoner tag pin : string)
  (s : state) (resp : response) (games m game_id : value) (e : exn) :
  lcu w (nreq s) "GET" lobbies_path None = Ok resp ->
  json resp = Ok games ->
  find_lobby summoner tag games = Ok m ->
  Py.truthy m = true ->
  Py.index m "id" = Ok game_id ->
  lcu w (S (nreq s)) "POST" (join_endpoint game_id) (Some (join_body pin)) = Raise e
  \/ (exists jr,
         lcu w (S (nreq s)) "POST" (join_endpoint game_id) (Some (join_body pin)) = Ok jr
         /\ status jr <> 200
         /\ (json jr = Raise e
             \/ exists body, json jr = Ok body
                             /\ (forall d, body <> VDict d)
                             /\ e = AttributeError body "get")) ->
  do_join_lobby w summoner tag pin s =
  (Ok tt, advanced s 2
            (Request "GET" lobbies_path None
             :: Request "POST" (join_endpoint game_id) (Some (join_body pin))
             :: join_error_report e)).
Proof.
  intros Hg Hj Hf Ht Hid H. rewrite do_join_lobby_trace. unfold lobby_trace.
  rewrite Hg, Hj, Hf, Ht, Hid. cbn [negb].
  destruct H as [H | [jr [H [Hs [J | [body [J [Hb He]]]]]]]]; rewrite H;
    [reflexivity | |]; apply Z.eqb_neq in Hs; rewrite Hs, J; [reflexivity|].
  subst e. destruct body; try reflexivity. exfalso. eapply Hb. reflexivity.
Qed.

Lemma do_join_lobby_join_error_witness :
  let w := LobbyExamples.w_lobbies {| status := 500; json := Ok (VStr "Internal error") |} in
  do_join_lobby w "Ana" "NA1" "abc123" LobbyExamples.s0 =
  (Ok tt, advanced LobbyExamples.s0 2
            (Request "GET" lobbies_path None
             :: Request "POST" (join_endpoint (VInt 2)) (Some (join_body "abc123"))
             :: join_error_report (AttributeError (VStr "Internal error") "get"))).
Proof.
  cbv zeta.
  apply (do_join_lobby_join_error _ "Ana" "NA1" "abc123" LobbyExamples.s0
           {| status := 200; json := Ok (VList LobbyExamples.listing) |}
           (VList LobbyExamples.listing) (lobby 2 "Ana #NA1") (VInt 2));
    try reflexivity.
  right. exists {| status := 500; json := Ok (VStr "Internal error") |}.
  split; [reflexivity|]. split; [simpl; lia|]. right.
  exists (VStr "Internal error"). split; [reflexivity|]. split; [intros d; discriminate|].
  reflexivity.
Defined.

(** ** Matching, entry by entry *)

Lemma next_or_none_skips (pred : value -> result bool) (l1 : list value) (rest : list value) :
  Forall (fun g => pred g = Ok false) l1 ->
  Py.next_or_none pred (l1 ++ rest) = Py.next_or_none pred rest.
Proof.
  induction 1 as [|g l1 Hg _ IH]; simpl; [reflexivity|]. now rewrite Hg.
Qed.

Lemma descriptors_without_exact (summoner tag : string) (l : list value) :
  forallb is_descriptor l = true ->
  forallb (fun g => negb (exact_rule summoner tag g)) l = true ->
  Forall (fun g => exact_match (summoner ++ " #" ++ tag) g = Ok false) l.
Proof.
  intros Hd Hn. apply Forall_forall. intros g Hin.
  rewrite forallb_forall in Hd, Hn.
  rewrite (exact_match_descriptor summoner tag g (Hd g Hin)).
  specialize (Hn g Hin). now destruct (exact_rule summoner tag g).
Qed.

(** X10: The matcher reads the listing only up to the first exact match:
    what follows it, well formed or not, plays no part. *)
Theorem find_lobby_stops_at_exact_match (summoner tag : string)
  (before rest : list value) (g : value) :
  forallb is_descriptor before = true ->
  forallb (fun x => negb (exact_rule summoner tag x)) before = true ->
  is_descriptor g = true ->
  exact_rule summoner tag g = true ->
  find_lobby summoner tag (VList (before ++ g :: rest)) = Ok g.
Proof.
  intros Hd Hn Hg He. unfold find_lobby. cbn [Py.iter].
  rewrite (next_or_none_skips _ before (g :: rest)
             (descriptors_without_exact summoner tag before Hd Hn)).
  cbn [Py.next_or_none]. rewrite (exact_match_descriptor summoner tag g Hg), He.
  now rewrite (descriptor_truthy g Hg).
Qed.

Lemma find_lobby_stops_at_exact_match_witness :
  find_lobby "Ana" "NA1"
    (VList ([lobby 1 "Bob #EUW"] ++ lobby 2 "ana #na1" :: [VInt 7; VNone]))
  = Ok (lobby 2 "ana #na1").
Proof.
  apply (find_lobby_stops_at_exact_match "Ana" "NA1" [lobby 1 "Bob #EUW"] [VInt 7; VNone]
           (lobby 2 "ana #na1")); reflexivity.
Defined.

(** X11: An entry that is not a dictionary, met before any exact match,
    makes the matching raise, even when the wanted lobby comes later
    in the listing. *)
Theorem find_lobby_malformed_entry (summoner tag : string)
  (before rest : list value) (bad : value) :
  forallb is_descriptor before = true ->
  forallb (fun x => negb (exact_rule summoner tag x)) before = true ->
  (forall d, bad <> VDict d) ->
  find_lobby summoner tag (VList (before ++ bad :: rest))
  = Raise (AttributeError bad "get").
Proof.
  intros Hd Hn Hb. unfold find_lobby. cbn [Py.iter].
  rewrite (next_or_none_skips _ before (bad :: rest)
             (descriptors_without_exact summoner tag before Hd Hn)).
  cbn [Py.next_or_none]. unfold exact_match.
  destruct bad; try reflexivity. exfalso. eapply Hb. reflexivity.
Qed.

Lemma find_lobby_malformed_entry_witness :
  find_lobby "Ana" "NA1" (VList ([lobby 1 "Bob #EUW"] ++ VNone :: [lobby 2 "Ana #NA1"]))
  = Raise (AttributeError VNone "get").
Proof.
  apply (find_lobby_malformed_entry "Ana" "NA1" [lobby 1 "Bob #EUW"] [lobby 2 "Ana #NA1"]
           VNone); try reflexivity. intros d; discriminate.
Defined.

Lemma exact_match_ownerless (summoner tag : string) (d : list (string * value)) :
  Py.lookup d "ownerDisplayName" = None ->
  exact_match (summoner ++ " #" ++ tag) (VDict d) = Ok false.
Proof.
  intros H. unfold exact_match. cbn [Py.get]. rewrite H. cbn [Py.lower Str.lower].
  now destruct summoner.
Qed.

Lemma prefix_match_ownerless (summoner : string) (d : list (string * value)) :
  Py.lookup d "ownerDisplayName" = None ->
  prefix_match summoner (VDict d) = Ok false.
Proof.
  intros H. unfold prefix_match. cbn [Py.get]. rewrite H. cbn [Py.lower Str.lower].
  now destruct (Str.lower summoner).
Qed.

Lemma next_or_none_drop (pred : value -> result bool) (before rest : list value)
  (g : value) :
  pred g = Ok false ->
  Py.next_or_none pred (before ++ g :: rest) = Py.next_or_none pred (before ++ rest).
Proof.
  intros H. induction before as [|b l IH]; cbn [app Py.next_or_none]; [now rewrite H|].
  destruct (pred b) as [[|]|e]; auto.
Qed.

(** X12: A listed lobby without an [ownerDisplayName] is passed over by
    both rules, wherever it stands in the listing: the matcher behaves
    as if it were not listed. *)
Theorem find_lobby_skips_ownerless (summoner tag : string)
  (d : list (string * value)) (before rest : list value) :
  Py.lookup d "ownerDisplayName" = None ->
  find_lobby summoner tag (VList (before ++ VDict d :: rest))
  = find_lobby summoner tag (VList (before ++ rest)).
Proof.
  intros H. unfold find_lobby. cbn [Py.iter].
  rewrite (next_or_none_drop _ before rest _ (exact_match_ownerless summoner tag d H)).
  now rewrite (next_or_none_drop _ before rest _ (prefix_match_ownerless summoner d H)).
Qed.

Lemma find_lobby_skips_ownerless_witness :
  find_lobby "Ana" "NA1"
    (VList ([lobby 1 "Bob #EUW"] ++ VDict [("id", VInt 5)] :: [lobby 2 "Ana #NA1"]))
  = find_lobby "Ana" "NA1" (VList ([lobby 1 "Bob #EUW"] ++ [lobby 2 "Ana #NA1"])).
Proof.
  apply (find_lobby_skips_ownerless "Ana" "NA1" [("id", VInt 5)]
           [lobby 1 "Bob #EUW"] [lobby 2 "Ana #NA1"]).
  reflexivity.
Defined.

Lemma append_inv_head (a b c : string) : a ++ b = a ++ c -> b = c.
Proof.
  induction a as [|x a IH]; simpl; [trivial|]. intros H. inversion H. auto.
Qed.

Lemma startswith_append (a b p : string) :
  Str.startswith (a ++ b) (a ++ p) = Str.startswith b p.
Proof.
  induction a as [|x a IH]; simpl; [reflexivity|]. now rewrite Ascii.eqb_refl.
Qed.

(** X13: The fallback rule does not look at the requested tag: a lone
    lobby owned by [name#other] is never an exact match (the exact
    rule wants a space before [#]) and is always taken by the prefix
    rule, whatever tag was asked for. *)
Theorem prefix_fallback_ignores_tag (summoner tag other : string) (id : Z) :
  exact_rule summoner tag (lobby id (summoner ++ "#" ++ other)) = false
  /\ find_lobby summoner tag (VList [lobby id (summoner ++ "#" ++ other)])
     = Ok (lobby id (summoner ++ "#" ++ other)).
Proof.
  assert (E : exact_rule summoner tag (lobby id (summoner ++ "#" ++ other)) = false).
  { unfold exact_rule, eq_ci, owner_name, lobby. cbn [Py.lookup String.eqb Ascii.eqb Bool.eqb].
    simpl Py.lookup. apply String.eqb_neq. rewrite !lower_app. intros H.
    apply append_inv_head in H. discriminate. }
  split; [exact E|].
  rewrite find_lobby_descriptors by reflexivity.
  cbn [find]. rewrite E. unfold first_or_none. cbn [find].
  replace (prefix_rule summoner (lobby id (summoner ++ "#" ++ other))) with true;
    [reflexivity|].
  unfold prefix_rule, startswith_ci, owner_name, lobby. simpl Py.lookup.
  rewrite !lower_app, startswith_append. cbn. now destruct (Str.lower other).
Qed.

(** ** Identity and region, in every world *)

(** What the region request, made as the [k]-th of the connection,
    leads to: [Ok (Some u)] when the region becomes [u], [Ok None]
    when the answer is not a 200, [Raise e] when the step raises. *)
Definition region_outcome (upper : string -> string) (w : world) (k : nat)
  : result (option string) :=
  match lcu w k "GET" region_path None with
  | Raise e => Raise e
  | Ok resp =>
      if status resp =? 200 then
        match json resp with
        | Raise e => Raise e
        | Ok data =>
            match Py.get data "region" (VStr "") with
            | Raise e => Raise e
            | Ok r =>
                match py_upper upper r with
                | Raise e => Raise e
                | Ok u => Ok (Some u)
                end
            end
        end
      else Ok None
  end.

(** [s] once one more request has been issued. *)
Definition requested (s : state) (method : string) (path : fstring) : state :=
  {| glob := glob s; nreq := S (nreq s); nstart := nstart s;
     log := (log s ++ [(glob s, Request method path None)])%list |}.

Definition with_glob (s : state) (g : session) : state :=
  {| glob := g; nreq := nreq s; nstart := nstart s; log := log s |}.

Definition with_event (s : state) (e : event) : state :=
  {| glob := glob s; nreq := nreq s; nstart := nstart s;
     log := (log s ++ [(glob s, e)])%list |}.

Lemma fetch_region_run (upper : string -> string) (w : world) (s : state) :
  fetch_region upper w s =
  let s1 := requested s "GET" region_path in
  match region_outcome upper w (nreq s) with
  | Ok (Some u) => (Ok tt, with_glob s1 (set_region (VStr u) (glob s)))
  | Ok None => (Ok tt, s1)
  | Raise e => (Raise e, s1)
  end.
Proof.
  unfold fetch_region, region_outcome, requested, with_glob. unfold_m.
  change [Lit "/riotclient/region-locale"] with region_path.
  destruct (lcu w (nreq s) "GET" region_path None) as [resp|e]; cbn; [|reflexivity].
  destruct (status resp =? 200); cbn; [|reflexivity].
  destruct (json resp) as [data|e]; cbn; [|reflexivity].
  destruct (Py.get data "region" (VStr "")) as [r|e]; cbn; [|reflexivity].
  destruct (py_upper upper r) as [u|e]; reflexivity.
Qed.

(** What the identity request, made as the [k]-th of the connection,
    leads to: [Ok (Some (n, t))] when name and tag become [n] and [t],
    [Ok None] when the answer is not a 200, [Raise e] when the step
    raises (then neither global was written). *)
Definition identity_outcome (w : world) (k : nat) : result (option (value * value)) :=
  match lcu w k "GET" summoner_path None with
  | Raise e => Raise e
  | Ok resp =>
      if status resp =? 200 then
        match json resp with
        | Raise e => Raise e
        | Ok (VDict d) => Ok (Some (dict_get d "gameName", dict_get d "tagLine"))
        | Ok data => Raise (AttributeError data "get")
        end
      else Ok None
  end.

Definition set_identity (n t : value) (g : session) : session :=
  set_summoner_tag t (set_summoner_name n g).

Lemma store_identity_dict (d : list (string * value)) (s : state) :
  store_identity (VDict d) s =
  (Ok tt, with_glob s (set_identity (dict_get d "gameName") (dict_get d "tagLine") (glob s))).
Proof. reflexivity. Qed.

Lemma store_identity_other (data : value) (s : state) :
  (forall d, data <> VDict d) ->
  store_identity data s = (Raise (AttributeError data "get"), s).
Proof.
  intros H. destruct data; try reflexivity. exfalso. eapply H. reflexivity.
Qed.

(** Lines 838-842: the identity request and what it stores. *)
Lemma identity_step_run (w : world) (s : state) :
  (resp <- request w "GET" [Lit "/lol-summoner/v1/current-summoner"] None ;;
   if status resp =? 200 then
     summoner_data <- lift (json resp) ;;
     store_identity summoner_data
   else ret tt) s =
  let s1 := requested s "GET" summoner_path in
  match identity_outcome w (nreq s) with
  | Ok (Some (n, t)) => (Ok tt, with_glob s1 (set_identity n t (glob s)))
  | Ok None => (Ok tt, s1)
  | Raise e => (Raise e, s1)
  end.
Proof.
  unfold identity_outcome, requested. unfold bind at 1, request.
  change [Lit "/lol-summoner/v1/current-summoner"] with summoner_path.
  destruct (lcu w (nreq s) "GET" summoner_path None) as [resp|e]; cbn; [|reflexivity].
  destruct (status resp =? 200); cbn; [|reflexivity].
  unfold bind, lift. destruct (json resp) as [data|e]; [|reflexivity].
  destruct data; reflexivity.
Qed.

(** The state after the guarded identity re-fetch of [on_summoner_update]. *)
Definition after_refetch (w : world) (s : state) : state :=
  let s1 := requested s "GET" summoner_path in
  match identity_outcome w (nreq s) with
  | Ok (Some (n, t)) => with_glob s1 (set_identity n t (glob s))
  | Ok None => s1
  | Raise e => with_event s1 (Print [Lit "Error getting summoner data: "; FmtExn e])
  end.

(** The state after the guarded region step of [on_summoner_update]. *)
Definition after_region (upper : string -> string) (w : world) (s : state) : state :=
  let s1 := requested s "GET" region_path in
  match region_outcome upper w (nreq s) with
  | Ok (Some u) => with_glob s1 (set_region (VStr u) (glob s))
  | Ok None => s1
  | Raise e => with_event s1 (Print [Lit "Error getting region data: "; FmtExn e])
  end.

Definition identity_line (head : string) (s : state) : state :=
  with_event s (Print [Lit head; Fmt (summoner_name (glob s)); Lit "#";
                       Fmt (summoner_tag (glob s)); Lit " Region: ";
                       Fmt (region (glob s))]).

Definition is_partial (n t : value) : bool := negb (Py.truthy n) || negb (Py.truthy t).

(** The run of [on_summoner_update] on a non-empty dictionary, step
    by step. *)
Lemma on_summoner_update_dict (upper : string -> string) (w : world)
  (d : list (string * value)) (s : state) :
  d <> [] ->
  on_summoner_update upper w (VDict d) s =
  (Ok tt,
   let n := dict_get d "gameName" in
   let t := dict_get d "tagLine" in
   let s1 := with_glob s (set_identity n t (glob s)) in
   identity_line "Summoner updated: "
     (after_region upper w (if is_partial n t then after_refetch w s1 else s1))).
Proof.
  intros Hd. cbv zeta. unfold on_summoner_update. rewrite (truthy_nonempty_dict d Hd).
  match goal with
  | |- context [try_except ?m (fun e => print [Lit "Error getting summoner data: "; FmtExn e])] =>
      remember m as idstep eqn:Hid
  end.
  assert (Hid' : forall s0, idstep s0 = _)
    by (intros s0; subst idstep; apply identity_step_run).
  clear Hid.
  remember (fetch_region upper w) as regstep eqn:Hreg.
  assert (Hreg' : forall s0, regstep s0 = _)
    by (intros s0; subst regstep; apply fetch_region_run).
  clear Hreg. cbv zeta in Hid', Hreg'.
  unfold print_identity, try_except, bind, ret, lift, print, emit, get_glob, set_glob.
  cbn [Py.get].
  fold (dict_get d "gameName"). fold (dict_get d "tagLine").
  cbn [fst snd glob nreq nstart log summoner_name summoner_tag set_summoner_name
         set_summoner_tag].
  fold (is_partial (dict_get d "gameName") (dict_get d "tagLine")).
  unfold identity_line, after_region, after_refetch, with_event, set_identity.
  destruct (is_partial (dict_get d "gameName") (dict_get d "tagLine")).
  - rewrite Hid'. unfold with_glob, requested, set_identity. cbn [glob nreq nstart log].
    destruct (identity_outcome w (nreq s)) as [[[n t]|]|e];
      cbn [fst snd glob nreq nstart log]; rewrite Hreg';
      unfold with_glob, requested; cbn [glob nreq nstart log];
      destruct (region_outcome upper w (S (nreq s))) as [[u|]|e']; reflexivity.
  - cbn [fst snd glob nreq nstart log]. rewrite Hreg'.
    unfold with_glob, requested. cbn [glob nreq nstart log].
    destruct (region_outcome upper w (nreq s)) as [[u|]|e']; reflexivity.
Qed.

Lemma added_suffix (s s' : state) (new : list (session * event)) :
  log s' = (log s ++ new)%list -> added s s' = map snd new.
Proof.
  intros H. unfold added, events.
  now rewrite H, map_app, skipn_app, length_map, Nat.sub_diag, skipn_all2
    by (rewrite length_map; lia).
Qed.

Ltac log_suffix :=
  unfold identity_line, requested, with_glob, with_event;
  cbn [log glob nreq nstart]; rewrite <- ?app_assoc; reflexivity.

Lemma region_outcome_rule (upper : string -> string) (w : world) (k : nat) :
  (forall resp rd r,
      lcu w k "GET" region_path None = Ok resp -> status resp = 200 ->
      json resp = Ok (VDict rd) -> Py.lookup rd "region" = Some (VStr r) ->
      region_outcome upper w k = Ok (Some (upper r)))
  /\ (forall resp rd,
         lcu w k "GET" region_path None = Ok resp -> status resp = 200 ->
         json resp = Ok (VDict rd) -> Py.lookup rd "region" = None ->
         region_outcome upper w k = Ok (Some (upper "")))
  /\ (forall resp,
         lcu w k "GET" region_path None = Ok resp -> status resp <> 200 ->
         region_outcome upper w k = Ok None)
  /\ (forall e,
         lcu w k "GET" region_path None = Raise e ->
         region_outcome upper w k = Raise e).
Proof.
  unfold region_outcome. repeat split.
  - intros resp rd r -> -> -> H. cbn. now rewrite H.
  - intros resp rd -> -> -> H. cbn. now rewrite H.
  - intros resp -> H. apply Z.eqb_neq in H. now rewrite H.
  - intros e ->. reflexivity.
Qed.

(** ** The order of the writes of [on_summoner_update] *)

(** The requests of one invocation on a non-empty dictionary: name and
    tag are written before the first of them, the last of them is the
    region request, and only its answer is written to the region. *)
Lemma on_summoner_update_dict_requests (upper : string -> string) (w : world)
  (d : list (string * value)) (s : state) :
  d <> [] ->
  let run := on_summoner_update upper w (VDict d) s in
  exists new,
    log (snd run) = (log s ++ new)%list
    /\ (exists later,
           at_requests new =
           set_identity (dict_get d "gameName") (dict_get d "tagLine") (glob s) :: later)
    /\ (exists earlier g,
           filter (fun x => is_request (snd x)) new
           = (earlier ++ [(g, Request "GET" region_path None)])%list
           /\ summoner_name g = summoner_name (glob (snd run))
           /\ summoner_tag g = summoner_tag (glob (snd run))
           /\ region g = region (glob s))
    /\ (forall resp rd r,
           lcu w (pred (nreq (snd run))) "GET" region_path None = Ok resp ->
           status resp = 200 -> json resp = Ok (VDict rd) ->
           Py.lookup rd "region" = Some (VStr r) ->
           region (glob (snd run)) = VStr (upper r)).
Proof.
  intros Hd. cbv zeta. rewrite (on_summoner_update_dict upper w d s Hd). cbv zeta.
  generalize (dict_get d "gameName") (dict_get d "tagLine"). intros n t.
  unfold identity_line, after_region, after_refetch, with_event, requested, with_glob.
  cbv zeta. cbn [fst snd glob nreq nstart log].
  destruct (is_partial n t).
  - destruct (identity_outcome w (nreq s)) as [[[n' t']|]|e];
      cbn [fst snd glob nreq nstart log];
      pose proof (region_outcome_rule upper w (S (nreq s))) as [G _];
      destruct (region_outcome upper w (S (nreq s))) as [[u|]|e'];
      cbn [fst snd glob nreq nstart log pred];
      (eexists; split; [rewrite <- ?app_assoc; reflexivity|]);
      (split; [cbn; eexists; reflexivity|]);
      (split;
       [ cbn; eexists [_], _; split; [reflexivity|]; repeat split; reflexivity
       | intros resp rd r H1 H2 H3 H4;
         specialize (G resp rd r H1 H2 H3 H4); inversion G; try reflexivity ]).
  - cbn [fst snd glob nreq nstart log];
      pose proof (region_outcome_rule upper w (nreq s)) as [G _];
      destruct (region_outcome upper w (nreq s)) as [[u|]|e'];
      cbn [fst snd glob nreq nstart log pred];
      (eexists; split; [rewrite <- ?app_assoc; reflexivity|]);
      (split; [cbn; eexists; reflexivity|]);
      (split;
       [ cbn; eexists [], _; split; [reflexivity|]; repeat split; reflexivity
       | intros resp rd r H1 H2 H3 H4;
         specialize (G resp rd r H1 H2 H3 H4); inversion G; try reflexivity ]).
Qed.

(** C9, amended: a read of the session is a read of the module
    globals as they stand.  [on_summoner_update] never raises and
    never writes the ready flag or the phase.  On an event with data it
    writes name and tag first: at its first request they are already
    those of the event, with the region, the ready flag and the phase
    still those from before the invocation.  It writes the region only
    after its last request, which is the one for the region: at every
    request of the invocation the region is still the old one, at the
    region request name and tag are already final, and a 200 answer to
    it with a region is what the region then becomes, upper-cased. *)
Theorem on_summoner_update_region_last (upper : string -> string) (w : world)
  (data : value) (s : state) :
  let run := on_summoner_update upper w data s in
  fst run = Ok tt
  /\ is_ready (glob (snd run)) = is_ready (glob s)
  /\ current_phase (glob (snd run)) = current_phase (glob s)
  /\ exists new,
      log (snd run) = (log s ++ new)%list
      /\ Forall (fun g => region g = region (glob s)
                          /\ is_ready g = is_ready (glob s)
                          /\ current_phase g = current_phase (glob s))
           (at_requests new)
      /\ (forall d, data = VDict d -> d <> [] ->
          (exists later,
              at_requests new =
              set_identity (dict_get d "gameName") (dict_get d "tagLine") (glob s) :: later)
          /\ (exists earlier g,
                 filter (fun x => is_request (snd x)) new
                 = (earlier ++ [(g, Request "GET" region_path None)])%list
                 /\ summoner_name g = summoner_name (glob (snd run))
                 /\ summoner_tag g = summoner_tag (glob (snd run))
                 /\ region g = region (glob s))
          /\ (forall resp rd r,
                 lcu w (pred (nreq (snd run))) "GET" region_path None = Ok resp ->
                 status resp = 200 -> json resp = Ok (VDict rd) ->
                 Py.lookup rd "region" = Some (VStr r) ->
                 region (glob (snd run)) = VStr (upper r))).
Proof.
  cbv zeta.
  destruct (on_summoner_update_run upper w data s) as [g' [k [new [E [R [P F]]]]]].
  split; [now rewrite E|]. split; [now rewrite E|]. split; [now rewrite E|].
  exists new. split; [now rewrite E|]. split; [exact F|].
  intros d -> Hd.
  pose proof (on_summoner_update_dict_requests upper w d s Hd) as D. cbv zeta in D.
  destruct D as [new' [L [A [B C]]]].
  assert (new' = new) as ->.
  { rewrite E in L. cbn [snd log] in L. now apply app_inv_head in L. }
  split; [exact A|]. split; [exact B | exact C].
Qed.

Lemma on_summoner_update_region_last_witness :
  let run := on_summoner_update SessionExamples.upper SessionExamples.w_ana
               SessionExamples.ana (initial_state SessionExamples.bea) in
  fst run = Ok tt
  /\ is_ready (glob (snd run)) = true
  /\ current_phase (glob (snd run)) = VStr "Lobby"
  /\ region (glob (snd run)) = VStr "NA".
Proof.
  cbv zeta.
  assert (Hd : [("gameName", VStr "Ana"); ("tagLine", VStr "NA1")]
               <> @nil (string * value)) by discriminate.
  pose proof (on_summoner_update_region_last SessionExamples.upper SessionExamples.w_ana
                SessionExamples.ana (initial_state SessionExamples.bea))
    as [T [R [P [new [_ [_ D]]]]]].
  destruct (D _ eq_refl Hd) as [_ [_ G]].
  split; [exact T | split; [exact R | split; [exact P|]]].
  exact (G {| status := 200; json := Ok (VDict [("region", VStr "na")]) |}
           [("region", VStr "na")] "na" eq_refl eq_refl eq_refl eq_refl).
Defined.

(** X14: An event that carries both a name and a tag is taken as it is:
    the handler returns normally, makes one request only, for the
    region, and leaves the session with the identity of the event, the
    ready flag and the phase untouched. *)
Theorem on_summoner_update_complete_event (upper : string -> string) (w : world)
  (d : list (string * value)) (s : state) :
  Py.truthy (dict_get d "gameName") = true ->
  Py.truthy (dict_get d "tagLine") = true ->
  let run := on_summoner_update upper w (VDict d) s in
  fst run = Ok tt
  /\ nreq (snd run) = S (nreq s)
  /\ (exists rest, added s (snd run) = Request "GET" region_path None :: rest)
  /\ summoner_name (glob (snd run)) = dict_get d "gameName"
  /\ summoner_tag (glob (snd run)) = dict_get d "tagLine".
Proof.
  intros Hn Ht. cbv zeta.
  assert (Hd : d <> []) by (intros ->; discriminate).
  rewrite (on_summoner_update_dict upper w d s Hd). cbv zeta.
  unfold is_partial. rewrite Hn, Ht. cbn [negb orb fst snd].
  unfold identity_line, after_region, with_event.
  cbv zeta. cbn [glob nreq nstart log with_glob requested].
  destruct (region_outcome upper w (nreq s)) as [[u|]|e];
    cbn [fst snd glob nreq nstart log summoner_name summoner_tag region is_ready
           current_phase set_region set_identity set_summoner_name set_summoner_tag
           with_glob with_event];
    (split; [reflexivity|]); (split; [reflexivity|]);
    (split; [|split; reflexivity]);
    (erewrite added_suffix by log_suffix);
    cbn; eexists; reflexivity.
Qed.

Lemma on_summoner_update_complete_event_witness :
  let run := on_summoner_update SessionExamples.upper SessionExamples.w_ana
               SessionExamples.ana (initial_state SessionExamples.bea) in
  fst run = Ok tt
  /\ nreq (snd run) = 1%nat
  /\ summoner_name (glob (snd run)) = VStr "Ana"
  /\ summoner_tag (glob (snd run)) = VStr "NA1".
Proof.
  cbv zeta.
  pose proof (on_summoner_update_complete_event SessionExamples.upper SessionExamples.w_ana
                [("gameName", VStr "Ana"); ("tagLine", VStr "NA1")]
                (initial_state SessionExamples.bea) eq_refl eq_refl) as [T [N [_ [A B]]]].
  split; [exact T | split; [exact N | split; [exact A | exact B]]].
Defined.

(** X15: The region after an event with a full identity: a 200 answer
    with a string region gives that region upper-cased, a 200 answer
    without a region key gives the upper-cased empty string, and an
    answer with another status or a failed request leaves the region
    as it was. *)
Theorem on_summoner_update_region_rule (upper : string -> string) (w : world)
  (d : list (string * value)) (s : state) :
  Py.truthy (dict_get d "gameName") = true ->
  Py.truthy (dict_get d "tagLine") = true ->
  let after := region (glob (snd (on_summoner_update upper w (VDict d) s))) in
  (forall resp rd r,
      lcu w (nreq s) "GET" region_path None = Ok resp -> status resp = 200 ->
      json resp = Ok (VDict rd) -> Py.lookup rd "region" = Some (VStr r) ->
      after = VStr (upper r))
  /\ (forall resp rd,
         lcu w (nreq s) "GET" region_path None = Ok resp -> status resp = 200 ->
         json resp = Ok (VDict rd) -> Py.lookup rd "region" = None ->
         after = VStr (upper ""))
  /\ (forall resp,
         lcu w (nreq s) "GET" region_path None = Ok resp -> status resp <> 200 ->
         after = region (glob s))
  /\ (forall e,
         lcu w (nreq s) "GET" region_path None = Raise e ->
         after = region (glob s)).
Proof.
  intros Hn Ht. cbv zeta.
  assert (Hd : d <> []) by (intros ->; discriminate).
  rewrite (on_summoner_update_dict upper w d s Hd). cbv zeta.
  unfold is_partial. rewrite Hn, Ht. cbn [negb orb fst snd].
  unfold identity_line, after_region, with_event.
  cbv zeta. cbn [glob nreq nstart log with_glob requested].
  destruct (region_outcome_rule upper w (nreq s)) as [R1 [R2 [R3 R4]]].
  repeat split.
  - intros resp rd r H1 H2 H3 H4. now rewrite (R1 resp rd r H1 H2 H3 H4).
  - intros resp rd H1 H2 H3 H4. now rewrite (R2 resp rd H1 H2 H3 H4).
  - intros resp H1 H2. now rewrite (R3 resp H1 H2).
  - intros e H1. now rewrite (R4 e H1).
Qed.

Lemma on_summoner_update_region_rule_witness :
  region (glob (snd (on_summoner_update SessionExamples.upper SessionExamples.w_ana
                       SessionExamples.ana (initial_state SessionExamples.bea))))
  = VStr "NA".
Proof.
  pose proof (on_summoner_update_region_rule SessionExamples.upper SessionExamples.w_ana
                [("gameName", VStr "Ana"); ("tagLine", VStr "NA1")]
                (initial_state SessionExamples.bea) eq_refl eq_refl) as [R _].
  exact (R {| status := 200; json := Ok (VDict [("region", VStr "na")]) |}
           [("region", VStr "na")] "na" eq_refl eq_refl eq_refl eq_refl).
Defined.

(** X16: When the re-fetch after a partial event brings nothing (the
    request raises, is answered with another status than 200, or its
    body does not decode to a dictionary), the identity is left as the
    event gave it: a missing name or tag is now [None], whatever was
    known before.  The region is still asked for. *)
Theorem on_summoner_update_refetch_fails (upper : string -> string) (w : world)
  (d : list (string * value)) (s : state) :
  d <> [] ->
  Py.truthy (dict_get d "gameName") = false \/ Py.truthy (dict_get d "tagLine") = false ->
  (exists e, lcu w (nreq s) "GET" summoner_path None = Raise e)
  \/ (exists resp, lcu w (nreq s) "GET" summoner_path None = Ok resp
                   /\ (status resp <> 200
                       \/ (exists e, json resp = Raise e)
                       \/ (exists body, json resp = Ok body /\ forall sd, body <> VDict sd))) ->
  let run := on_summoner_update upper w (VDict d) s in
  fst run = Ok tt
  /\ summoner_name (glob (snd run)) = dict_get d "gameName"
  /\ summoner_tag (glob (snd run)) = dict_get d "tagLine"
  /\ nreq (snd run) = S (S (nreq s)).
Proof.
  intros Hd Hpartial Hfail. cbv zeta.
  rewrite (on_summoner_update_dict upper w d s Hd). cbv zeta.
  assert (P : is_partial (dict_get d "gameName") (dict_get d "tagLine") = true).
  { unfold is_partial. destruct Hpartial as [H|H]; rewrite H; [reflexivity|apply orb_true_r]. }
  rewrite P. cbn [fst snd].
  assert (O : identity_outcome w (nreq s) = Ok None
              \/ exists e, identity_outcome w (nreq s) = Raise e).
  { unfold identity_outcome.
    destruct Hfail as [[e H] | [resp [H [Hs | [[e J] | [body [J Hb]]]]]]]; rewrite H.
    - right. now exists e.
    - left. apply Z.eqb_neq in Hs. now rewrite Hs.
    - destruct (status resp =? 200); [|now left]. right. rewrite J. now exists e.
    - destruct (status resp =? 200); [|now left]. right. rewrite J.
      destruct body; try (eexists; reflexivity). exfalso. eapply Hb. reflexivity. }
  unfold identity_line, after_region, after_refetch, with_event.
  cbv zeta. cbn [glob nreq nstart log with_glob requested].
  destruct O as [O | [e O]]; rewrite O;
    cbn [glob nreq nstart log with_glob requested with_event];
    destruct (region_outcome upper w (S (nreq s))) as [[u|]|e'];
    repeat split.
Qed.

Lemma on_summoner_update_refetch_fails_witness :
  let w := SessionExamples.w_client (SessionExamples.ok (VStr "Lobby"))
             (Raise (External "timeout")) (Raise (External "timeout")) in
  let run := on_summoner_update SessionExamples.upper w
               (VDict [("tagLine", VStr "NA1")]) (initial_state SessionExamples.bea) in
  fst run = Ok tt
  /\ summoner_name (glob (snd run)) = VNone
  /\ summoner_tag (glob (snd run)) = VStr "NA1"
  /\ nreq (snd run) = 2%nat.
Proof.
  cbv zeta.
  assert (Hd : [("tagLine", VStr "NA1")] <> @nil (string * value)) by discriminate.
  exact (on_summoner_update_refetch_fails SessionExamples.upper
           (SessionExamples.w_client (SessionExamples.ok (VStr "Lobby"))
              (Raise (External "timeout")) (Raise (External "timeout")))
           [("tagLine", VStr "NA1")] (initial_state SessionExamples.bea)
           Hd (or_introl eq_refl)
           (or_introl (ex_intro _ (External "timeout") eq_refl))).
Defined.

(** X17: An event whose data is something other than a dictionary (and
    not empty) is logged as an error and changes nothing: no request,
    no write to the session. *)
Theorem on_summoner_update_bad_payload (upper : string -> string) (w : world)
  (data : value) (s : state) :
  Py.truthy data = true ->
  (forall d, data <> VDict d) ->
  on_summoner_update upper w data s =
  (Ok tt, with_event s (Print [Lit "Error in summoner update handler: ";
                                FmtExn (AttributeError data "get")])).
Proof.
  intros Ht Hd. unfold on_summoner_update. rewrite Ht.
  unfold try_except, bind at 1, lift.
  destruct data; try reflexivity. exfalso. eapply Hd. reflexivity.
Qed.

Lemma on_summoner_update_bad_payload_witness :
  on_summoner_update SessionExamples.upper SessionExamples.w_ana (VStr "Ana#NA1")
    (initial_state SessionExamples.bea) =
  (Ok tt, with_event (initial_state SessionExamples.bea)
            (Print [Lit "Error in summoner update handler: ";
                    FmtExn (AttributeError (VStr "Ana#NA1") "get")])).
Proof.
  apply on_summoner_update_bad_payload; [reflexivity | intros d; discriminate].
Defined.

(** ** The identity fetch of the handshake, in every world *)

(** The state after the region step of [fetch_summoner_info], which
    passes over an exception without a word. *)
Definition after_region_quiet (upper : string -> string) (w : world) (s : state) : state :=
  let s1 := requested s "GET" region_path in
  match region_outcome upper w (nreq s) with
  | Ok (Some u) => with_glob s1 (set_region (VStr u) (glob s))
  | _ => s1
  end.

Lemma fetch_summoner_info_run (upper : string -> string) (w : world) (s : state) :
  fetch_summoner_info upper w s =
  let s1 := requested s "GET" summoner_path in
  match identity_outcome w (nreq s) with
  | Ok (Some (n, t)) =>
      (Ok true,
       identity_line "Fetched summoner info: "
         (after_region_quiet upper w (with_glob s1 (set_identity n t (glob s)))))
  | Ok None => (Ok false, s1)
  | Raise e => (Ok false, with_event s1 (Print [Lit "Error fetching summoner info: "; FmtExn e]))
  end.
Proof.
  cbv zeta. unfold fetch_summoner_info.
  remember (fetch_region upper w) as regstep eqn:Hreg.
  assert (Hreg' : forall s0, regstep s0 = _)
    by (intros s0; subst regstep; apply fetch_region_run).
  clear Hreg. cbv zeta in Hreg'.
  unfold identity_outcome, print_identity, store_identity, try_except, bind, ret, lift,
    print, emit, get_glob, set_glob, request.
  change [Lit "/lol-summoner/v1/current-summoner"] with summoner_path.
  unfold identity_line, after_region_quiet, with_event, requested, with_glob, set_identity.
  destruct (lcu w (nreq s) "GET" summoner_path None) as [resp|e];
    cbn [fst snd glob nreq nstart log]; [|reflexivity].
  destruct (status resp =? 200); cbn [fst snd glob nreq nstart log]; [|reflexivity].
  destruct (json resp) as [data|e]; cbn [fst snd glob nreq nstart log]; [|reflexivity].
  destruct data; try reflexivity.
  cbn [Py.get fst snd glob nreq nstart log]. fold (dict_get d "gameName").
  fold (dict_get d "tagLine"). rewrite Hreg'. unfold requested, with_glob.
  cbn [fst snd glob nreq nstart log].
  destruct (region_outcome upper w (S (nreq s))) as [[u|]|e']; reflexivity.
Qed.

(** X18: [fetch_summoner_info] never raises.  It returns [True] exactly
    when the identity request was answered 200 with a dictionary, and
    then holds that dictionary's name and tag ([None] for a missing
    one), whatever the region step does.  When it returns [False] it
    has made that one request and has written nothing. *)
Theorem fetch_summoner_info_result (upper : string -> string) (w : world) (s : state) :
  let run := fetch_summoner_info upper w s in
  exists b,
    fst run = Ok b
    /\ (b = true <->
        exists resp d, lcu w (nreq s) "GET" summoner_path None = Ok resp
                       /\ status resp = 200 /\ json resp = Ok (VDict d))
    /\ (forall resp d,
           lcu w (nreq s) "GET" summoner_path None = Ok resp ->
           status resp = 200 -> json resp = Ok (VDict d) ->
           summoner_name (glob (snd run)) = dict_get d "gameName"
           /\ summoner_tag (glob (snd run)) = dict_get d "tagLine"
           /\ nreq (snd run) = S (S (nreq s)))
    /\ (b = false -> glob (snd run) = glob s /\ nreq (snd run) = S (nreq s)).
Proof.
  cbv zeta. rewrite fetch_summoner_info_run. cbv zeta. unfold identity_outcome.
  destruct (lcu w (nreq s) "GET" summoner_path None) as [resp|e] eqn:L.
  2:{ exists false. split; [reflexivity|]. split; [|split].
      - split; [discriminate|]. intros [r [d [H _]]]. discriminate.
      - intros r d H. discriminate.
      - intros _. split; reflexivity. }
  destruct (status resp =? 200) eqn:S200.
  2:{ apply Z.eqb_neq in S200. exists false. split; [reflexivity|]. split; [|split].
      - split; [discriminate|]. intros [r [d [H [H2 _]]]]. inversion H; subst. contradiction.
      - intros r d H H2. inversion H; subst. contradiction.
      - intros _. split; reflexivity. }
  apply Z.eqb_eq in S200.
  destruct (json resp) as [data|e] eqn:J.
  2:{ exists false. split; [reflexivity|]. split; [|split].
      - split; [discriminate|]. intros [r [d [H [_ H3]]]]. inversion H; subst. congruence.
      - intros r d H _ H3. inversion H; subst. congruence.
      - intros _. split; reflexivity. }
  destruct data as [| | | | |d];
    try (exists false; split; [reflexivity|]; split; [|split];
         [ split; [discriminate|]; intros [r [d' [H [_ H3]]]]; inversion H; subst; congruence
         | intros r d' H _ H3; inversion H; subst; congruence
         | intros _; split; reflexivity ]).
  exists true. split; [reflexivity|]. split; [|split].
  - split; [|reflexivity]. intros _. exists resp, d. repeat split; assumption.
  - intros r d' H _ H3. inversion H; subst r. rewrite J in H3. inversion H3; subst d'.
    unfold identity_line, after_region_quiet, with_event. cbv zeta.
    cbn [glob nreq nstart log with_glob requested].
    destruct (region_outcome upper w (S (nreq s))) as [[u|]|e']; repeat split.
  - discriminate.
Qed.

Lemma fetch_summoner_info_result_witness :
  let run := fetch_summoner_info SessionExamples.upper SessionExamples.w_ana
               (initial_state initial_session) in
  summoner_name (glob (snd run)) = VStr "Ana"
  /\ summoner_tag (glob (snd run)) = VStr "NA1"
  /\ nreq (snd run) = 2%nat.
Proof.
  cbv zeta.
  destruct (fetch_summoner_info_result SessionExamples.upper SessionExamples.w_ana
              (initial_state initial_session)) as [b [_ [_ [R _]]]].
  exact (R {| status := 200; json := Ok SessionExamples.ana |}
           [("gameName", VStr "Ana"); ("tagLine", VStr "NA1")] eq_refl eq_refl eq_refl).
Defined.

(** ** The handshake as a whole *)

Definition phase_outcome (w : world) (k : nat) : result value :=
  match lcu w k "GET" phase_path None with
  | Raise e => Raise e
  | Ok resp => json resp
  end.

(** The state after the phase read of [connect]. *)
Definition after_phase (w : world) (s : state) : state :=
  let s1 := requested s "GET" phase_path in
  match phase_outcome w (nreq s) with
  | Ok v =>
      with_event (with_glob s1 (set_current_phase v (glob s)))
        (Print [Lit "[INITIAL PHASE] "; Fmt v])
  | Raise e =>
      let s2 := with_event s1 (Print [Lit "Failed to get initial phase: "; FmtExn e]) in
      with_glob s2 (set_current_phase VNone (glob s))
  end.

Lemma connect_steps (upper : string -> string) (w : world) (s : state) :
  connect upper w s =
  (Ok tt,
   snd (fetch_summoner_info upper w
          (after_phase w
             (with_glob
                (with_event s (Print [Lit "[DEBUG] Connector ready handler invoked"]))
                (set_is_ready true (glob s)))))).
Proof.
  unfold connect.
  remember (fetch_summoner_info upper w) as fetch eqn:Hf.
  assert (Hf' : forall s0, exists b, fst (fetch s0) = Ok b).
  { intros s0. subst fetch. rewrite fetch_summoner_info_run. cbv zeta.
    destruct (identity_outcome w (nreq s0)) as [[[n t]|]|e]; eexists; reflexivity. }
  clear Hf.
  unfold after_phase, phase_outcome, try_except, bind, ret, lift, print, emit, set_glob,
    request, with_event, with_glob, requested.
  change [Lit "/lol-gameflow/v1/gameflow-phase"] with phase_path.
  cbn [fst snd glob nreq nstart log].
  destruct (lcu w (nreq s) "GET" phase_path None) as [resp|e];
    cbn [fst snd glob nreq nstart log].
  - destruct (json resp) as [v|e]; cbn [fst snd glob nreq nstart log];
      match goal with
      | |- context [fetch ?s0] =>
          destruct (Hf' s0) as [b Hb]; destruct (fetch s0) as [r s2];
          cbn [fst snd] in *; subst r; reflexivity
      end.
  - match goal with
    | |- context [fetch ?s0] =>
        destruct (Hf' s0) as [b Hb]; destruct (fetch s0) as [r s2];
        cbn [fst snd] in *; subst r; reflexivity
    end.
Qed.

Ltac log_suffix2 :=
  unfold identity_line, after_region_quiet, after_phase, requested, with_glob, with_event;
  cbn [log glob nreq nstart]; rewrite <- ?app_assoc; reflexivity.

Lemma fetch_summoner_info_log (upper : string -> string) (w : world) (s : state) :
  exists rest,
    log (snd (fetch_summoner_info upper w s)) =
    (log s ++ (glob s, Request "GET" summoner_path None) :: rest)%list.
Proof.
  rewrite fetch_summoner_info_run. cbv zeta.
  destruct (identity_outcome w (nreq s)) as [[[n t]|]|e]; cbn [snd].
  - unfold after_region_quiet. cbv zeta.
    destruct (region_outcome upper w
                (nreq (with_glob (requested s "GET" summoner_path)
                         (set_identity n t (glob s))))) as [[u|]|e'];
      eexists; log_suffix2.
  - exists []. reflexivity.
  - eexists. log_suffix2.
Qed.

(** X19: The handshake always goes on to the identity: after the ready
    line and the phase request comes one line about the phase (read or
    failed) and then the identity request, whatever the phase read
    gave. *)
Theorem connect_fetches_identity_anyway (upper : string -> string) (w : world) (s : state) :
  exists phase_line rest,
    added s (snd (connect upper w s)) =
    Print [Lit "[DEBUG] Connector ready handler invoked"]
    :: Request "GET" phase_path None
    :: Print phase_line
    :: Request "GET" summoner_path None
    :: rest.
Proof.
  rewrite connect_steps. cbn [snd].
  set (s0 := with_glob (with_event s (Print [Lit "[DEBUG] Connector ready handler invoked"]))
               (set_is_ready true (glob s))).
  assert (P : exists line,
             log (after_phase w s0) =
             (log s ++ [(glob s, Print [Lit "[DEBUG] Connector ready handler invoked"]);
                        (glob s0, Request "GET" phase_path None);
                        line])%list
             /\ exists msg, snd line = Print msg).
  { unfold after_phase. cbv zeta.
    destruct (phase_outcome w (nreq s0)) as [v|e]; eexists;
      (split; [unfold s0; log_suffix2 | eexists; reflexivity]). }
  destruct P as [line [P [msg Hmsg]]].
  destruct (fetch_summoner_info_log upper w (after_phase w s0)) as [rest F].
  exists msg, (map snd rest).
  rewrite P, <- app_assoc in F. rewrite (added_suffix s _ _ F).
  cbn [map snd app]. now rewrite Hmsg.
Qed.

(** X20: A handshake in which every request is answered as the client
    documents it fills the whole session: ready, the phase read, the
    identity of the answer and its region upper-cased, with three
    requests made. *)
Theorem connect_populates_session (upper : string -> string) (w : world) (s : state)
  (phase_resp id_resp region_resp : response) (v : value)
  (d rd : list (string * value)) (r : string) :
  lcu w (nreq s) "GET" phase_path None = Ok phase_resp ->
  json phase_resp = Ok v ->
  lcu w (S (nreq s)) "GET" summoner_path None = Ok id_resp ->
  status id_resp = 200 -> json id_resp = Ok (VDict d) ->
  lcu w (S (S (nreq s))) "GET" region_path None = Ok region_resp ->
  status region_resp = 200 -> json region_resp = Ok (VDict rd) ->
  Py.lookup rd "region" = Some (VStr r) ->
  let run := connect upper w s in
  fst run = Ok tt
  /\ glob (snd run) =
     {| summoner_name := dict_get d "gameName"; summoner_tag := dict_get d "tagLine";
        region := VStr (upper r); is_ready := true; current_phase := v |}
  /\ nreq (snd run) = S (S (S (nreq s))).
Proof.
  intros P1 P2 I1 I2 I3 R1 R2 R3 R4. cbv zeta.
  rewrite connect_steps. cbn [fst snd]. split; [reflexivity|].
  rewrite fetch_summoner_info_run. cbv zeta.
  unfold after_phase, phase_outcome. cbv zeta.
  cbn [nreq requested with_glob with_event glob]. rewrite P1, P2.
  cbn [nreq requested with_glob with_event glob].
  unfold identity_outcome. rewrite I1, I2, I3. cbn [Z.eqb Pos.eqb snd].
  unfold identity_line, after_region_quiet. cbv zeta.
  cbn [nreq requested with_glob with_event glob].
  destruct (region_outcome_rule upper w (S (S (nreq s)))) as [Rr _].
  rewrite (Rr region_resp rd r R1 R2 R3 R4).
  cbn [nreq requested with_glob with_event glob]. split; reflexivity.
Qed.

Lemma connect_populates_session_witness :
  let run := connect SessionExamples.upper SessionExamples.w_ana
               (initial_state initial_session) in
  fst run = Ok tt
  /\ glob (snd run) =
     {| summoner_name := VStr "Ana"; summoner_tag := VStr "NA1"; region := VStr "NA";
        is_ready := true; current_phase := VStr "Lobby" |}
  /\ nreq (snd run) = 3%nat.
Proof.
  exact (connect_populates_session SessionExamples.upper SessionExamples.w_ana
           (initial_state initial_session)
           {| status := 200; json := Ok (VStr "Lobby") |}
           {| status := 200; json := Ok SessionExamples.ana |}
           {| status := 200; json := Ok (VDict [("region", VStr "na")]) |}
           (VStr "Lobby") [("gameName", VStr "Ana"); ("tagLine", VStr "NA1")]
           [("region", VStr "na")] "na"
           eq_refl eq_refl eq_refl eq_refl eq_refl eq_refl eq_refl eq_refl eq_refl).
Defined.

(** X21: When the identity endpoint is not answered with 200 during the
    handshake, the session keeps the identity and region it had and the
    region is not asked for: two requests in all. *)
Theorem connect_without_identity (upper : string -> string) (w : world) (s : state)
  (id_resp : response) :
  lcu w (S (nreq s)) "GET" summoner_path None = Ok id_resp ->
  status id_resp <> 200 ->
  let run := connect upper w s in
  summoner_name (glob (snd run)) = summoner_name (glob s)
  /\ summoner_tag (glob (snd run)) = summoner_tag (glob s)
  /\ region (glob (snd run)) = region (glob s)
  /\ is_ready (glob (snd run)) = true
  /\ nreq (snd run) = S (S (nreq s)).
Proof.
  intros I1 I2. cbv zeta. rewrite connect_steps. cbn [snd].
  rewrite fetch_summoner_info_run. cbv zeta.
  unfold after_phase. cbv zeta. cbn [nreq requested with_glob with_event glob].
  destruct (phase_outcome w (nreq s)) as [v|e];
    cbn [nreq requested with_glob with_event glob];
    unfold identity_outcome; rewrite I1; apply Z.eqb_neq in I2; rewrite I2;
    cbn [snd nreq requested with_glob with_event glob]; repeat split.
Qed.

Lemma connect_without_identity_witness :
  let w := SessionExamples.w_client (SessionExamples.ok (VStr "None"))
             (Ok {| status := 404; json := Ok VNone |}) (Raise (External "unused")) in
  let run := connect SessionExamples.upper w (initial_state SessionExamples.bea) in
  summoner_name (glob (snd run)) = VStr "Bea"
  /\ summoner_tag (glob (snd run)) = VStr "EUW"
  /\ region (glob (snd run)) = VStr "EUW"
  /\ is_ready (glob (snd run)) = true
  /\ nreq (snd run) = 2%nat.
Proof.
  cbv zeta.
  assert (N : status {| status := 404; json := Ok VNone |} <> 200) by (simpl; lia).
  exact (connect_without_identity SessionExamples.upper
           (SessionExamples.w_client (SessionExamples.ok (VStr "None"))
              (Ok {| status := 404; json := Ok VNone |}) (Raise (External "unused")))
           (initial_state SessionExamples.bea) {| status := 404; json := Ok VNone |}
           eq_refl N).
Defined.

(** ** Phase events leave the rest of the session alone *)

(** [on_gameflow_phase] writes the phase only: name, tag, region and
    ready flag are those from before, and at most one request is made. *)
Theorem on_gameflow_phase_frame (w : world) (data : value) (s : state) :
  let s' := snd (on_gameflow_phase w data s) in
  summoner_name (glob s') = summoner_name (glob s)
  /\ summoner_tag (glob s') = summoner_tag (glob s)
  /\ region (glob s') = region (glob s)
  /\ is_ready (glob s') = is_ready (glob s)
  /\ (nreq s' <= S (nreq s))%nat
  /\ (Py.is_str data = true -> nreq s' = nreq s).
Proof.
  cbv zeta. unfold on_gameflow_phase. unfold_m.
  destruct (Py.is_str data); cbn [fst snd glob nreq nstart log].
  - repeat split. lia.
  - destruct (lcu w (nreq s) "GET" [Lit "/lol-gameflow/v1/gameflow-phase"] None)
      as [resp|e]; cbn [fst snd glob nreq nstart log];
      [destruct (json resp); cbn [fst snd glob nreq nstart log]|];
      repeat split; try lia; discriminate.
Qed.

Lemma on_gameflow_phase_frame_witness :
  let s' := snd (on_gameflow_phase SessionExamples.w_ana (VStr "InProgress")
                   (initial_state SessionExamples.bea)) in
  summoner_name (glob s') = VStr "Bea" /\ nreq s' = 0%nat.
Proof.
  cbv zeta.
  pose proof (on_gameflow_phase_frame SessionExamples.w_ana (VStr "InProgress")
                (initial_state SessionExamples.bea)) as [N [_ [_ [_ [_ R]]]]].
  split; [exact N | exact (R eq_refl)].
Defined.

(** ** Start-up authentication *)

(** X22: At start-up the stored configuration is deleted exactly when
    there is a non-empty stored id and the backend did not answer its
    check with status 200, be it a refusal, a server error or a failed
    request; and start-up authentication never raises. *)
Theorem startup_auth_deletes_iff (w : world) (raw_id : option string) (s : state) :
  fst (startup_auth w raw_id s) = Ok tt
  /\ (In DeleteConfig (added s (snd (startup_auth w raw_id s))) <->
      exists id, raw_id = Some id /\ Str.is_empty id = false
                 /\ ~ (exists r, http_get w AUTH_URL [("discord_id", id)] = Ok r
                                 /\ status_code r = 200)).
Proof.
  destruct raw_id as [id|]; cbn [startup_auth].
  2:{ split; [reflexivity|]. unfold ret. cbn [snd]. unfold added, events.
      rewrite <- length_map with (f := snd), skipn_all. split; [intros []|].
      intros [id [H _]]. discriminate. }
  destruct (Str.is_empty id) eqn:He.
  { split; [reflexivity|]. unfold ret. cbn [snd]. unfold added, events.
    rewrite <- length_map with (f := snd), skipn_all. split; [intros []|].
    intros [id' [H [He' _]]]. inversion H; subst. congruence. }
  unfold authenticate. unfold_m. unfold_m. cbn [fst snd glob nreq nstart log].
  destruct (http_get w AUTH_URL [("discord_id", id)]) as [r|e] eqn:Hg;
    cbn [fst snd glob nreq nstart log].
  - destruct ((status_code r =? 404) && Str.contains (text r) "User not found") eqn:Hm;
      cbn [fst snd glob nreq nstart log].
    + split; [reflexivity|].
      erewrite added_suffix by (cbn [log]; rewrite <- ?app_assoc; reflexivity).
      cbn [map snd app]. split.
      * intros _. exists id. repeat split; [assumption|].
        intros [r' [Hr' H200]]. rewrite Hg in Hr'. inversion Hr'; subst r'.
        apply andb_true_iff in Hm as [Hm _]. apply Z.eqb_eq in Hm. lia.
      * intros _. simpl. tauto.
    + destruct (status_code r =? 200) eqn:H200; cbn [fst snd glob nreq nstart log].
      * split; [reflexivity|].
        erewrite added_suffix by (cbn [log]; rewrite <- ?app_assoc; reflexivity).
        cbn [map snd app]. split.
        -- simpl. intros [H|[H|[H|[]]]]; discriminate.
        -- intros [id' [H [_ Hn]]]. inversion H; subst id'. exfalso. apply Hn.
           exists r. split; [assumption|]. now apply Z.eqb_eq.
      * split; [reflexivity|].
        erewrite added_suffix by (cbn [log]; rewrite <- ?app_assoc; reflexivity).
        cbn [map snd app]. split.
        -- intros _. exists id. repeat split; [assumption|].
           intros [r' [Hr' H']]. rewrite Hg in Hr'. inversion Hr'; subst r'.
           apply Z.eqb_neq in H200. contradiction.
        -- intros _. simpl. tauto.
  - split; [reflexivity|].
    erewrite added_suffix by (cbn [log]; rewrite <- ?app_assoc; reflexivity).
    cbn [map snd app]. split.
    + intros _. exists id. repeat split; [assumption|].
      intros [r' [Hr' _]]. rewrite Hg in Hr'. discriminate.
    + intros _. simpl. tauto.
Qed.

Lemma startup_auth_deletes_iff_witness :
  fst (startup_auth AuthExamples.w_registered (Some "42") (initial_state initial_session))
  = Ok tt
  /\ ~ In DeleteConfig
         (added (initial_state initial_session)
            (snd (startup_auth AuthExamples.w_registered (Some "42")
                    (initial_state initial_session)))).
Proof.
  destruct (startup_auth_deletes_iff AuthExamples.w_registered (Some "42")
              (initial_state initial_session)) as [T [D _]].
  split; [exact T|]. intros H. destruct (D H) as [id [Hid [_ Hn]]].
  inversion Hid; subst id. apply Hn.
  exists {| status_code := 200; text := "ok" |}. split; reflexivity.
Defined.

(** ** The retry loop when the client comes up *)

Lemma start_connector_run (w : world) (s : state) (fuel : nat) :
  (max_attempts < fuel)%nat ->
  let n := leading_failures w (nstart s) max_attempts in
  start_connector w fuel s =
  (Ok (Some tt),
   {| glob := glob s; nreq := nreq s;
      nstart := (nstart s + n + (if (n <? max_attempts)%nat then 1 else 0))%nat;
      log := (log s ++
              map (fun e => (glob s, e))
                (Print [Lit "Starting LCU connector..."]
                 :: failed_attempts w (nstart s) 0 n
                 ++ (if (n <? max_attempts)%nat
                     then [Start; Print [Lit "[DEBUG] Connector.start() succeeded"]]
                     else [exhausted_report])))%list |}).
Proof.
  intros Hfuel. cbv zeta.
  pose proof (leading_failures_le w max_attempts (nstart s)) as Hle.
  set (n := leading_failures w (nstart s) max_attempts) in *.
  unfold start_connector, print, emit, try_except, bind. cbn [fst snd].
  rewrite retry_loop_run; cbn [glob nreq nstart log]; [|lia|lia].
  rewrite Nat.sub_0_r. fold n. cbn [Nat.add].
  destruct (n <? max_attempts)%nat eqn:Hn.
  - apply Nat.ltb_lt in Hn.
    replace (max_attempts <=? n)%nat with false by (symmetry; apply Nat.leb_gt; lia).
    unfold ret. rewrite <- app_assoc. reflexivity.
  - apply Nat.ltb_ge in Hn.
    replace (max_attempts <=? n)%nat with true by (symmetry; apply Nat.leb_le; lia).
    unfold ret. cbn [fst snd glob nreq nstart log].
    rewrite app_nil_r, <- !app_assoc. cbn [app map]. rewrite map_app. reflexivity.
Qed.

Lemma leading_failures_until (w : world) (bound i k : nat) :
  (i < bound)%nat ->
  (forall j, (j < i)%nat -> exists e, connector_start w (k + j) = Raise e) ->
  connector_start w (k + i) = Ok tt ->
  leading_failures w k bound = i.
Proof.
  revert i k. induction bound as [|b IH]; intros i k Hi Hfail Hok; [lia|].
  cbn [leading_failures]. destruct i as [|i].
  - rewrite Nat.add_0_r in Hok. now rewrite Hok.
  - destruct (Hfail 0%nat ltac:(lia)) as [e He]. rewrite Nat.add_0_r in He. rewrite He.
    f_equal. apply IH; [lia| |].
    + intros j Hj. destruct (Hfail (S j) ltac:(lia)) as [e' He'].
      exists e'. now rewrite Nat.add_succ_comm.
    + now rewrite Nat.add_succ_comm.
Qed.

(** X23: When the game client comes up at the attempt after [i] failures
    ([i] below 30), the connector thread makes [i + 1] calls, sleeps 10
    seconds after each of the [i] failed ones, ends with the success
    line and never logs the exhaustion line. *)
Theorem start_connector_succeeds_after (w : world) (s : state) (fuel i : nat) :
  (max_attempts < fuel)%nat ->
  (i < max_attempts)%nat ->
  (forall j, (j < i)%nat -> exists e, connector_start w (nstart s + j) = Raise e) ->
  connector_start w (nstart s + i) = Ok tt ->
  let run := start_connector w fuel s in
  fst run = Ok (Some tt)
  /\ nstart (snd run) = (nstart s + i + 1)%nat
  /\ added s (snd run) =
     (Print [Lit "Starting LCU connector..."]
      :: failed_attempts w (nstart s) 0 i
      ++ [Start; Print [Lit "[DEBUG] Connector.start() succeeded"]])%list
  /\ filter is_exhausted_report (added s (snd run)) = [].
Proof.
  intros Hfuel Hi Hfail Hok. cbv zeta.
  rewrite (start_connector_run w s fuel Hfuel). cbv zeta.
  rewrite (leading_failures_until w max_attempts i (nstart s) Hi Hfail Hok).
  replace (i <? max_attempts)%nat with true by (symmetry; now apply Nat.ltb_lt).
  cbn [fst snd nstart]. split; [reflexivity|]. split; [reflexivity|].
  erewrite added_app by reflexivity. split; [reflexivity|].
  cbn [filter is_exhausted_report]. simpl String.eqb. cbn iota.
  rewrite filter_app, failed_attempts_no_report. reflexivity.
Qed.

Lemma start_connector_succeeds_after_witness :
  let run := start_connector ConnectorExamples.w_third 31 (initial_state initial_session) in
  fst run = Ok (Some tt)
  /\ nstart (snd run) = 3%nat
  /\ filter is_exhausted_report (added (initial_state initial_session) (snd run)) = [].
Proof.
  cbv zeta.
  assert (F : (max_attempts < 31)%nat) by (unfold max_attempts; lia).
  assert (I : (2 < max_attempts)%nat) by (unfold max_attempts; lia).
  assert (D : forall j, (j < 2)%nat ->
                        exists e, connector_start ConnectorExamples.w_third
                                    (nstart (initial_state initial_session) + j) = Raise e).
  { intros j Hj. exists (External "LCU not found"). simpl.
    destruct j as [|[|j]]; [reflexivity | reflexivity | lia]. }
  destruct (start_connector_succeeds_after ConnectorExamples.w_third
              (initial_state initial_session) 31 2 F I D eq_refl) as [T [N [_ R]]].
  split; [exact T | split; [exact N | exact R]].
Defined.

(** ** Registration *)

Ltac unfold_s :=
  repeat progress
    unfold Shell.try_except, Shell.bind, Shell.ret, Shell.lift, Shell.print,
      Shell.show_dialog, Shell.ask_for_input, Shell.requests_get, Shell.emit,
      Shell.get_globals, Shell.set_globals in *.

Definition is_shell_get (a : Shell.action) : bool :=
  match a with Shell.HttpGet _ _ _ => true | _ => false end.

Definition is_save (a : Shell.action) : bool :=
  match a with Shell.SaveConfig _ => true | _ => false end.

(** What a run has added to the trail of [s]. *)
Definition trailed (s s' : Shell.st) : list Shell.action :=
  skipn (length (Shell.trail s)) (Shell.trail s').

Lemma trailed_suffix (s s' : Shell.st) (new : list Shell.action) :
  Shell.trail s' = (Shell.trail s ++ new)%list -> trailed s s' = new.
Proof.
  intros H. unfold trailed. now rewrite H, skipn_app, Nat.sub_diag, skipn_all.
Qed.

Lemma startswith_nil (s : string) : Str.startswith s "" = true.
Proof. now destruct s. Qed.

Lemma contains_char_split (c : ascii) (s : string) :
  Str.contains s (String c "") = true ->
  exists a b, Str.split1 c s = [a; b] /\ s = a ++ String c b /\ Str.occurs c a = false.
Proof.
  induction s as [|x r IH]; [discriminate|].
  cbn [Str.contains Str.startswith Str.split1]. rewrite startswith_nil, andb_true_r.
  rewrite Ascii.eqb_sym. destruct (Ascii.eqb x c) eqn:E.
  - intros _. apply Ascii.eqb_eq in E. subst x. exists "", r. repeat split.
  - cbn [orb]. intros H. destruct (IH H) as [a [b [Hs [Hr Ho]]]].
    rewrite Hs. exists (String x a), b. repeat split.
    + now rewrite Hr.
    + cbn [Str.occurs]. now rewrite E, Ho.
Qed.

(** The step of [register_action] that makes sure of an identity,
    outcome by outcome. *)
Definition identity_dialog : Shell.action :=
  Shell.Dialog "yesno" "Summoner Info"
    [Lit "Could not automatically detect your summoner information. Would you like to enter it manually?"].

Definition identity_prompt : Shell.action :=
  Shell.AskInput "Enter Summoner Info"
    [Lit "Enter your Summoner Name#Tag (e.g., PlayerName#NA1):"].

Definition invalid_format : Shell.action :=
  Shell.Dialog "error" "Invalid Format" [Lit "Please use format: Name#Tag"].

Lemma ensure_identity_run (dk : Shell.desktop) (s : Shell.st) :
  let g := Shell.globals s in
  Shell.ensure_identity dk s =
  if negb (Py.truthy (summoner_name g)) || negb (Py.truthy (summoner_tag g)) then
    if Py.truthy (Shell.dialog_result dk "yesno" "Summoner Info"
                    [Lit "Could not automatically detect your summoner information. Would you like to enter it manually?"])
    then
      match Shell.typed dk "Enter Summoner Info"
              [Lit "Enter your Summoner Name#Tag (e.g., PlayerName#NA1):"] with
      | Some info =>
          match Str.split1 "#" info with
          | [a; b] =>
              if Str.is_empty info then
                (Ok false,
                 {| Shell.globals := g;
                    Shell.trail := (Shell.trail s
                                    ++ [identity_dialog; identity_prompt; invalid_format])%list |})
              else
                (Ok true,
                 {| Shell.globals :=
                      set_summoner_tag (VStr (Str.strip b))
                        (set_summoner_name (VStr (Str.strip a)) g);
                    Shell.trail := (Shell.trail s ++ [identity_dialog; identity_prompt])%list |})
          | _ =>
              (Ok false,
               {| Shell.globals := g;
                  Shell.trail := (Shell.trail s
                                  ++ [identity_dialog; identity_prompt; invalid_format])%list |})
          end
      | None =>
          (Ok false,
           {| Shell.globals := g;
              Shell.trail := (Shell.trail s
                              ++ [identity_dialog; identity_prompt; invalid_format])%list |})
      end
    else
      (Ok false, {| Shell.globals := g; Shell.trail := (Shell.trail s ++ [identity_dialog])%list |})
  else (Ok true, s).
Proof.
  cbv zeta. unfold Shell.ensure_identity, identity_dialog, identity_prompt, invalid_format.
  unfold_s. cbn [fst snd Shell.globals Shell.trail].
  destruct (negb (Py.truthy (summoner_name (Shell.globals s)))
            || negb (Py.truthy (summoner_tag (Shell.globals s)))); [|reflexivity].
  destruct (Py.truthy (Shell.dialog_result dk "yesno" "Summoner Info" _));
    cbn [fst snd Shell.globals Shell.trail]; [|reflexivity].
  destruct (Shell.typed dk "Enter Summoner Info" _) as [info|];
    cbn [fst snd Shell.globals Shell.trail]; [|now rewrite <- !app_assoc].
  destruct (Str.is_empty info) eqn:He; cbn [orb].
  - cbn [fst snd Shell.globals Shell.trail]. rewrite <- !app_assoc.
    destruct (Str.split1 "#" info) as [|a [|b [|c l]]]; reflexivity.
  - destruct (Str.contains info "#") eqn:Hc; cbn [negb].
    + destruct (contains_char_split "#" info Hc) as [a [b [Hs _]]]. rewrite Hs.
      cbn [Shell.item nth_error fst snd Shell.globals Shell.trail].
      now rewrite <- !app_assoc.
    + cbn [fst snd Shell.globals Shell.trail].
      assert (Hs : Str.split1 "#" info = [info]).
      { apply split1_absent. clear He. induction info as [|x r IH]; [reflexivity|].
        cbn [Str.contains Str.startswith] in Hc. rewrite startswith_nil, andb_true_r in Hc.
        apply orb_false_iff in Hc as [Hx Hr]. cbn [Str.occurs].
        rewrite Ascii.eqb_sym, Hx. now apply IH. }
      rewrite Hs. now rewrite <- !app_assoc.
Qed.

Definition code_prompt (g : session) : fstring :=
  ([Lit "Registering summoner: "] ++ Shell.display g ++
   [Lit (Shell.nl ++ "Enter the registration code provided by the League of Leagues bot:")])%list.

Definition otp_params (otp : string) (g : session) : list (string * fstring) :=
  [("otp_pass", [Fmt (VStr (Str.strip otp))]); ("summonersname", Shell.display g)].

Definition registration_failed (e : exn) : Shell.action :=
  Shell.Dialog "error" "Error" [Lit "Registration failed: "; FmtExn e].

(** What [register_action] does once the identity [g] is settled:
    from the code prompt on, case by case. *)
Definition register_code_trail (dk : Shell.desktop) (g : session) : list Shell.action :=
  Shell.AskInput "Enter Registration Code" (code_prompt g) ::
  match Shell.typed dk "Enter Registration Code" (code_prompt g) with
  | None => [Shell.Print [Lit "Registration cancelled."]]
  | Some otp =>
      if Str.is_empty otp then [Shell.Print [Lit "Registration cancelled."]]
      else
        Shell.HttpGet Shell.OTP_URL (otp_params otp g) 10 ::
        match Shell.get dk Shell.OTP_URL (otp_params otp g) with
        | Raise e => [registration_failed e]
        | Ok resp =>
            Shell.Print [Lit "/otp "; Fmt (VInt (status_code resp)); Lit ": ";
                         Fmt (VStr (text resp))] ::
            if (status_code resp =? 200) && negb (Str.is_empty (Str.strip (text resp)))
            then
              match Shell.save_outcome dk (Str.strip (text resp)) with
              | Ok _ =>
                  [Shell.SaveConfig (Str.strip (text resp));
                   Shell.Print [Lit "Saved config to "; Fmt (VStr (Shell.config_path dk))];
                   Shell.Dialog "info" "Registered" [Lit "Successfully registered!"]]
              | Raise e => [registration_failed e]
              end
            else
              [Shell.Dialog "error" "Registration Failed"
                 [Lit "Invalid registration code or server error."]]
        end
  end.

Definition trail_more (s : Shell.st) (new : list Shell.action) : Shell.st :=
  {| Shell.globals := Shell.globals s; Shell.trail := (Shell.trail s ++ new)%list |}.

Lemma register_action_run (dk : Shell.desktop) (s : Shell.st) :
  Shell.register_action dk s =
  (Ok tt,
   if negb (is_ready (Shell.globals s)) then
     trail_more s [Shell.Print [Lit "Register action triggered"];
                   Shell.Dialog "error" "Not Ready"
                     [Lit "Please open your League client first."]]
   else
     match Shell.ensure_identity dk
             (trail_more s [Shell.Print [Lit "Register action triggered"]]) with
     | (Ok true, s1) => trail_more s1 (register_code_trail dk (Shell.globals s1))
     | (_, s1) => s1
     end).
Proof.
  unfold Shell.register_action.
  remember (Shell.ensure_identity dk) as ens eqn:Hens.
  assert (E : forall s0, exists b s1, ens s0 = (Ok b, s1)).
  { intros s0. subst ens. rewrite ensure_identity_run. cbv zeta.
    repeat match goal with
           | |- context [if ?c then _ else _] => destruct c
           | |- context [match ?x with _ => _ end] => destruct x
           end; do 2 eexists; reflexivity. }
  clear Hens. unfold Shell.save_config, register_code_trail, trail_more, code_prompt,
    otp_params, registration_failed.
  unfold_s. cbn [fst snd Shell.globals Shell.trail].
  destruct (negb (is_ready (Shell.globals s))); cbn [fst snd Shell.globals Shell.trail];
    [now rewrite <- app_assoc|].
  destruct (E {| Shell.globals := Shell.globals s;
                 Shell.trail := (Shell.trail s ++ [Shell.Print [Lit "Register action triggered"]])%list |})
    as [b [s1 H1]].
  rewrite H1. destruct b; cbn [negb fst snd]; [|reflexivity].
  destruct (Shell.typed dk "Enter Registration Code" _) as [otp|];
    cbn [fst snd Shell.globals Shell.trail]; [|now rewrite <- !app_assoc].
  destruct (Str.is_empty otp); cbn [fst snd Shell.globals Shell.trail];
    [now rewrite <- !app_assoc|].
  destruct (Shell.get dk Shell.OTP_URL _) as [resp|e];
    cbn [fst snd Shell.globals Shell.trail]; [|now rewrite <- !app_assoc].
  destruct ((status_code resp =? 200) && negb (Str.is_empty (Str.strip (text resp))));
    cbn [fst snd Shell.globals Shell.trail]; [|now rewrite <- !app_assoc].
  destruct (Shell.save_outcome dk (Str.strip (text resp))) as [[]|e];
    unfold_s; cbn [fst snd Shell.globals Shell.trail]; now rewrite <- !app_assoc.
Qed.

Ltac split_cases :=
  repeat match goal with
         | |- context [match ?x with _ => _ end] =>
             lazymatch x with
             | context [match _ with _ => _ end] => fail
             | _ => destruct x eqn:?
             end
         end.

(** X24: Whatever the user and the backend do, [register_action] returns
    normally, never touches the ready flag, the phase or the region,
    sends at most one request and saves at most once. *)
Theorem register_action_contained (dk : Shell.desktop) (s : Shell.st) :
  exists g' new,
    Shell.register_action dk s =
    (Ok tt, {| Shell.globals := g'; Shell.trail := (Shell.trail s ++ new)%list |})
    /\ is_ready g' = is_ready (Shell.globals s)
    /\ current_phase g' = current_phase (Shell.globals s)
    /\ region g' = region (Shell.globals s)
    /\ (length (filter is_shell_get new) <= 1)%nat
    /\ (length (filter is_save new) <= 1)%nat.
Proof.
  rewrite register_action_run. destruct s as [g t].
  unfold trail_more. cbn [Shell.globals Shell.trail].
  destruct (negb (is_ready g)).
  { do 2 eexists. split; [reflexivity|]. simpl. repeat split; lia. }
  rewrite ensure_identity_run. cbv zeta. cbn [Shell.globals Shell.trail].
  unfold register_code_trail, identity_dialog, identity_prompt, invalid_format,
    registration_failed.
  split_cases; cbn [Shell.globals Shell.trail]; rewrite <- ?app_assoc;
    first [ exists g, [Shell.Print [Lit "Register action triggered"]];
            split; [reflexivity|]; simpl; repeat split; lia
          | do 2 eexists; split; [reflexivity|]; simpl; repeat split; lia ].
Qed.

(** X25: The settings file is written only with the stripped, non-empty
    body of a 200 answer to a non-empty registration code that the user
    typed at the code prompt, while the client was ready. *)
Theorem register_saves_only_valid_token (dk : Shell.desktop) (s : Shell.st) (x : string) :
  In (Shell.SaveConfig x) (trailed s (snd (Shell.register_action dk s))) ->
  exists otp g resp,
    is_ready (Shell.globals s) = true
    /\ Shell.typed dk "Enter Registration Code" (code_prompt g) = Some otp
    /\ Str.is_empty otp = false
    /\ Shell.get dk Shell.OTP_URL (otp_params otp g) = Ok resp
    /\ status_code resp = 200
    /\ x = Str.strip (text resp)
    /\ Str.is_empty x = false.
Proof.
  rewrite register_action_run. destruct s as [g t].
  unfold trail_more. cbn [snd Shell.globals Shell.trail].
  destruct (is_ready g) eqn:Hr; cbn [negb].
  2:{ erewrite trailed_suffix by reflexivity. simpl. intuition discriminate. }
  rewrite ensure_identity_run. cbv zeta. cbn [Shell.globals Shell.trail].
  assert (K : forall g1 pre,
             In (Shell.SaveConfig x)
               (trailed {| Shell.globals := g; Shell.trail := t |}
                  {| Shell.globals := g1;
                     Shell.trail := ((t ++ pre) ++ register_code_trail dk g1)%list |}) ->
             filter is_save pre = [] ->
             exists otp g0 resp,
               true = true
               /\ Shell.typed dk "Enter Registration Code" (code_prompt g0) = Some otp
               /\ Str.is_empty otp = false
               /\ Shell.get dk Shell.OTP_URL (otp_params otp g0) = Ok resp
               /\ status_code resp = 200
               /\ x = Str.strip (text resp)
               /\ Str.is_empty x = false).
  { intros g1 pre H Hpre.
    erewrite trailed_suffix in H by (cbn [Shell.trail]; rewrite <- app_assoc; reflexivity).
    apply in_app_or in H as [H|H].
    { exfalso. assert (In (Shell.SaveConfig x) (filter is_save pre))
        by (apply filter_In; split; [assumption | reflexivity]).
      rewrite Hpre in H0. contradiction. }
    unfold register_code_trail in H.
    destruct (Shell.typed dk "Enter Registration Code" (code_prompt g1)) as [otp|] eqn:Ht;
      [|simpl in H; intuition discriminate].
    destruct (Str.is_empty otp) eqn:He; [simpl in H; intuition discriminate|].
    destruct (Shell.get dk Shell.OTP_URL (otp_params otp g1)) as [resp|e] eqn:Hg;
      [|simpl in H; intuition discriminate].
    destruct (status_code resp =? 200) eqn:H200; cbn [andb] in H;
      [|simpl in H; intuition discriminate].
    destruct (Str.is_empty (Str.strip (text resp))) eqn:Hb; cbn [negb] in H;
      [simpl in H; intuition discriminate|].
    destruct (Shell.save_outcome dk (Str.strip (text resp))) as [[]|e];
      [|simpl in H; intuition discriminate].
    destruct H as [H|[H|[H|[H|[H|[H|[]]]]]]]; try discriminate.
    inversion H; subst x. exists otp, g1, resp.
    repeat split; try assumption. now apply Z.eqb_eq. }
  split_cases; cbn [Shell.globals Shell.trail];
    first
      [ intros H; erewrite trailed_suffix in H
          by (cbn [Shell.trail]; rewrite <- ?app_assoc; reflexivity);
        simpl in H; intuition discriminate
      | intros H; rewrite <- (app_assoc t) in H;
        eapply (K _ [Shell.Print [Lit "Register action triggered"]; identity_dialog;
                     identity_prompt]); [exact H | reflexivity]
      | intros H; eapply (K _ [Shell.Print [Lit "Register action triggered"]]);
        [exact H | reflexivity] ].
Qed.

Module RegisterExamples.

(** A desktop where the user agrees to type the identity, types
    [info] and then [code], and the backend answers [answer]. *)
Definition dk_typing (info code : option string) (answer : result http_response)
  : Shell.desktop :=
  {| Shell.dialog_result := fun kind _ _ =>
       if String.eqb kind "yesno" then VBool true else VStr "ok";
     Shell.typed := fun title _ =>
       if String.eqb title "Enter Summoner Info" then info else code;
     Shell.get := fun _ _ => answer;
     Shell.save_outcome := fun _ => Ok tt;
     Shell.config := Ok Shell.NoFile;
     Shell.json_loads := fun _ => Raise (External "JSONDecodeError");
     Shell.config_path := "settings.cfg" |}.

(** Ready, identity not yet detected. *)
Definition undetected : Shell.st :=
  {| Shell.globals := set_is_ready true initial_session; Shell.trail := [] |}.

(** Ready, logged in as Bea on EUW. *)
Definition detected : Shell.st :=
  {| Shell.globals := SessionExamples.bea; Shell.trail := [] |}.

End RegisterExamples.

Example register_action_registers :
  Shell.trail
    (snd (Shell.register_action
            (RegisterExamples.dk_typing None (Some " 123456 ")
               (Ok {| status_code := 200; text := "token-1 " |}))
            RegisterExamples.detected))
  = [Shell.Print [Lit "Register action triggered"];
     Shell.AskInput "Enter Registration Code" (code_prompt SessionExamples.bea);
     Shell.HttpGet "https://rust.gameras.gr/otp"
       [("otp_pass", [Fmt (VStr "123456")]);
        ("summonersname",
         [Fmt (VStr "Bea"); Lit "#"; Fmt (VStr "EUW"); Lit ","; Fmt (VStr "EUW")])] 10;
     Shell.Print [Lit "/otp "; Fmt (VInt 200); Lit ": "; Fmt (VStr "token-1 ")];
     Shell.SaveConfig "token-1";
     Shell.Print [Lit "Saved config to "; Fmt (VStr "settings.cfg")];
     Shell.Dialog "info" "Registered" [Lit "Successfully registered!"]].
Proof. reflexivity. Qed.

Lemma register_action_contained_witness :
  exists g' new,
    Shell.register_action
      (RegisterExamples.dk_typing None (Some "123456")
         (Ok {| status_code := 200; text := "token-1" |}))
      RegisterExamples.detected =
    (Ok tt, {| Shell.globals := g';
               Shell.trail := (Shell.trail RegisterExamples.detected ++ new)%list |})
    /\ is_ready g' = true.
Proof.
  destruct (register_action_contained
              (RegisterExamples.dk_typing None (Some "123456")
                 (Ok {| status_code := 200; text := "token-1" |}))
              RegisterExamples.detected) as [g' [new [E [R _]]]].
  exists g', new. split; [exact E | exact R].
Defined.

Lemma register_saves_only_valid_token_witness :
  exists otp g resp,
    is_ready (Shell.globals RegisterExamples.detected) = true
    /\ Shell.typed (RegisterExamples.dk_typing None (Some " 123456 ")
                      (Ok {| status_code := 200; text := "token-1 " |}))
         "Enter Registration Code" (code_prompt g) = Some otp
    /\ Str.is_empty otp = false
    /\ Shell.get (RegisterExamples.dk_typing None (Some " 123456 ")
                    (Ok {| status_code := 200; text := "token-1 " |}))
         Shell.OTP_URL (otp_params otp g) = Ok resp
    /\ status_code resp = 200
    /\ "token-1" = Str.strip (text resp)
    /\ Str.is_empty "token-1" = false.
Proof.
  apply (register_saves_only_valid_token
           (RegisterExamples.dk_typing None (Some " 123456 ")
              (Ok {| status_code := 200; text := "token-1 " |}))
           RegisterExamples.detected "token-1").
  do 4 right. left. reflexivity.
Defined.

(** X26: A manual entry [name#tag] is written into the session at once,
    each part stripped of surrounding whitespace, and stays there
    whatever becomes of the registration; nothing checks that the parts
    are not blank. *)
Theorem register_manual_entry_kept (dk : Shell.desktop) (s : Shell.st)
  (name tag : string) :
  is_ready (Shell.globals s) = true ->
  Py.truthy (summoner_name (Shell.globals s)) = false
  \/ Py.truthy (summoner_tag (Shell.globals s)) = false ->
  Py.truthy (Shell.dialog_result dk "yesno" "Summoner Info"
               [Lit "Could not automatically detect your summoner information. Would you like to enter it manually?"])
  = true ->
  Shell.typed dk "Enter Summoner Info"
    [Lit "Enter your Summoner Name#Tag (e.g., PlayerName#NA1):"]
  = Some (name ++ "#" ++ tag) ->
  Str.occurs "#" name = false ->
  let after := Shell.globals (snd (Shell.register_action dk s)) in
  summoner_name after = VStr (Str.strip name)
  /\ summoner_tag after = VStr (Str.strip tag)
  /\ exists rest,
      trailed s (snd (Shell.register_action dk s)) =
      Shell.Print [Lit "Register action triggered"]
      :: identity_dialog :: identity_prompt
      :: Shell.AskInput "Enter Registration Code" (code_prompt after) :: rest.
Proof.
  intros Hr Hp Hy Ht Hn. cbv zeta. rewrite register_action_run. rewrite Hr. cbn [negb snd].
  rewrite ensure_identity_run. cbv zeta. unfold trail_more.
  cbn [Shell.globals Shell.trail].
  assert (P : negb (Py.truthy (summoner_name (Shell.globals s)))
              || negb (Py.truthy (summoner_tag (Shell.globals s))) = true).
  { destruct Hp as [H|H]; rewrite H; [reflexivity | apply orb_true_r]. }
  rewrite P, Hy, Ht.
  change (name ++ "#" ++ tag) with (name ++ String "#" tag).
  rewrite (split1_first "#" name tag Hn).
  replace (Str.is_empty (name ++ String "#" tag)) with false by (now destruct name).
  cbn [Shell.globals Shell.trail summoner_name summoner_tag
         set_summoner_name set_summoner_tag].
  split; [reflexivity|]. split; [reflexivity|].
  erewrite trailed_suffix by (cbn [Shell.trail]; rewrite <- !app_assoc; reflexivity).
  unfold register_code_trail. cbn [app]. eexists. reflexivity.
Qed.

Lemma register_manual_entry_kept_witness :
  let dk := RegisterExamples.dk_typing (Some " Ana # NA1 ") None (Raise (External "unused")) in
  let after := Shell.globals (snd (Shell.register_action dk RegisterExamples.undetected)) in
  summoner_name after = VStr "Ana" /\ summoner_tag after = VStr "NA1".
Proof.
  cbv zeta.
  destruct (register_manual_entry_kept
              (RegisterExamples.dk_typing (Some " Ana # NA1 ") None (Raise (External "unused")))
              RegisterExamples.undetected " Ana " " NA1 "
              eq_refl (or_introl eq_refl) eq_refl eq_refl eq_refl) as [N [T _]].
  split; [exact N | exact T].
Defined.

(** X27: A manual entry that is missing, empty or without a [#] stops the
    registration with the "Invalid Format" dialog: nothing is asked of
    the backend, nothing is saved, the session is as before. *)
Theorem register_invalid_manual_entry (dk : Shell.desktop) (s : Shell.st) :
  is_ready (Shell.globals s) = true ->
  Py.truthy (summoner_name (Shell.globals s)) = false
  \/ Py.truthy (summoner_tag (Shell.globals s)) = false ->
  Py.truthy (Shell.dialog_result dk "yesno" "Summoner Info"
               [Lit "Could not automatically detect your summoner information. Would you like to enter it manually?"])
  = true ->
  Shell.typed dk "Enter Summoner Info"
    [Lit "Enter your Summoner Name#Tag (e.g., PlayerName#NA1):"] = None
  \/ (exists info,
         Shell.typed dk "Enter Summoner Info"
           [Lit "Enter your Summoner Name#Tag (e.g., PlayerName#NA1):"] = Some info
         /\ Str.occurs "#" info = false) ->
  Shell.register_action dk s =
  (Ok tt,
   trail_more s [Shell.Print [Lit "Register action triggered"];
                 identity_dialog; identity_prompt; invalid_format]).
Proof.
  intros Hr Hp Hy Ht. rewrite register_action_run. rewrite Hr. cbn [negb].
  rewrite ensure_identity_run. cbv zeta. unfold trail_more.
  cbn [Shell.globals Shell.trail].
  assert (P : negb (Py.truthy (summoner_name (Shell.globals s)))
              || negb (Py.truthy (summoner_tag (Shell.globals s))) = true).
  { destruct Hp as [H|H]; rewrite H; [reflexivity | apply orb_true_r]. }
  rewrite P, Hy.
  destruct Ht as [Ht | [info [Ht Hn]]]; rewrite Ht.
  - now rewrite <- app_assoc.
  - rewrite (split1_absent "#" info Hn). now rewrite <- app_assoc.
Qed.

Lemma register_invalid_manual_entry_witness :
  let dk := RegisterExamples.dk_typing (Some "Ana NA1") (Some "123456")
              (Ok {| status_code := 200; text := "token-1" |}) in
  Shell.register_action dk RegisterExamples.undetected =
  (Ok tt,
   trail_more RegisterExamples.undetected
     [Shell.Print [Lit "Register action triggered"];
      identity_dialog; identity_prompt; invalid_format]).
Proof.
  cbv zeta.
  apply register_invalid_manual_entry; try reflexivity.
  - left. reflexivity.
  - right. exists "Ana NA1". split; reflexivity.
Defined.

(** ** The settings file *)

Lemma rstrip_idempotent (s : string) : Str.rstrip (Str.rstrip s) = Str.rstrip s.
Proof.
  induction s as [|c r IH]; [reflexivity|]. cbn [Str.rstrip].
  destruct (Str.rstrip r) as [|x y] eqn:E.
  - destruct (Str.isspace c) eqn:Hc; [reflexivity|]. cbn [Str.rstrip]. now rewrite Hc.
  - cbn [Str.rstrip]. cbn [Str.rstrip] in IH. now rewrite IH.
Qed.

Lemma lstrip_head (s : string) :
  Str.lstrip s = "" \/ exists c r, Str.lstrip s = String c r /\ Str.isspace c = false.
Proof.
  induction s as [|c r IH]; [now left|]. cbn [Str.lstrip].
  destruct (Str.isspace c) eqn:Hc; [exact IH|]. right. now exists c, r.
Qed.

Lemma strip_idempotent (s : string) : Str.strip (Str.strip s) = Str.strip s.
Proof.
  unfold Str.strip. destruct (lstrip_head s) as [E | [c [r [E Hc]]]]; rewrite E.
  - reflexivity.
  - assert (H : exists r', Str.rstrip (String c r) = String c r').
    { cbn [Str.rstrip]. destruct (Str.rstrip r); [rewrite Hc|]; eexists; reflexivity. }
    destruct H as [r' H]. rewrite H. cbn [Str.lstrip]. rewrite Hc.
    rewrite <- H. apply rstrip_idempotent.
Qed.

(** X28: What [register_action] saves reads back: when the settings file
    holds a stripped, non-empty body that does not decode to a
    dictionary, [load_config] returns that very text as the id. *)
Theorem load_config_returns_saved_token (dk : Shell.desktop) (s : Shell.st) (body : string) :
  Shell.config dk = Ok (Shell.File (Some (Str.strip body))) ->
  Str.is_empty (Str.strip body) = false ->
  (forall d, Shell.json_loads dk (Str.strip body) <> Ok (VDict d)) ->
  Shell.load_config dk s = (Ok (VDict [("discord_id", VStr (Str.strip body))]), s).
Proof.
  intros Hc He Hj. unfold Shell.load_config. rewrite Hc.
  unfold Shell.stripped_or_none. rewrite He, strip_idempotent.
  destruct (Shell.json_loads dk (Str.strip body)) as [v|e]; [|reflexivity].
  destruct v; try reflexivity. exfalso. eapply Hj. reflexivity.
Qed.

Lemma load_config_returns_saved_token_witness :
  let dk := {| Shell.dialog_result := fun _ _ _ => VNone;
               Shell.typed := fun _ _ => None;
               Shell.get := fun _ _ => Raise (External "offline");
               Shell.save_outcome := fun _ => Ok tt;
               Shell.config := Ok (Shell.File (Some "token-1"));
               Shell.json_loads := fun _ => Raise (External "JSONDecodeError");
               Shell.config_path := "settings.cfg" |} in
  Shell.load_config dk RegisterExamples.detected =
  (Ok (VDict [("discord_id", VStr "token-1")]), RegisterExamples.detected).
Proof.
  cbv zeta.
  apply (load_config_returns_saved_token _ RegisterExamples.detected "token-1 ");
    [reflexivity | reflexivity | intros d; discriminate].
Defined.

(** X29: "Check Status" only reads: it sends nothing and leaves the
    session and the settings alone.  With a readable settings file it
    shows one information dialog, in which the tag is replaced by
    "Not detected" unless both name and tag are known, and
    registration reads "Yes" exactly when a non-empty id is stored;
    when the settings file cannot be read, the command raises that
    error after its trigger line and shows nothing. *)
Theorem check_status_action_reads_only (dk : Shell.desktop) (s : Shell.st) :
  let run := Shell.check_status_action dk s in
  Shell.globals (snd run) = Shell.globals s
  /\ filter is_shell_get (trailed s (snd run)) = []
  /\ filter is_save (trailed s (snd run)) = []
  /\ (forall e, Shell.config dk = Raise e ->
                run = (Raise e, trail_more s [Shell.Print [Lit "Check status action triggered"]]))
  /\ (forall f, Shell.config dk = Ok f ->
                exists id msg,
                  Shell.load_config dk s = (Ok (VDict [("discord_id", id)]), s)
                  /\ run = (Ok tt,
                            trail_more s
                              [Shell.Print [Lit "Check status action triggered"];
                               Shell.Dialog "info" "League of Leagues Status" msg])
                  /\ nth_error msg 7 =
                     Some (Fmt (if Py.truthy (summoner_name (Shell.globals s))
                                   && Py.truthy (summoner_tag (Shell.globals s))
                                then summoner_tag (Shell.globals s)
                                else VStr "Not detected"))
                  /\ nth_error msg 13 =
                     Some (Fmt (VStr (if Py.truthy id then "Yes" else "No")))).
Proof.
  cbv zeta. unfold Shell.check_status_action, Shell.load_config, trail_more.
  destruct (Shell.config dk) as [f|e] eqn:Hc.
  - assert (L : exists id,
               (match f with
                | Shell.NoFile => Shell.ret (VDict [("discord_id", VNone)])
                | Shell.File raw =>
                    Shell.ret
                      (VDict
                         [("discord_id",
                           match raw with
                           | Some r =>
                               match Shell.json_loads dk r with
                               | Ok v =>
                                   match Py.get v "discord_id" VNone with
                                   | Ok id => id
                                   | Raise _ => Shell.stripped_or_none raw
                                   end
                               | Raise _ => Shell.stripped_or_none raw
                               end
                           | None => Shell.stripped_or_none raw
                           end)])
                end) = Shell.ret (VDict [("discord_id", id)])).
    { destruct f; eexists; reflexivity. }
    destruct L as [id L]. rewrite L. unfold_s.
    cbn [fst snd Shell.globals Shell.trail Py.get Py.lookup String.eqb].
    replace ("discord_id" =? "discord_id")%string with true by reflexivity.
    cbn [fst snd Shell.globals Shell.trail].
    split; [reflexivity|].
    erewrite trailed_suffix by (cbn [Shell.trail]; rewrite <- app_assoc; reflexivity).
    split; [reflexivity|]. split; [reflexivity|]. split; [intros e; discriminate|].
    intros f' Hf'. exists id. eexists. split; [reflexivity|].
    rewrite <- app_assoc. split; [reflexivity|]. split; reflexivity.
  - unfold_s. cbn [fst snd Shell.globals Shell.trail].
    split; [reflexivity|].
    erewrite trailed_suffix by reflexivity.
    split; [reflexivity|]. split; [reflexivity|]. split.
    + intros e' H. now inversion H.
    + intros f H. discriminate.
Qed.

Lemma check_status_action_reads_only_witness :
  let dk := RegisterExamples.dk_typing None None (Raise (External "offline")) in
  Shell.globals (snd (Shell.check_status_action dk RegisterExamples.undetected))
  = Shell.globals RegisterExamples.undetected
  /\ exists id msg,
      Shell.load_config dk RegisterExamples.undetected
      = (Ok (VDict [("discord_id", id)]), RegisterExamples.undetected)
      /\ Shell.check_status_action dk RegisterExamples.undetected =
         (Ok tt,
          trail_more RegisterExamples.undetected
            [Shell.Print [Lit "Check status action triggered"];
             Shell.Dialog "info" "League of Leagues Status" msg])
      /\ nth_error msg 7 = Some (Fmt (VStr "Not detected"))
      /\ nth_error msg 13 = Some (Fmt (VStr (if Py.truthy id then "Yes" else "No"))).
Proof.
  cbv zeta.
  destruct (check_status_action_reads_only
              (RegisterExamples.dk_typing None None (Raise (External "offline")))
              RegisterExamples.undetected) as [G [_ [_ [_ R]]]].
  split; [exact G|]. exact (R Shell.NoFile eq_refl).
Defined.

(** ** Window placement *)

Example center_geometry_small_window :
  center_geometry 1920 1080 1 1 = (300, 200, 810, 440).
Proof. reflexivity. Qed.

(** X30: [center_window] never sets a size below 100 in either direction
    (a smaller window is made 300 by 200), and places the window so
    that the margins left and right, and above and below, differ by at
    most one pixel; the position is non-negative exactly when the window
    fits the screen. *)
Theorem center_window_centered (screen_width screen_height window_width window_height : Z) :
  let '(w, h, x, y) :=
    center_geometry screen_width screen_height window_width window_height in
  100 <= w /\ 100 <= h
  /\ 0 <= (screen_width - w - x) - x <= 1
  /\ 0 <= (screen_height - h - y) - y <= 1
  /\ (0 <= x <-> w <= screen_width)
  /\ (0 <= y <-> h <= screen_height)
  /\ ((w, h) = (window_width, window_height) \/ (w, h) = (300, 200)).
Proof.
  unfold center_geometry. cbv zeta.
  destruct (window_width <? 100) eqn:Hw; destruct (window_height <? 100) eqn:Hh;
    cbn [orb];
    try apply Z.ltb_lt in Hw; try apply Z.ltb_ge in Hw;
    try apply Z.ltb_lt in Hh; try apply Z.ltb_ge in Hh;
    repeat split; try lia; auto;
    try (pose proof (Z.div_mod (screen_width - 300) 2 ltac:(lia));
         pose proof (Z.mod_pos_bound (screen_width - 300) 2 ltac:(lia)); lia);
    try (pose proof (Z.div_mod (screen_height - 200) 2 ltac:(lia));
         pose proof (Z.mod_pos_bound (screen_height - 200) 2 ltac:(lia)); lia);
    try (pose proof (Z.div_mod (screen_width - window_width) 2 ltac:(lia));
         pose proof (Z.mod_pos_bound (screen_width - window_width) 2 ltac:(lia)); lia);
    try (pose proof (Z.div_mod (screen_height - window_height) 2 ltac:(lia));
         pose proof (Z.mod_pos_bound (screen_height - window_height) 2 ltac:(lia)); lia).
Qed.

Lemma center_window_centered_witness :
  let '(w, h, x, y) := center_geometry 1366 768 400 201 in
  0 <= (1366 - w - x) - x <= 1 /\ 0 <= (768 - h - y) - y <= 1.
Proof.
  pose proof (center_window_centered 1366 768 400 201) as H.
  vm_compute in H. vm_compute. destruct H as [_ [_ [A [B _]]]]. split; [exact A | exact B].
Defined.
